(** * multiCam network controller: device command/control protocol client

    A shallow embedding of [pythonController/testNetworkCommands.py]
    (class [MultiCamController]): the device link [send_command] with its
    file-transfer path [_handle_file_download], the broadcast
    [send_command_to_all] and the clock estimator
    [check_clock_synchronization]; then the registry of devices (the
    callbacks of the discovery listener and [manual_connect]), the listing
    [list_files_on_all_devices] and the branches [start], [stop] and
    [download-all] of [interactive_mode].

    Modelling conventions.
    - Python values (the results of [json.loads], and everything a method
      returns) are the inductive [pyval]; [True]/[False] are [PBool].
    - Python ints are [Z].  A finite Python float is the rational ([Q]) it
      denotes, and [nan] and the infinities are values of their own
      ([nonfinite]).  The clock estimator computes in binary64: it rounds
      what it reads and the result of each operation ([round64]), so that a
      rational that is no binary64 number stands for the one nearest to it.
      The timestamps of the requests and the sizes of a transfer are taken
      exactly.
    - Exceptions, sockets, the wall clock and the download directory are
      explicit: a computation is a function from a [world] to a [result]
      and a new [world].  [print] calls are dropped.
    - [json.loads], [json.dumps], [str] and the behaviour of the peers are
      not code of the controller: they live in the environment [env].
    - A peer is a script: whether [connect] and [send] go through, and what
      the successive reads meet (bytes, a timeout or another fault, the end
      of the stream).  A script is finite: a peer that never stops sending,
      against which a read loop of the controller never ends, is outside
      the model.  [send] transmits all of its data, [f.write] always
      succeeds, and a socket is closed by [sock.close()] only (what the
      garbage collector does to a dropped socket is outside the model).
    - The threads of [send_command_to_all] only share the [results] dict,
      each writing its own key; they are run one after the other in the
      order in which they are started.
    - What zeroconf reports of a service is given to the listener's
      callbacks; the dates that [time.localtime] can convert are a
      parameter of the listing. *)

From Stdlib Require Import List Permutation String Ascii ZArith QArith Qabs Bool Lia.
From Stdlib Require Import Strings.Byte DecimalString.
From Stdlib Require Floats.SpecFloat.
Import ListNotations.
Open Scope string_scope.
Open Scope Z_scope.
Open Scope list_scope.

(** ** Python values *)

Definition bytes := list byte.

(** The floats that are no numbers of [Q]: [float('nan')], [float('inf')]
    and [float('-inf')].  [json.loads] reads them from the texts [NaN],
    [Infinity] and [-Infinity]. *)
Inductive nonfinite :=
| NaN
| Infinity (negative : bool).

#[warnings="-register-all"]
Inductive pyval : Type :=
| PNone
| PBool (b : bool)
| PInt (z : Z)
| PFloat (q : Q)
| PNonFinite (x : nonfinite)
| PStr (s : string)
| PList (l : list pyval)
| PDict (d : list (string * pyval)).

(** A [dict] with [str] keys: insertion ordered, one entry per key. *)
Definition dict (V : Type) := list (string * V).

Fixpoint dict_get {V} (k : string) (d : dict V) : option V :=
  match d with
  | [] => None
  | (k', v) :: d' => if String.eqb k k' then Some v else dict_get k d'
  end.

Definition dict_has {V} (k : string) (d : dict V) : bool :=
  match dict_get k d with Some _ => true | None => false end.

(** [d[k] = v] *)
Fixpoint dict_set {V} (k : string) (v : V) (d : dict V) : dict V :=
  match d with
  | [] => [(k, v)]
  | (k', v') :: d' =>
      if String.eqb k k' then (k, v) :: d' else (k', v') :: dict_set k v d'
  end.

Definition keys {V} (d : dict V) : list string := map fst d.

(** Truth value of a Python object, as tested by [if], [and], [or]. *)
Definition truthy (v : pyval) : bool :=
  match v with
  | PNone => false
  | PBool b => b
  | PInt z => negb (z =? 0)
  | PFloat q => negb (Qeq_bool q 0)
  | PNonFinite _ => true
  | PStr s => negb (String.eqb s "")
  | PList l => match l with [] => false | _ => true end
  | PDict d => match d with [] => false | _ => true end
  end.

Definition is_str (v : pyval) : bool :=
  match v with PStr _ => true | _ => false end.

Definition is_dict (v : pyval) : bool :=
  match v with PDict _ => true | _ => false end.

(** ** Exceptions and results *)

Inductive exn :=
| SocketTimeout      (* socket.timeout *)
| OSError            (* connection refused, reset, bad descriptor, disk *)
| JSONDecodeError    (* also UnicodeDecodeError: the bytes do not decode *)
| KeyError
| TypeError
| ValueError
| OverflowError.

(** [Stuck] is the loop bound running out; it is no Python outcome, and
    [send_command_run] shows that it does not occur with the bound that
    [with_fuel] takes from the finite script of the peer. *)
Inductive result (A : Type) :=
| Ret (a : A)
| Raise (e : exn)
| Stuck.
Arguments Ret {A} a.
Arguments Raise {A} e.
Arguments Stuck {A}.

(** [k in v] for a [str] key. *)
Definition substring_of (k s : string) : bool :=
  match String.index 0 k s with Some _ => true | None => false end.

Definition py_contains (k : string) (v : pyval) : result bool :=
  match v with
  | PDict d => Ret (dict_has k d)
  | PList l =>
      Ret (existsb (fun x => match x with PStr s => String.eqb s k | _ => false end) l)
  | PStr s => Ret (substring_of k s)
  | _ => Raise TypeError
  end.

(** [v[k]] for a [str] key. *)
Definition py_getitem (v : pyval) (k : string) : result pyval :=
  match v with
  | PDict d => match dict_get k d with Some x => Ret x | None => Raise KeyError end
  | _ => Raise TypeError
  end.

(** The numbers among the Python values ([bool] is a subclass of [int]). *)
Inductive num := NInt (z : Z) | NFloat (q : Q) | NNonFinite (x : nonfinite).

Definition as_num (v : pyval) : option num :=
  match v with
  | PBool b => Some (NInt (if b then 1 else 0))
  | PInt z => Some (NInt z)
  | PFloat q => Some (NFloat q)
  | PNonFinite x => Some (NNonFinite x)
  | _ => None
  end.

Definition Qltb (a b : Q) : bool := negb (Qle_bool b a).

(** [z < n] for an [int] [z]: the comparison of an [int] with a [float] is
    exact, and false with [nan]. *)
Definition int_lt (z : Z) (n : num) : bool :=
  match n with
  | NInt x => Qltb (inject_Z z) (inject_Z x)
  | NFloat q => Qltb (inject_Z z) q
  | NNonFinite NaN => false
  | NNonFinite (Infinity negative) => negb negative
  end.

(** [n < z] for an [int] [z]. *)
Definition lt_int (n : num) (z : Z) : bool :=
  match n with
  | NInt x => Qltb (inject_Z x) (inject_Z z)
  | NFloat q => Qltb q (inject_Z z)
  | NNonFinite NaN => false
  | NNonFinite (Infinity negative) => negative
  end.

(** An [int] is too large for a [float] from [2^1024 - 2^970] on: [float(z)]
    and the mixed arithmetic of an [int] with a [float] raise. *)
Definition too_large_for_float (z : Z) : bool := 2 ^ 1024 - 2 ^ 970 <=? Z.abs z.

(** [z / 1024] of an [int] raises when the quotient is too large. *)
Definition quotient_too_large (z : Z) : bool :=
  1024 * (2 ^ 1024 - 2 ^ 970) <=? Z.abs z.

(** ** Float arithmetic

    A [float] is a binary64 number: a finite one is the rational it
    denotes, and an operation gives its exact result rounded to the nearest
    binary64 number, ties to even, or an infinity when that is out of range
    ([round64], through the division of the standard library's
    specification of IEEE 754).  The sign of a zero is not kept. *)
Inductive float :=
| Finite (q : Q)
| NonFinite (x : nonfinite).

Definition pow2 (e : Z) : Q :=
  match e with
  | Z0 => 1
  | Zpos p => inject_Z (2 ^ Zpos p)
  | Zneg p => 1 # (2 ^ p)
  end.

Definition of_spec (f : SpecFloat.spec_float) : float :=
  match f with
  | SpecFloat.S754_zero _ => Finite 0
  | SpecFloat.S754_infinity s => NonFinite (Infinity s)
  | SpecFloat.S754_nan => NonFinite NaN
  | SpecFloat.S754_finite s m e =>
      Finite (Qred (inject_Z (if s then Zneg m else Zpos m) * pow2 e))
  end.

(** The binary64 number nearest to [q]: the value of [float(s)] and of
    [json.loads(s)] for a decimal text [s] of [q]. *)
Definition round64 (q : Q) : float :=
  let quotient (negative : bool) (n : positive) :=
    of_spec (SpecFloat.SFdiv 53 1024 (SpecFloat.S754_finite negative n 0)
                                     (SpecFloat.S754_finite false (Qden q) 0)) in
  match Qnum q with
  | Z0 => Finite 0
  | Zpos n => quotient false n
  | Zneg n => quotient true n
  end.

(** [a + b] *)
Definition fadd (a b : float) : float :=
  match a, b with
  | Finite p, Finite q => round64 (p + q)
  | NonFinite NaN, _ | _, NonFinite NaN => NonFinite NaN
  | NonFinite (Infinity s), Finite _ | Finite _, NonFinite (Infinity s) =>
      NonFinite (Infinity s)
  | NonFinite (Infinity s), NonFinite (Infinity s') =>
      if Bool.eqb s s' then NonFinite (Infinity s) else NonFinite NaN
  end.

(** [- a] *)
Definition fneg (a : float) : float :=
  match a with
  | Finite q => Finite (- q)
  | NonFinite NaN => NonFinite NaN
  | NonFinite (Infinity s) => NonFinite (Infinity (negb s))
  end.

(** [a - b] *)
Definition fsub (a b : float) : float := fadd a (fneg b).

(** [a * b] *)
Definition fmul (a b : float) : float :=
  match a, b with
  | Finite p, Finite q => round64 (p * q)
  | NonFinite NaN, _ | _, NonFinite NaN => NonFinite NaN
  | NonFinite (Infinity s), Finite q | Finite q, NonFinite (Infinity s) =>
      if Qeq_bool q 0 then NonFinite NaN
      else NonFinite (Infinity (xorb s (Qltb q 0)))
  | NonFinite (Infinity s), NonFinite (Infinity s') =>
      NonFinite (Infinity (xorb s s'))
  end.

(** [a / 2] *)
Definition half (a : float) : float :=
  match a with
  | Finite q => round64 (q / 2)
  | NonFinite x => NonFinite x
  end.

(** [abs(a)] *)
Definition fabs (a : float) : float :=
  match a with
  | Finite q => Finite (Qabs q)
  | NonFinite NaN => NonFinite NaN
  | NonFinite (Infinity _) => NonFinite (Infinity false)
  end.

(** [a < b] and [a <= b]: false when one of the two is [nan]. *)
Definition flt (a b : float) : bool :=
  match a, b with
  | Finite p, Finite q => Qltb p q
  | NonFinite NaN, _ | _, NonFinite NaN => false
  | NonFinite (Infinity s), Finite _ => s
  | Finite _, NonFinite (Infinity s) => negb s
  | NonFinite (Infinity s), NonFinite (Infinity s') => (s && negb s')%bool
  end.

Definition fle (a b : float) : bool :=
  match a, b with
  | Finite p, Finite q => Qle_bool p q
  | NonFinite NaN, _ | _, NonFinite NaN => false
  | NonFinite (Infinity s), Finite _ => s
  | Finite _, NonFinite (Infinity s) => negb s
  | NonFinite (Infinity s), NonFinite (Infinity s') => (s || negb s')%bool
  end.

(** ** Peers, sockets and the world *)

(** What one read of a connection meets: bytes that have arrived, or a
    fault ([SocketTimeout] when nothing arrives in time).  The end of the
    list is the peer closing the connection. *)
Inductive rx_event :=
| Data (d : bytes)
| Fault (e : exn).

Record peer := {
  p_connect : option exn;      (* [Some e]: [connect] raises [e] *)
  p_send : option exn;         (* [Some e]: [send] raises [e] *)
  p_rx : list rx_event
}.

Record socket := {
  s_open : bool;
  s_send : option exn;
  s_rx : list rx_event;
  s_tx : bytes
}.

Record world := {
  ticks : nat;                       (* readings of the clock so far *)
  socks : list socket;               (* every socket ever created *)
  files : dict bytes                 (* the local files written *)
}.

Record env := {
  clock : nat -> Q;                  (* the successive values of time.time() *)
  net : string -> Z -> peer;         (* who answers at an address *)
  loads : bytes -> option pyval;     (* json.loads(data.decode('utf-8')) *)
  dumps : pyval -> bytes;            (* json.dumps(v).encode('utf-8') *)
  py_str : pyval -> string;          (* format(v, '') *)
  home : string;                     (* os.path.expanduser("~") *)
  makedirs_ok : bool;
  open_ok : string -> bool
}.

Definition M (A : Type) := world -> result A * world.

Definition ret {A} (a : A) : M A := fun w => (Ret a, w).
Definition raise {A} (e : exn) : M A := fun w => (Raise e, w).
Definition lift {A} (r : result A) : M A := fun w => (r, w).

Definition bind {A B} (m : M A) (k : A -> M B) : M B :=
  fun w =>
    match m w with
    | (Ret a, w') => k a w'
    | (Raise e, w') => (Raise e, w')
    | (Stuck, w') => (Stuck, w')
    end.

(** [try: m except Exception: h] *)
Definition try_except {A} (m : M A) (h : exn -> M A) : M A :=
  fun w =>
    match m w with
    | (Raise e, w') => h e w'
    | rw => rw
    end.

Declare Scope py_scope.
Delimit Scope py_scope with py.
Notation "x <- m ;; k" := (bind m (fun x => k))
  (at level 100, m at next level, right associativity) : py_scope.
Notation "m ;; k" := (bind m (fun _ => k))
  (at level 100, right associativity) : py_scope.
Open Scope py_scope.

Definition set_ticks (n : nat) (w : world) : world :=
  {| ticks := n; socks := socks w; files := files w |}.
Definition set_socks (l : list socket) (w : world) : world :=
  {| ticks := ticks w; socks := l; files := files w |}.
Definition set_files (f : dict bytes) (w : world) : world :=
  {| ticks := ticks w; socks := socks w; files := f |}.

Fixpoint upd_nth {A} (n : nat) (f : A -> A) (l : list A) : list A :=
  match l, n with
  | [], _ => []
  | x :: l', O => f x :: l'
  | x :: l', S n' => x :: upd_nth n' f l'
  end.

Definition upd_sock (fd : nat) (f : socket -> socket) (w : world) : world :=
  set_socks (upd_nth fd f (socks w)) w.

(** How much a connection still has to deliver: a bound on the number of
    reads of one or more bytes before the connection runs dry. *)
Fixpoint rx_weight (l : list rx_event) : nat :=
  match l with
  | [] => O
  | Data d :: l' => S (List.length d + rx_weight l')
  | Fault _ :: l' => S (rx_weight l')
  end.

Section Controller.

Variable E : env.

(** [time.time()] *)
Definition time_time : M Q :=
  fun w => (Ret (clock E (ticks w)), set_ticks (S (ticks w)) w).

(** [socket.socket(AF_INET, SOCK_STREAM)]: the new descriptor. *)
Definition socket_socket : M nat :=
  fun w =>
    (Ret (List.length (socks w)),
     set_socks (socks w ++ [{| s_open := true; s_send := None; s_rx := []; s_tx := [] |}]) w).

(** [sock.connect((ip, port))] *)
Definition sock_connect (fd : nat) (ip : string) (port : Z) : M unit :=
  fun w =>
    match nth_error (socks w) fd with
    | Some s =>
        if s_open s then
          match p_connect (net E ip port) with
          | Some e => (Raise e, w)
          | None =>
              (Ret tt,
               upd_sock fd (fun s => {| s_open := true;
                                        s_send := p_send (net E ip port);
                                        s_rx := p_rx (net E ip port);
                                        s_tx := s_tx s |}) w)
          end
        else (Raise OSError, w)
    | None => (Raise OSError, w)
    end.

(** [sock.send(data)] *)
Definition sock_send (fd : nat) (data : bytes) : M unit :=
  fun w =>
    match nth_error (socks w) fd with
    | Some s =>
        if s_open s then
          match s_send s with
          | Some e => (Raise e, w)
          | None =>
              (Ret tt,
               upd_sock fd (fun s => {| s_open := s_open s; s_send := s_send s;
                                        s_rx := s_rx s; s_tx := s_tx s ++ data |}) w)
          end
        else (Raise OSError, w)
    | None => (Raise OSError, w)
    end.

(** What [recv(n)] takes from the stream: at most [n] of the bytes that
    have arrived, [b""] once the peer has closed. *)
Definition rx_take (n : nat) (l : list rx_event) : result bytes * list rx_event :=
  match l with
  | [] => (Ret [], [])
  | Data d :: l' =>
      if (List.length d <=? n)%nat then (Ret d, l')
      else (Ret (firstn n d), Data (skipn n d) :: l')
  | Fault e :: l' => (Raise e, l')
  end.

(** [sock.recv(n)] *)
Definition sock_recv (fd : nat) (n : Z) : M bytes :=
  fun w =>
    match nth_error (socks w) fd with
    | Some s =>
        if s_open s then
          if n <? 0 then (Raise ValueError, w)
          else
            let (r, rest) := rx_take (Z.to_nat n) (s_rx s) in
            (r, upd_sock fd (fun s => {| s_open := s_open s; s_send := s_send s;
                                         s_rx := rest; s_tx := s_tx s |}) w)
        else (Raise OSError, w)
    | None => (Raise OSError, w)
    end.

(** [sock.close()] *)
Definition sock_close (fd : nat) : M unit :=
  fun w =>
    (Ret tt,
     upd_sock fd (fun s => {| s_open := false; s_send := s_send s;
                              s_rx := s_rx s; s_tx := s_tx s |}) w).

(** The loop bound for reading the connection [fd] to its end.  The loops
    of the controller have no bound of their own ([while True], and
    [while] on a size that the peer declares): each turn takes at least one
    byte or meets the end of the script, so that a finite script is read to
    its end within this number of turns. *)
Definition fuel_of (fd : nat) (w : world) : nat :=
  match nth_error (socks w) fd with
  | Some s => S (rx_weight (s_rx s))
  | None => 1%nat
  end.

Definition with_fuel {A} (fd : nat) (k : nat -> M A) : M A :=
  fun w => k (fuel_of fd w) w.

(** ** The file-transfer path: [_handle_file_download] *)

(** [struct.unpack('>I', b)[0]] *)
Definition unpack_be32 (b : bytes) : Z :=
  fold_left (fun acc x => acc * 256 + Z.of_N (Byte.to_N x)) b 0.

Definition len (b : bytes) : Z := Z.of_nat (List.length b).

Definition is_empty (b : bytes) : bool :=
  match b with [] => true | _ => false end.

(** [s.replace(a, b)] for one-character [a] and [b]. *)
Fixpoint replace_char (a b : ascii) (s : string) : string :=
  match s with
  | EmptyString => EmptyString
  | String c s' => String (if Ascii.eqb c a then b else c) (replace_char a b s')
  end.

Definition ends_with_slash (s : string) : bool :=
  match String.length s with
  | O => false
  | S n => match String.get n s with Some c => Ascii.eqb c "/" | None => false end
  end.

(** [os.path.join(a, b)] (POSIX) *)
Definition os_path_join (a b : string) : string :=
  if String.prefix "/" b then b
  else if (String.eqb a "" || ends_with_slash a)%bool then String.append a b
  else String.append a (String.append "/" b).

(** [json.loads(data.decode('utf-8'))] *)
Definition json_loads (data : bytes) : M pyval :=
  match loads E data with
  | Some v => ret v
  | None => raise JSONDecodeError
  end.

(** [f"{v}"] *)
Definition format_value (v : pyval) : string :=
  match v with PStr s => s | _ => py_str E v end.

(** [f"{v:,}"] and [f"{v / 1024 / 1024:.1f}"] go through for numbers only,
    and for an [int] only when the quotient fits a [float]. *)
Definition format_size (v : pyval) : result num :=
  match as_num v with
  | Some (NInt z) => if quotient_too_large z then Raise OverflowError else Ret (NInt z)
  | Some n => Ret n
  | None => match v with PStr _ => Raise ValueError | _ => Raise TypeError end
  end.

(** [os.makedirs(d, exist_ok=True)] *)
Definition os_makedirs (d : string) : M unit :=
  if makedirs_ok E then ret tt else raise OSError.

(** [open(path, 'wb')] *)
Definition file_open (path : string) : M unit :=
  if open_ok E path
  then fun w => (Ret tt, set_files (dict_set path [] (files w)) w)
  else raise OSError.

(** [f.write(chunk)] *)
Definition file_write (path : string) (chunk : bytes) : M unit :=
  fun w =>
    let old := match dict_get path (files w) with Some b => b | None => [] end in
    (Ret tt, set_files (dict_set path (old ++ chunk) (files w)) w).

(** [file_size - bytes_received] *)
Definition num_sub (n : num) (z : Z) : num :=
  match n with
  | NInt x => NInt (x - z)
  | NFloat q => NFloat (q - inject_Z z)
  | NNonFinite x => NNonFinite x
  end.

(** [min(8192, n)]: the first argument unless the second is smaller. *)
Definition min_8192 (n : num) : num :=
  if lt_int n 8192 then n else NInt 8192.

(** The size argument of [recv] must be an [int]. *)
Definition recv_size (n : num) : result Z :=
  match n with NInt z => Ret z | _ => Raise TypeError end.

(** [while len(header_data) < header_size: ...] *)
Fixpoint recv_header_loop (fuel : nat) (sock : nat) (header_size : Z)
    (header_data : bytes) : M bytes :=
  if len header_data <? header_size then
    match fuel with
    | O => lift Stuck
    | S fuel' =>
        chunk <- sock_recv sock (header_size - len header_data);;
        if is_empty chunk then ret header_data
        else recv_header_loop fuel' sock header_size (header_data ++ chunk)
    end
  else ret header_data.

(** [while bytes_received < file_size: ...], inside [with open(...) as f] *)
Fixpoint download_loop (fuel : nat) (sock : nat) (local_path : string)
    (file_size : num) (bytes_received : Z) : M Z :=
  if int_lt bytes_received file_size then
    match fuel with
    | O => lift Stuck
    | S fuel' =>
        chunk_size <- lift (recv_size (min_8192 (num_sub file_size bytes_received)));;
        chunk <- sock_recv sock chunk_size;;
        if is_empty chunk then ret bytes_received
        else
          file_write local_path chunk;;
          download_loop fuel' sock local_path file_size (bytes_received + len chunk)
    end
  else ret bytes_received.

Definition downloads_dir : string := String.append (home E) "/Downloads/multiCam".

Definition local_path_of (device_ip : string) (file_name : pyval) : string :=
  let device_name := replace_char "." "_" device_ip in
  let local_filename := String.append device_name (String.append "_" (format_value file_name)) in
  os_path_join downloads_dir local_filename.

Definition _handle_file_download (sock : nat) (device_ip : string)
    (file_id : option string) : M pyval :=
  try_except
    (header_size_data <- sock_recv sock 4;;
     if negb (len header_size_data =? 4) then ret (PBool false)
     else
       let header_size := unpack_be32 header_size_data in
       header_data <- with_fuel sock (fun fuel => recv_header_loop fuel sock header_size []);;
       header_info <- json_loads header_data;;
       file_name <- lift (py_getitem header_info "fileName");;
       file_size <- lift (py_getitem header_info "fileSize");;
       file_size <- lift (format_size file_size);;
       os_makedirs downloads_dir;;
       let local_path := local_path_of device_ip file_name in
       file_open local_path;;
       with_fuel sock (fun fuel => download_loop fuel sock local_path file_size 0);;
       sock_close sock;;
       ret (PStr local_path))
    (fun _ => sock_close sock;; ret (PBool false)).

(** ** The device link: [send_command] *)

(** [while True: ...] of the [LIST_FILES] branch. *)
Fixpoint recv_json_loop (fuel : nat) (sock : nat) (response_data : bytes) : M bytes :=
  match fuel with
  | O => lift Stuck
  | S fuel' =>
      fun w =>
        match sock_recv sock 8192 w with
        | (Ret chunk, w') =>
            if is_empty chunk then (Ret response_data, w')
            else
              let response_data := response_data ++ chunk in
              match loads E response_data with
              | Some _ => (Ret response_data, w')
              | None => recv_json_loop fuel' sock response_data w'
              end
        | (Raise SocketTimeout, w') => (Ret response_data, w')
        | (Raise e, w') => (Raise e, w')
        | (Stuck, w') => (Stuck, w')
        end
  end.

(** [timestamp or time.time()] *)
Definition timestamp_or_now (timestamp : option Q) : M Q :=
  match timestamp with
  | Some t => if truthy (PFloat t) then ret t else time_time
  | None => time_time
  end.

(** The [message] dict, after [if file_id: message["fileId"] = file_id]. *)
Definition message_of (command : string) (timestamp : Q) (file_id : option string) : pyval :=
  let message := [("command", PStr command);
                  ("timestamp", PFloat timestamp);
                  ("deviceId", PStr "controller")] in
  PDict (match file_id with
         | Some f => if truthy (PStr f) then dict_set "fileId" (PStr f) message else message
         | None => message
         end).

(** The [try] block from "Handle different response types" on. *)
Definition handle_response (sock : nat) (device_ip : string) (command : string)
    (file_id : option string) : M pyval :=
  if String.eqb command "GET_VIDEO" then
    _handle_file_download sock device_ip file_id
  else
    response_data <-
      (if String.eqb command "LIST_FILES"
       then with_fuel sock (fun fuel => recv_json_loop fuel sock [])
       else sock_recv sock 4096);;
    if negb (is_empty response_data) then
      response_json <- json_loads response_data;;
      has_id <-
        (if String.eqb command "STOP_RECORDING"
         then lift (py_contains "fileId" response_json)
         else ret false);;
      if has_id then
        file_id <- lift (py_getitem response_json "fileId");;
        if truthy file_id then ret file_id else ret response_json
      else ret response_json
    else
      sock_close sock;;
      ret (PBool true).

Definition send_command_try (device_ip : string) (device_port : Z) (command : string)
    (timestamp : option Q) (file_id : option string) : M pyval :=
  now <- timestamp_or_now timestamp;;
  let message := message_of command now file_id in
  let json_data := dumps E message in
  sock <- socket_socket;;
  sock_connect sock device_ip device_port;;
  sock_send sock json_data;;
  handle_response sock device_ip command file_id.

Definition send_command (device_ip : string) (device_port : Z) (command : string)
    (timestamp : option Q) (file_id : option string) : M pyval :=
  try_except (send_command_try device_ip device_port command timestamp file_id)
             (fun _ => ret (PBool false)).

(** ** The broadcast: [send_command_to_all] *)

(** An entry of [self.discovered_devices]. *)
Record device := { ip : string; port : Z }.

(** The threads [send_and_store_result], one per device. *)
Fixpoint send_and_store_results (devices : dict device) (command : string)
    (sync_timestamp : Q) (results : dict pyval) : M (dict pyval) :=
  match devices with
  | [] => ret results
  | (device_name, d) :: devices' =>
      result <- send_command (ip d) (port d) command (Some sync_timestamp) None;;
      send_and_store_results devices' command sync_timestamp
        (dict_set device_name result results)
  end.

Definition is_none {A} (o : option A) : bool :=
  match o with None => true | Some _ => false end.

(** [{name: result for name, result in results.items() if isinstance(result, str)}] *)
Definition file_ids_of (results : dict pyval) : dict pyval :=
  filter (fun nr => is_str (snd nr)) results.

(** The value is [None] for Python's bare [return]. *)
Definition send_command_to_all (discovered_devices : dict device) (command : string)
    (timestamp : option Q) (sync_delay : Q) : M (option (dict pyval)) :=
  match discovered_devices with
  | [] => ret None
  | _ =>
      sync_timestamp <-
        (if (String.eqb command "START_RECORDING" && is_none timestamp)%bool
         then now <- time_time;; ret (now + sync_delay)%Q
         else timestamp_or_now timestamp);;
      results <- send_and_store_results discovered_devices command sync_timestamp [];;
      if String.eqb command "STOP_RECORDING" then ret (Some (file_ids_of results))
      else ret (Some results)
  end.

(** ** The clock estimator: [check_clock_synchronization] *)

(** An entry of [results]: the dict with ['status': 'success'], the one with
    ['status': 'failed'], the one with ['status': 'error']. *)
Inductive probe :=
| ProbeSuccess (device_time : num) (round_trip_ms time_diff_ms : float)
| ProbeFailed
| ProbeError (e : exn).

(** The line printed under "Synchronization Summary". *)
Inductive summary :=
| GoodSync          (* Good synchronization (< 50ms difference) *)
| ModerateSync      (* Moderate sync (50-200ms difference) *)
| PoorSync          (* Poor synchronization (> 200ms difference) *)
| OnlyOneDevice     (* Only one device responded *)
| NoDeviceResponded (* No devices responded successfully *).

(** A number as the operand of a [float] operation: an [int] is converted,
    which raises when it is too large. *)
Definition float_of_num (n : num) : result float :=
  match n with
  | NInt z =>
      if too_large_for_float z then Raise OverflowError
      else Ret (round64 (inject_Z z))
  | NFloat q => Ret (round64 q)
  | NNonFinite x => Ret (NonFinite x)
  end.

(** [device_timestamp + x] for a [float] [x]. *)
Definition add_float (device_timestamp : pyval) (x : float) : result (num * float) :=
  match as_num device_timestamp with
  | Some n =>
      match float_of_num n with
      | Ret t => Ret (n, fadd t x)
      | Raise e => Raise e
      | Stuck => Stuck
      end
  | None => Raise TypeError
  end.

(** The body of the [if isinstance(response, dict) and 'timestamp' in response].
    The readings of the clock are floats. *)
Definition estimate (send_time receive_time : Q) (device_timestamp : pyval) : result probe :=
  let send_time := round64 send_time in
  let receive_time := round64 receive_time in
  let round_trip_time := fsub receive_time send_time in
  match add_float device_timestamp (half round_trip_time) with
  | Ret (n, estimated_device_time) =>
      let time_difference := fsub estimated_device_time receive_time in
      Ret (ProbeSuccess n (fmul round_trip_time (Finite 1000))
                          (fmul time_difference (Finite 1000)))
  | Raise e => Raise e
  | Stuck => Stuck
  end.

Definition probe_device (d : device) : M probe :=
  try_except
    (send_time <- time_time;;
     response <- send_command (ip d) (port d) "DEVICE_STATUS" (Some send_time) None;;
     receive_time <- time_time;;
     match response with
     | PDict r =>
         match dict_get "timestamp" r with
         | Some device_timestamp => lift (estimate send_time receive_time device_timestamp)
         | None => ret ProbeFailed
         end
     | _ => ret ProbeFailed
     end)
    (fun e => ret (ProbeError e)).

Fixpoint probe_all (devices : dict device) (results : dict probe) : M (dict probe) :=
  match devices with
  | [] => ret results
  | (device_name, d) :: devices' =>
      r <- probe_device d;;
      probe_all devices' (dict_set device_name r results)
  end.

(** [max(a, b)] and [min(a, b)]: the first argument unless the second wins
    the comparison, which a [nan] never does. *)
Definition py_max (a b : float) : float := if flt a b then b else a.
Definition py_min (a b : float) : float := if flt b a then b else a.

(** [max_diff] and [min_diff] start as the [int] 0, here the float of the
    same value (they are only compared and printed). *)
Record tally := { max_diff : float; min_diff : float; valid_devices : Z }.

(** The loop over [results.items()] that prints the table. *)
Fixpoint tally_results (results : list (string * probe)) (t : tally) : tally :=
  match results with
  | [] => t
  | (_, ProbeSuccess _ _ time_diff_ms) :: results' =>
      let diff := fabs time_diff_ms in
      tally_results results'
        {| max_diff := py_max (max_diff t) diff;
           min_diff := if valid_devices t =? 0 then diff else py_min (min_diff t) diff;
           valid_devices := valid_devices t + 1 |}
  | _ :: results' => tally_results results' t
  end.

Definition summarize (t : tally) : summary :=
  if 2 <=? valid_devices t then
    if flt (max_diff t) (Finite 50) then GoodSync
    else if flt (max_diff t) (Finite 200) then ModerateSync
    else PoorSync
  else if valid_devices t =? 1 then OnlyOneDevice
  else NoDeviceResponded.

Record sync_report := {
  probes : dict probe;
  totals : tally;
  verdict : summary
}.

Definition report_of (results : dict probe) : sync_report :=
  let t := tally_results results
             {| max_diff := Finite 0; min_diff := Finite 0; valid_devices := 0 |} in
  {| probes := results; totals := t; verdict := summarize t |}.

(** The method returns nothing; the value here is what it prints, [None]
    when it stops at "No devices discovered". *)
Definition check_clock_synchronization (discovered_devices : dict device)
    : M (option sync_report) :=
  match discovered_devices with
  | [] => ret None
  | _ =>
      controller_send_time <- time_time;;
      results <- probe_all discovered_devices [];;
      ret (Some (report_of results))
  end.

(** [manual_connect] and the listener's [add_service] / [remove_service]. *)
Definition manual_connect (discovered_devices : dict device) (ip : string) (port : Z)
    : dict device :=
  dict_set (String.append "manual-" ip) {| ip := ip; port := port |} discovered_devices.

End Controller.

(** ** A small JSON codec

    [json.loads] and [json.dumps] are parameters of the model.  The codec
    below (ASCII, strings without escapes, numbers without exponent, floats
    printed with six decimals, [NaN], [Infinity] and [-Infinity] for the
    floats that are no numbers) instantiates them wherever a statement is
    evaluated on concrete peers. *)

Module MiniJson.

Definition dquote : ascii := ascii_of_nat 34.

Definition is_ws (c : ascii) : bool :=
  let n := nat_of_ascii c in
  ((n =? 32) || (n =? 9) || (n =? 10) || (n =? 13))%nat.

Definition digit_of (c : ascii) : option Z :=
  let n := Z.of_nat (nat_of_ascii c) in
  if ((48 <=? n) && (n <=? 57))%bool then Some (n - 48) else None.

Fixpoint skip_ws (l : list ascii) : list ascii :=
  match l with
  | c :: l' => if is_ws c then skip_ws l' else l
  | [] => []
  end.

(** The characters up to the closing quote. *)
Fixpoint read_string (l : list ascii) : option (string * list ascii) :=
  match l with
  | [] => None
  | c :: l' =>
      if Ascii.eqb c dquote then Some (EmptyString, l')
      else if Ascii.eqb c "\" then None
      else match read_string l' with
           | Some (s, r) => Some (String c s, r)
           | None => None
           end
  end.

Fixpoint read_digits (l : list ascii) (acc : Z) (n : nat) : Z * nat * list ascii :=
  match l with
  | c :: l' =>
      match digit_of c with
      | Some d => read_digits l' (acc * 10 + d) (S n)
      | None => (acc, n, l)
      end
  | [] => (acc, n, l)
  end.

Definition read_number (l : list ascii) : option (pyval * list ascii) :=
  let (neg, l1) := match l with
                   | "-"%char :: r => (true, r)
                   | _ => (false, l)
                   end in
  let '(i, n, l2) := read_digits l1 0 0 in
  if (n =? 0)%nat then None
  else
    match l2 with
    | "."%char :: l3 =>
        let '(f, m, l4) := read_digits l3 0 0 in
        if (m =? 0)%nat then None
        else
          let den := 10 ^ Z.of_nat m in
          let num := i * den + f in
          Some (PFloat ((if neg then - num else num) # Z.to_pos den), l4)
    | _ => Some (PInt (if neg then - i else i), l2)
    end.

Definition read_atom (l : list ascii) : option (pyval * list ascii) :=
  match l with
  | "t"%char :: "r"%char :: "u"%char :: "e"%char :: r => Some (PBool true, r)
  | "f"%char :: "a"%char :: "l"%char :: "s"%char :: "e"%char :: r => Some (PBool false, r)
  | "n"%char :: "u"%char :: "l"%char :: "l"%char :: r => Some (PNone, r)
  | "N"%char :: "a"%char :: "N"%char :: r => Some (PNonFinite NaN, r)
  | "I"%char :: "n"%char :: "f"%char :: "i"%char :: "n"%char :: "i"%char
      :: "t"%char :: "y"%char :: r => Some (PNonFinite (Infinity false), r)
  | "-"%char :: "I"%char :: "n"%char :: "f"%char :: "i"%char :: "n"%char
      :: "i"%char :: "t"%char :: "y"%char :: r => Some (PNonFinite (Infinity true), r)
  | c :: r =>
      if Ascii.eqb c dquote then
        match read_string r with
        | Some (s, r') => Some (PStr s, r')
        | None => None
        end
      else read_number l
  | [] => None
  end.

Fixpoint read_value (fuel : nat) (l : list ascii) : option (pyval * list ascii) :=
  match fuel with
  | O => None
  | S fuel' =>
      match skip_ws l with
      | "{"%char :: r =>
          match skip_ws r with
          | "}"%char :: r' => Some (PDict [], r')
          | _ => read_members fuel' r []
          end
      | "["%char :: r =>
          match skip_ws r with
          | "]"%char :: r' => Some (PList [], r')
          | _ => read_elements fuel' r []
          end
      | l' => read_atom l'
      end
  end
with read_members (fuel : nat) (l : list ascii) (acc : dict pyval)
    : option (pyval * list ascii) :=
  match fuel with
  | O => None
  | S fuel' =>
      match skip_ws l with
      | c :: r =>
          if Ascii.eqb c dquote then
            match read_string r with
            | Some (k, r1) =>
                match skip_ws r1 with
                | ":"%char :: r2 =>
                    match read_value fuel' r2 with
                    | Some (v, r3) =>
                        match skip_ws r3 with
                        | ","%char :: r4 => read_members fuel' r4 (dict_set k v acc)
                        | "}"%char :: r4 => Some (PDict (dict_set k v acc), r4)
                        | _ => None
                        end
                    | None => None
                    end
                | _ => None
                end
            | None => None
            end
          else None
      | [] => None
      end
  end
with read_elements (fuel : nat) (l : list ascii) (acc : list pyval)
    : option (pyval * list ascii) :=
  match fuel with
  | O => None
  | S fuel' =>
      match read_value fuel' l with
      | Some (v, r) =>
          match skip_ws r with
          | ","%char :: r' => read_elements fuel' r' (acc ++ [v])
          | "]"%char :: r' => Some (PList (acc ++ [v]), r')
          | _ => None
          end
      | None => None
      end
  end.

Definition is_ascii_byte (b : byte) : bool := (Byte.to_N b <? 128)%N.

Definition mini_loads (data : bytes) : option pyval :=
  if forallb is_ascii_byte data then
    let l := map ascii_of_byte data in
    match read_value (S (List.length l)) l with
    | Some (v, r) => match skip_ws r with [] => Some v | _ => None end
    | None => None
    end
  else None.

Definition string_of_Z (z : Z) : string := NilZero.string_of_int (Z.to_int z).

Fixpoint pad_left (n width : nat) (s : string) : string :=
  match n with
  | O => s
  | S n' => if (String.length s <? width)%nat then pad_left n' width (String "0" s) else s
  end.

(** [q] with six decimals, truncated. *)
Definition string_of_Q (q : Q) : string :=
  let n := Z.abs (Qnum q) in
  let d := Z.pos (Qden q) in
  let whole := string_of_Z (n / d) in
  let frac := pad_left 6 6 (string_of_Z ((n mod d) * 1000000 / d)) in
  String.append (if Qnum q <? 0 then "-" else "")
    (String.append whole (String.append "." frac)).

Definition quoted (s : string) : string :=
  String dquote (String.append s (String dquote EmptyString)).

Fixpoint join (sep : string) (l : list string) : string :=
  match l with
  | [] => EmptyString
  | [s] => s
  | s :: l' => String.append s (String.append sep (join sep l'))
  end.

Fixpoint render (v : pyval) : string :=
  match v with
  | PNone => "null"
  | PBool b => if b then "true" else "false"
  | PInt z => string_of_Z z
  | PFloat q => string_of_Q q
  | PNonFinite NaN => "NaN"
  | PNonFinite (Infinity negative) => if negative then "-Infinity" else "Infinity"
  | PStr s => quoted s
  | PList l => String.append "[" (String.append (join ", " (map render l)) "]")
  | PDict d =>
      String.append "{"
        (String.append
           (join ", " (map (fun kv => String.append (quoted (fst kv))
                                        (String.append ": " (render (snd kv)))) d))
           "}")
  end.

Definition mini_dumps (v : pyval) : bytes := list_byte_of_string (render v).

(** [str(v)] is kept to the JSON text. *)
Definition mini_str (v : pyval) : string := render v.

End MiniJson.

(** ** Concrete peers and environments *)

Module Sample.

Import MiniJson.

(** A peer that accepts the connection and sends [chunks] before closing. *)
Definition serves (chunks : list bytes) : peer :=
  {| p_connect := None; p_send := None; p_rx := map Data chunks |}.

(** A peer that answers with the JSON text of [v] in one piece. *)
Definition answers (v : pyval) : peer := serves [mini_dumps v].

(** No one listens: [connect] raises. *)
Definition refuses : peer :=
  {| p_connect := Some OSError; p_send := None; p_rx := [] |}.

(** A peer that accepts and closes without a byte. *)
Definition silent : peer := serves [].

Definition mk_env (clk : nat -> Q) (n : string -> Z -> peer) : env :=
  {| clock := clk; net := n; loads := mini_loads; dumps := mini_dumps;
     py_str := mini_str; home := "/home/user"; makedirs_ok := true;
     open_ok := fun _ => true |}.

Definition w0 : world := {| ticks := 0; socks := []; files := [] |}.

(** A clock that stands still, and one that advances by a second a reading. *)
Definition steady (t : Q) : nat -> Q := fun _ => t.
Definition ticking (t : Z) : nat -> Q := fun n => inject_Z (t + Z.of_nat n).

(** The peers by address; no one listens elsewhere. *)
Definition net_of (peers : dict peer) : string -> Z -> peer :=
  fun ip _ => match dict_get ip peers with Some p => p | None => refuses end.

Definition cam (ip : string) : device := {| ip := ip; port := 8080 |}.

Definition three_cams : dict device :=
  [("cam1", cam "10.0.0.1"); ("cam2", cam "10.0.0.2"); ("cam3", cam "10.0.0.3")].

(** [cam1] and [cam3] answer a stop with their file ids, no one listens at
    the address of [cam2]. *)
Definition one_down : env :=
  mk_env (ticking 100)
    (net_of [("10.0.0.1", answers (PDict [("fileId", PStr "abc123")]));
             ("10.0.0.3", answers (PDict [("fileId", PStr "def456")]))]).

(** [cam1] answers with a file id, [cam2] with a status without one. *)
Definition one_without_id : env :=
  mk_env (ticking 100)
    (net_of [("10.0.0.1", answers (PDict [("fileId", PStr "abc123")]));
             ("10.0.0.2", answers (PDict [("timestamp", PFloat (1002 # 10))]))]).

(** At 10.0.0.3 a peer closes without a byte, at 10.0.0.4 one sends an
    opening brace and closes, at 10.0.0.2 one answers with its status. *)
Definition mixed_peers : env :=
  mk_env (ticking 100)
    (net_of [("10.0.0.2", answers (PDict [("timestamp", PFloat (1002 # 10))]));
             ("10.0.0.3", silent);
             ("10.0.0.4", serves [[x7b]])]).

(** A clock that shows 100.000 when first read and 100.040 afterwards, and
    a device whose status carries the timestamp 100.000. *)
Definition forty_ms : env :=
  mk_env (fun n => match n with O => inject_Z 100 | _ => 10004 # 100 end)
    (net_of [("10.0.0.1", answers (PDict [("timestamp", PFloat (inject_Z 100))]))]).

(** Two devices seen through a clock that stands still at 100: the first
    reports the time 100.0, the second 100.2. *)
Definition skewed : env :=
  mk_env (steady (inject_Z 100))
    (net_of [("10.0.0.1", answers (PDict [("timestamp", PFloat (inject_Z 100))]));
             ("10.0.0.2", answers (PDict [("timestamp", PFloat (1002 # 10))]))]).

Definition two_cams : dict device :=
  [("cam1", cam "10.0.0.1"); ("cam2", cam "10.0.0.2")].

(** Two devices seen through a clock that stands still at 0.125: the first
    reports the time 0.125, the second 0.325. *)
Definition skewed_by_200 : env :=
  mk_env (steady (125 # 1000))
    (net_of [("10.0.0.1", answers (PDict [("timestamp", PFloat (125 # 1000))]));
             ("10.0.0.2", answers (PDict [("timestamp", PFloat (325 # 1000))]))]).

(** Two devices seen through a clock that stands still at 100: the first
    reports the time 100.0, the status of the second has the timestamp
    [NaN]. *)
Definition not_a_time : env :=
  mk_env (steady (inject_Z 100))
    (net_of [("10.0.0.1", answers (PDict [("timestamp", PFloat (inject_Z 100))]));
             ("10.0.0.2", answers (PDict [("timestamp", PNonFinite NaN)]))]).

(** [struct.pack('>I', z)] *)
Definition be32 (z : Z) : bytes :=
  map (fun k => match Byte.of_N (Z.to_N ((z / 256 ^ k) mod 256)) with
                | Some b => b
                | None => x00
                end) [3; 2; 1; 0].

(** The header of a clip of 1,048,576 bytes, and a device that sends it with
    the first 1,000,000 bytes of the clip, in 1000 pieces of 1000 bytes, and
    closes. *)
Definition clip_header : bytes :=
  mini_dumps (PDict [("fileName", PStr "clip.mp4"); ("fileSize", PInt 1048576)]).

Definition clip_pieces : list bytes := repeat (repeat x00 1000) 1000.

Definition truncated_clip : env :=
  mk_env (ticking 100)
    (net_of [("10.0.0.1",
              serves ([be32 (len clip_header); clip_header] ++ clip_pieces))]).

(** A device that declares a file of 16 bytes, sends 10 and closes. *)
Definition short_header : bytes :=
  mini_dumps (PDict [("fileName", PStr "clip.mp4"); ("fileSize", PInt 16)]).

Definition cut_short : env :=
  mk_env (ticking 100)
    (net_of [("10.0.0.1",
              serves [be32 (len short_header); short_header; repeat x00 10])]).

End Sample.

(** ** Predicates on computations *)

(** [frame fd w w']: from [w] to [w'] the clock was not read and nothing
    but the socket [fd] has changed, and what [fd] has sent is the same. *)
Definition frame (fd : nat) (w w' : world) : Prop :=
  ticks w' = ticks w /\
  exists f, socks w' = upd_nth fd f (socks w) /\ forall s, s_tx (f s) = s_tx s.

(** [ok fd m]: [m] never runs out of loop bound and stays within the frame
    of [fd]; [ok_at] is the same from one world. *)
Definition ok_at {A} (fd : nat) (m : M A) (w : world) : Prop :=
  fst (m w) <> Stuck /\ frame fd w (snd (m w)).

Definition ok {A} (fd : nat) (m : M A) : Prop := forall w, ok_at fd m w.

(** The timestamp a call puts in its request, and the clock readings it
    takes for it. *)
Definition stamp_of (E : env) (timestamp : option Q) (w : world) : Q :=
  match timestamp with
  | Some t => if truthy (PFloat t) then t else clock E (ticks w)
  | None => clock E (ticks w)
  end.

Definition clock_reads (timestamp : option Q) : nat :=
  match timestamp with
  | Some t => if truthy (PFloat t) then 0%nat else 1%nat
  | None => 1%nat
  end.

(** What a computation on the socket [fd] can see of the world: whether the
    socket is open, whether sending fails, and what is still to arrive. *)
Definition obs (fd : nat) (w : world) : option (bool * option exn * list rx_event) :=
  option_map (fun s => (s_open s, s_send s, s_rx s)) (nth_error (socks w) fd).

Definition rrel {A} (RA : A -> A -> Prop) (r1 r2 : result A) : Prop :=
  match r1, r2 with
  | Ret a1, Ret a2 => RA a1 a2
  | Raise e1, Raise e2 => e1 = e2
  | Stuck, Stuck => True
  | _, _ => False
  end.

(** [sim fd1 fd2 RA m1 m2]: run from worlds that look the same through
    [fd1] and [fd2], [m1] and [m2] end alike, in worlds that still look the
    same. *)
Definition sim {A} (fd1 fd2 : nat) (RA : A -> A -> Prop) (m1 m2 : M A) : Prop :=
  forall w1 w2, obs fd1 w1 = obs fd2 w2 ->
    rrel RA (fst (m1 w1)) (fst (m2 w2)) /\
    obs fd1 (snd (m1 w1)) = obs fd2 (snd (m2 w2)).

Definition empty_world : world := {| ticks := 0; socks := []; files := [] |}.

(** The value of a device link: what [send_command] returns for a peer. *)
Definition link_value (E : env) (device_ip : string) (device_port : Z)
    (command : string) (file_id : option string) : pyval :=
  match fst (send_command E device_ip device_port command None file_id empty_world) with
  | Ret v => v
  | _ => PBool false
  end.

(** The world of a call once its socket [s] exists. *)
Definition with_socket (timestamp : option Q) (w : world) (s : socket) : world :=
  {| ticks := clock_reads timestamp + ticks w; socks := socks w ++ [s]; files := files w |}.

Definition fresh_socket : socket :=
  {| s_open := true; s_send := None; s_rx := []; s_tx := [] |}.

Definition connected_socket (p : peer) (data : bytes) : socket :=
  {| s_open := true; s_send := p_send p; s_rx := p_rx p; s_tx := data |}.

(** The peer accepts the connection and the request. *)
Definition reachable (p : peer) : bool :=
  (is_none (p_connect p) && is_none (p_send p))%bool.

(** What [send_command_to_all] collects: the value of each device's link. *)
Definition link_values (E : env) (devices : dict device) (command : string) : dict pyval :=
  map (fun nd => (fst nd, link_value E (ip (snd nd)) (port (snd nd)) command None))
      devices.

(** The [if response_data:] block of [send_command] as a function of the
    bytes read: the value returned, or the exception raised. *)
Definition decode_response (E : env) (command : string) (response_data : bytes)
    : result pyval :=
  match loads E response_data with
  | None => Raise JSONDecodeError
  | Some response_json =>
      if String.eqb command "STOP_RECORDING" then
        match py_contains "fileId" response_json with
        | Ret true =>
            match py_getitem response_json "fileId" with
            | Ret v => Ret (if truthy v then v else response_json)
            | Raise e => Raise e
            | Stuck => Stuck
            end
        | Ret false => Ret response_json
        | Raise e => Raise e
        | Stuck => Stuck
        end
      else Ret response_json
  end.

(** The successive values of [response_data] that a call tries to parse
    against a stream [rx]: for [LIST_FILES], what has been gathered after
    each read (of 8192 bytes at most) that brings bytes; for the other
    commands, what the one read (of 4096 bytes at most) brings. *)
Fixpoint gathered_loop (fuel : nat) (rx : list rx_event) (response_data : bytes)
    : list bytes :=
  match fuel with
  | O => []
  | S fuel' =>
      match rx_take (Z.to_nat 8192) rx with
      | (Ret chunk, rx') =>
          if is_empty chunk then []
          else (response_data ++ chunk)
                 :: gathered_loop fuel' rx' (response_data ++ chunk)
      | _ => []
      end
  end.

Definition gathered (command : string) (rx : list rx_event) : list bytes :=
  if String.eqb command "LIST_FILES" then gathered_loop (S (rx_weight rx)) rx []
  else
    match rx_take (Z.to_nat 4096) rx with
    | (Ret chunk, _) => if is_empty chunk then [] else [chunk]
    | _ => []
    end.

(** What [except Exception: return False] makes of a result. *)
Definition or_false (r : result pyval) : pyval :=
  match r with Ret v => v | _ => PBool false end.

(** The absolute clock differences, in ms, of the devices probed with
    success. *)
Definition abs_diffs (results : dict probe) : list float :=
  flat_map (fun nr => match snd nr with
                      | ProbeSuccess _ _ time_diff_ms => [fabs time_diff_ms]
                      | _ => []
                      end) results.

(** A difference is below [c] ms; it is [c] ms or more.  A [nan] is
    neither. *)
Definition below (c : Q) (d : float) : Prop := flt d (Finite c) = true.
Definition reaches (c : Q) (d : float) : Prop := fle (Finite c) d = true.

Definition is_nan (d : float) : Prop := d = NonFinite NaN.

(** What the summary line says about the differences. *)
Definition classified (rep : sync_report) : Prop :=
  let ds := abs_diffs (probes rep) in
  match verdict rep with
  | GoodSync =>
      (2 <= List.length ds)%nat /\ forall d, In d ds -> below 50 d \/ is_nan d
  | ModerateSync =>
      (2 <= List.length ds)%nat /\
      (exists d, In d ds /\ reaches 50 d) /\
      forall d, In d ds -> below 200 d \/ is_nan d
  | PoorSync =>
      (2 <= List.length ds)%nat /\ exists d, In d ds /\ reaches 200 d
  | OnlyOneDevice => List.length ds = 1%nat
  | NoDeviceResponded => List.length ds = 0%nat
  end.

(** The same as equivalences: which differences give which line. *)
Definition classification (rep : sync_report) : Prop :=
  let ds := abs_diffs (probes rep) in
  (verdict rep = GoodSync <->
     (2 <= List.length ds)%nat /\ forall d, In d ds -> below 50 d \/ is_nan d) /\
  (verdict rep = ModerateSync <->
     (2 <= List.length ds)%nat /\
     (exists d, In d ds /\ reaches 50 d) /\
     forall d, In d ds -> below 200 d \/ is_nan d) /\
  (verdict rep = PoorSync <->
     (2 <= List.length ds)%nat /\ exists d, In d ds /\ reaches 200 d) /\
  (verdict rep = OnlyOneDevice <-> List.length ds = 1%nat) /\
  (verdict rep = NoDeviceResponded <-> List.length ds = 0%nat).

(** ** The registry of devices *)

(** [del d[k]] *)
Fixpoint dict_del {V} (k : string) (d : dict V) : dict V :=
  match d with
  | [] => []
  | (k', v) :: d' => if String.eqb k k' then d' else (k', v) :: dict_del k d'
  end.

(** The listener's [remove_service]. *)
Definition remove_service (discovered_devices : dict device) (name : string)
    : dict device :=
  if dict_has name discovered_devices then dict_del name discovered_devices
  else discovered_devices.

(** What [zeroconf.get_service_info] gives: the packed addresses and the
    port of the service. *)
Record service_info := { addresses : list bytes; info_port : Z }.

Definition decimal (b : byte) : string :=
  NilZero.string_of_uint (N.to_uint (Byte.to_N b)).

(** [socket.inet_ntoa(packed)]: four bytes as a dotted quad; [None] when it
    raises (the packed address has not four bytes). *)
Definition inet_ntoa (packed : bytes) : option string :=
  match packed with
  | [a; b; c; d] =>
      Some (String.append (decimal a) (String.append "."
           (String.append (decimal b) (String.append "."
           (String.append (decimal c) (String.append "." (decimal d)))))))
  | _ => None
  end.

(** The device that [add_service] stores for a service, if it stores one:
    nothing when the service has no info, and nothing when [info.addresses[0]]
    or [inet_ntoa] raises, which happens before the registry is written. *)
Definition resolved (info : option service_info) : option device :=
  match info with
  | Some i =>
      match addresses i with
      | packed :: _ =>
          match inet_ntoa packed with
          | Some ip => Some {| ip := ip; port := info_port i |}
          | None => None
          end
      | [] => None
      end
  | None => None
  end.

(** The listener's [add_service]: the registry after the callback. *)
Definition add_service (discovered_devices : dict device) (name : string)
    (info : option service_info) : dict device :=
  match resolved info with
  | Some d => dict_set name d discovered_devices
  | None => discovered_devices
  end.

(** What changes the registry: the listener's callbacks and [manual_connect]. *)
Inductive registry_event :=
| ServiceAdded (name : string) (info : option service_info)
| ServiceRemoved (name : string)
| ManualConnect (ip : string) (port : Z).

Definition registry_step (discovered_devices : dict device) (ev : registry_event)
    : dict device :=
  match ev with
  | ServiceAdded name info => add_service discovered_devices name info
  | ServiceRemoved name => remove_service discovered_devices name
  | ManualConnect ip port => manual_connect discovered_devices ip port
  end.

(** The registry, empty at [__init__], after a sequence of events. *)
Definition registry_after (events : list registry_event) : dict device :=
  fold_left registry_step events [].

(** ** Addresses in file names *)

(** The strings made of digits and dots, as [inet_ntoa] gives them. *)
Definition is_digit (c : ascii) : bool :=
  ((48 <=? nat_of_ascii c) && (nat_of_ascii c <=? 57))%nat.

Fixpoint dotted (s : string) : bool :=
  match s with
  | EmptyString => true
  | String c s' => ((is_digit c || Ascii.eqb c ".") && dotted s')%bool
  end.

(** ** The header of a transfer *)

(** What [_handle_file_download] takes from the header it has read: the
    [fileName], and the [fileSize] as the size line prints it; or the
    exception of the first of these steps that raises. *)
Definition header_fields (E : env) (header_data : bytes) : result (pyval * num) :=
  match loads E header_data with
  | None => Raise JSONDecodeError
  | Some header_info =>
      match py_getitem header_info "fileName" with
      | Ret file_name =>
          match py_getitem header_info "fileSize" with
          | Ret file_size =>
              match format_size file_size with
              | Ret n => Ret (file_name, n)
              | Raise e => Raise e
              | Stuck => Stuck
              end
          | Raise e => Raise e
          | Stuck => Stuck
          end
      | Raise e => Raise e
      | Stuck => Stuck
      end
  end.

(** ** The listing: [list_files_on_all_devices] *)

Definition rbind {A B} (r : result A) (k : A -> result B) : result B :=
  match r with
  | Ret a => k a
  | Raise e => Raise e
  | Stuck => Stuck
  end.

(** [a + b] of two numbers: an [int] that meets a [float] is converted. *)
Definition num_add (a b : num) : result num :=
  match a, b with
  | NInt x, NInt y => Ret (NInt (x + y))
  | NInt x, NFloat q =>
      if too_large_for_float x then Raise OverflowError
      else Ret (NFloat (inject_Z x + q))
  | NFloat q, NInt y =>
      if too_large_for_float y then Raise OverflowError
      else Ret (NFloat (q + inject_Z y))
  | NFloat p, NFloat q => Ret (NFloat (p + q))
  | NInt x, NNonFinite y | NNonFinite y, NInt x =>
      if too_large_for_float x then Raise OverflowError
      else Ret (NNonFinite y)
  | NFloat _, NNonFinite y | NNonFinite y, NFloat _ => Ret (NNonFinite y)
  | NNonFinite NaN, NNonFinite _ | NNonFinite _, NNonFinite NaN =>
      Ret (NNonFinite NaN)
  | NNonFinite (Infinity s), NNonFinite (Infinity s') =>
      Ret (NNonFinite (if Bool.eqb s s' then Infinity s else NaN))
  end.

(** [n / (1024 * 1024)] raises for an [int] whose quotient is too large for
    a [float]; the quotient itself is only printed. *)
Definition mb_too_large (z : Z) : bool :=
  1024 * 1024 * (2 ^ 1024 - 2 ^ 970) <=? Z.abs z.

Definition div_mb (n : num) : result unit :=
  match n with
  | NInt z => if mb_too_large z then Raise OverflowError else Ret tt
  | _ => Ret tt
  end.

(** [time.localtime(v)]: the current time for [None], the time of a number
    that the platform can convert ([localtime_ok]); it raises otherwise. *)
Definition time_localtime (localtime_ok : Q -> bool) (v : pyval) : result unit :=
  match v with
  | PNone => Ret tt
  | _ =>
      match as_num v with
      | Some (NInt z) => if localtime_ok (inject_Z z) then Ret tt else Raise OverflowError
      | Some (NFloat q) => if localtime_ok q then Ret tt else Raise OverflowError
      | Some (NNonFinite NaN) => Raise ValueError
      | Some (NNonFinite (Infinity _)) => Raise OverflowError
      | None => Raise TypeError
      end
  end.

(** The body of [for file_info in files]: the new [device_total_size]. *)
Definition list_file (localtime_ok : Q -> bool) (device_total_size : num)
    (file_info : pyval) : result num :=
  rbind (py_getitem file_info "fileSize") (fun file_size =>
  rbind (match as_num file_size with
         | Some n => rbind (div_mb n) (fun _ => Ret n)
         | None => Raise TypeError
         end) (fun n =>
  rbind (num_add device_total_size n) (fun device_total_size =>
  rbind (py_getitem file_info "creationDate") (fun creation_date =>
  rbind (time_localtime localtime_ok creation_date) (fun _ =>
  rbind (py_getitem file_info "fileName") (fun _ =>
  rbind (py_getitem file_info "fileId") (fun _ =>
  Ret device_total_size))))))).

Fixpoint list_file_loop (localtime_ok : Q -> bool) (files : list pyval)
    (device_total_size : num) : result num :=
  match files with
  | [] => Ret device_total_size
  | file_info :: files' =>
      rbind (list_file localtime_ok device_total_size file_info)
            (list_file_loop localtime_ok files')
  end.

(** What the [try] block of one device makes of [total_files] and
    [total_size], given the response of the device.  The totals are written
    after the loop over the files; an exception before that leaves them as
    they were, and so does a response that is no listing.  (A [files] that
    is true but no list raises at [len(files)] or at [file_info['fileSize']].) *)
Definition list_device (localtime_ok : Q -> bool) (response : pyval)
    (totals : Z * num) : Z * num :=
  let (total_files, total_size) := totals in
  match response with
  | PDict r =>
      match dict_get "files" r with
      | Some (PList files) =>
          match list_file_loop localtime_ok files (NInt 0) with
          | Ret device_total_size =>
              match files, div_mb device_total_size with
              | _ :: _, Ret _ =>
                  let total_files := total_files + Z.of_nat (List.length files) in
                  match num_add total_size device_total_size with
                  | Ret total_size => (total_files, total_size)
                  | _ => (total_files, total_size)
                  end
              | _, _ => totals
              end
          | _ => totals
          end
      | _ => totals
      end
  | _ => totals
  end.

Fixpoint list_devices (E : env) (localtime_ok : Q -> bool) (devices : dict device)
    (totals : Z * num) : M (Z * num) :=
  match devices with
  | [] => ret totals
  | (device_name, d) :: devices' =>
      totals <- try_except
                  (response <- send_command E (ip d) (port d) "LIST_FILES" None None;;
                   ret (list_device localtime_ok response totals))
                  (fun _ => ret totals);;
      list_devices E localtime_ok devices' totals
  end.

(** The last line printed. *)
Inductive listing :=
| FilesSummary (total_files : Z) (total_size : num)  (* Summary: ... total files, ... MB total *)
| NoFilesAnywhere.                                  (* No files found on any device *)

Definition listing_of (totals : Z * num) : result (option listing) :=
  let (total_files, total_size) := totals in
  if 0 <? total_files
  then rbind (div_mb total_size) (fun _ => Ret (Some (FilesSummary total_files total_size)))
  else Ret (Some NoFilesAnywhere).

(** The method returns nothing; the value here is the last line it prints,
    [None] when it stops at "No devices discovered". *)
Definition list_files_on_all_devices (E : env) (localtime_ok : Q -> bool)
    (discovered_devices : dict device) : M (option listing) :=
  match discovered_devices with
  | [] => ret None
  | _ =>
      totals <- list_devices E localtime_ok discovered_devices (0, NInt 0);;
      lift (listing_of totals)
  end.

(** A record of a listing that the loop takes in, with its size: a dict
    with the four keys read, an [int] size and a creation date that
    [time.localtime] accepts. *)
Definition sized (localtime_ok : Q -> bool) (file_info : pyval) (file_size : Z) : Prop :=
  exists r creation_date file_name file_id,
    file_info = PDict r /\
    dict_get "fileSize" r = Some (PInt file_size) /\
    mb_too_large file_size = false /\
    dict_get "creationDate" r = Some creation_date /\
    time_localtime localtime_ok creation_date = Ret tt /\
    dict_get "fileName" r = Some file_name /\
    dict_get "fileId" r = Some file_id.

(** [sum(sizes)] *)
Definition total (sizes : list Z) : Z := fold_right Z.add 0 sizes.

(** ** The interactive mode: [start], [stop] and [download-all] *)

(** The attributes of the controller that the commands read and write.
    [last_file_ids] only ever holds what a [stop] has returned, a dict of
    [str] file ids; it is kept with its values as strings. *)
Record controller := {
  discovered_devices : dict device;
  last_file_ids : dict string;
  last_downloaded_files : list pyval;
  debug : bool
}.

(** The items of a dict of [str] values. *)
Definition str_items (d : dict pyval) : dict string :=
  flat_map (fun nv => match snd nv with PStr s => [(fst nv, s)] | _ => [] end) d.

(** The branch [cmd[0] == "start"] of [interactive_mode]: a start that is
    not synchronised. *)
Definition start_command (E : env) (self : controller) : M controller :=
  now <- time_time E;;
  send_command_to_all E (discovered_devices self) "START_RECORDING" (Some now) 3;;
  ret self.

(** The branch [cmd[0] == "stop"] of [interactive_mode]. *)
Definition stop_command (E : env) (self : controller) : M controller :=
  result <- send_command_to_all E (discovered_devices self) "STOP_RECORDING" None 3;;
  match result with
  | Some file_ids =>
      ret {| discovered_devices := discovered_devices self;
             last_file_ids := str_items file_ids;
             last_downloaded_files := last_downloaded_files self;
             debug := debug self |}
  | None => ret self
  end.

(** [for device_name, file_id in self.last_file_ids.items(): ...] *)
Fixpoint download_each (E : env) (devices : dict device) (file_ids : dict string)
    (downloaded_files : list pyval) : M (list pyval) :=
  match file_ids with
  | [] => ret downloaded_files
  | (device_name, file_id) :: file_ids' =>
      match dict_get device_name devices with
      | Some d =>
          file_path <- send_command E (ip d) (port d) "GET_VIDEO" None (Some file_id);;
          download_each E devices file_ids'
            (if truthy file_path then downloaded_files ++ [file_path]
             else downloaded_files)
      | None => download_each E devices file_ids' downloaded_files
      end
  end.

(** The branch [cmd[0] == "download-all"] of [interactive_mode]. *)
Definition download_all_command (E : env) (self : controller) : M controller :=
  match last_file_ids self with
  | [] => ret self
  | _ =>
      downloaded_files <-
        download_each E (discovered_devices self) (last_file_ids self) [];;
      match downloaded_files with
      | [] => ret self
      | _ =>
          ret {| discovered_devices := discovered_devices self;
                 last_file_ids := last_file_ids self;
                 last_downloaded_files := downloaded_files;
                 debug := debug self |}
      end
  end.


(** ** The header that a transfer reads *)

(** The bytes that a stream delivers before it ends: the end of the list, a
    fault and an empty read all end it. *)
Fixpoint delivered (rx : list rx_event) : bytes :=
  match rx with
  | Data d :: rx' => if is_empty d then [] else d ++ delivered rx'
  | _ => []
  end.

(** The header as [_handle_file_download] reads it from a stream that
    delivers at least the 4 bytes of the length at once: the bytes after
    them, as many as the length says, or all of them when there are
    fewer. *)
Definition header_of (rx : list rx_event) : bytes :=
  let stream := delivered rx in
  firstn (Z.to_nat (unpack_be32 (firstn 4 stream))) (skipn 4 stream).

(** ** What a call does to the local files *)

(** [same_files m]: [m] leaves the local files as they are. *)
Definition same_files {A} (m : M A) : Prop :=
  forall w, files (snd (m w)) = files w.

(** [wrote path old new]: between the files [old] and the files [new],
    nothing has changed or the file [path] has been (re)written. *)
Definition wrote (path : string) (old new : dict bytes) : Prop :=
  new = old \/ exists content, new = dict_set path content old.

(** [writes path m]: [m] writes no file but [path]. *)
Definition writes {A} (path : string) (m : M A) : Prop :=
  forall w, wrote path (files w) (files (snd (m w))).

(** ** More peers *)

Module Fleet.

Import MiniJson.

(** A peer that accepts the connection and then goes through [events]. *)
Definition plays (events : list rx_event) : peer :=
  {| p_connect := None; p_send := None; p_rx := events |}.

(** A record of a listing. *)
Definition file_record (file_id file_name : string) (file_size creation_date : Z) : pyval :=
  PDict [("fileId", PStr file_id); ("fileName", PStr file_name);
         ("fileSize", PInt file_size); ("creationDate", PInt creation_date)].

Definition listing_of_cam1 : list pyval :=
  [file_record "a1" "clip1.mp4" 1048576 1700000000;
   file_record "a2" "clip2.mp4" 2097152 1700000600].

Definition listing_of_cam2 : list pyval :=
  [file_record "b1" "clip1.mp4" 524288 1700000000].

(** The answer to [LIST_FILES] with these records, sent in two pieces. *)
Definition lists (files : list pyval) : peer :=
  let text := mini_dumps (PDict [("files", PList files)]) in
  Sample.serves [firstn 20 text; skipn 20 text].

(** At 10.0.0.1 and 10.0.0.2 two devices that list their files, at 10.0.0.3
    a device whose one record has no size; no one listens at 10.0.0.4. *)
Definition listing : env :=
  Sample.mk_env (Sample.ticking 100)
    (Sample.net_of
       [("10.0.0.1", lists listing_of_cam1);
        ("10.0.0.2", lists listing_of_cam2);
        ("10.0.0.3", lists [PDict [("fileId", PStr "c1"); ("fileName", PStr "clip.mp4")]])]).

Definition four_cams : dict device :=
  [("cam1", Sample.cam "10.0.0.1"); ("cam2", Sample.cam "10.0.0.2");
   ("cam3", Sample.cam "10.0.0.3"); ("cam4", Sample.cam "10.0.0.4")].

(** At 10.0.0.1 a device that sends an opening brace and a closing brace in
    two pieces and stays connected; at 10.0.0.2 one that sends an opening
    brace and falls silent; at 10.0.0.3 one that sends nothing in time. *)
Definition slow : env :=
  Sample.mk_env (Sample.ticking 100)
    (Sample.net_of
       [("10.0.0.1", plays [Data [x7b]; Data [x7d]; Fault SocketTimeout]);
        ("10.0.0.2", plays [Data [x7b]; Fault SocketTimeout]);
        ("10.0.0.3", plays [Fault SocketTimeout])]).

(** The bytes of a transfer of 16 bytes: the length of the header, the
    header, the payload. *)
Definition payload : bytes := repeat x01 6 ++ repeat x02 10.

Definition stream : bytes :=
  Sample.be32 (len Sample.short_header) ++ Sample.short_header ++ payload.

(** At 10.0.0.1 a device that sends the transfer in pieces of 7, 30 and the
    rest; at 10.0.0.2 one whose header is an opening brace; at 10.0.0.3 one
    that sends 6 bytes of the payload and then resets the connection. *)
Definition transfers : env :=
  Sample.mk_env (Sample.ticking 100)
    (Sample.net_of
       [("10.0.0.1",
         Sample.serves [firstn 7 stream; firstn 30 (skipn 7 stream); skipn 37 stream]);
        ("10.0.0.2", Sample.serves [Sample.be32 1; [x7b]]);
        ("10.0.0.3",
         plays [Data (Sample.be32 (len Sample.short_header)); Data Sample.short_header;
                Data (repeat x01 6); Fault OSError])]).

(** A controller that has discovered the three cameras. *)
Definition studio : controller :=
  {| discovered_devices := Sample.three_cams; last_file_ids := [];
     last_downloaded_files := []; debug := false |}.

(** At 10.0.0.1 a device that answers every request with the JSON text of
    the empty string, and a controller that has discovered it. *)
Definition empty_answer : env :=
  Sample.mk_env (Sample.ticking 100)
    (Sample.net_of [("10.0.0.1", Sample.answers (PStr ""))]).

Definition booth : controller :=
  {| discovered_devices := [("cam1", Sample.cam "10.0.0.1")]; last_file_ids := [];
     last_downloaded_files := []; debug := false |}.

End Fleet.

(** * Properties *)

(** ** Lists and dicts *)

Lemma upd_nth_length {A} (n : nat) (f : A -> A) (l : list A) :
  List.length (upd_nth n f l) = List.length l.
Proof.
  revert n; induction l as [|x l IH]; intros [|n]; simpl; auto.
Qed.

Lemma nth_error_upd_nth {A} (n : nat) (f : A -> A) (l : list A) :
  nth_error (upd_nth n f l) n = option_map f (nth_error l n).
Proof.
  revert n; induction l as [|x l IH]; intros [|n]; simpl; auto.
Qed.

Lemma nth_error_upd_nth_other {A} (n i : nat) (f : A -> A) (l : list A) :
  i <> n -> nth_error (upd_nth n f l) i = nth_error l i.
Proof.
  revert n i; induction l as [|x l IH]; intros [|n] [|i] H; simpl; auto.
  - congruence.
Qed.

Lemma upd_nth_twice {A} (n : nat) (f g : A -> A) (l : list A) :
  upd_nth n g (upd_nth n f l) = upd_nth n (fun x => g (f x)) l.
Proof.
  revert n; induction l as [|x l IH]; intros [|n]; simpl; auto.
  now rewrite IH.
Qed.

Lemma upd_nth_same {A} (n : nat) (l : list A) : upd_nth n (fun x => x) l = l.
Proof.
  revert n; induction l as [|x l IH]; intros [|n]; simpl; auto.
  now rewrite IH.
Qed.

Lemma upd_nth_snoc {A} (f : A -> A) (l : list A) (x : A) :
  upd_nth (List.length l) f (l ++ [x]) = l ++ [f x].
Proof.
  induction l as [|y l IH]; simpl; auto. now rewrite IH.
Qed.

Lemma nth_error_snoc {A} (l : list A) (x : A) :
  nth_error (l ++ [x]) (List.length l) = Some x.
Proof.
  induction l as [|y l IH]; simpl; auto.
Qed.

Lemma dict_get_set_same {V} (k : string) (v : V) (d : dict V) :
  dict_get k (dict_set k v d) = Some v.
Proof.
  induction d as [|[k' v'] d IH]; simpl.
  - now rewrite String.eqb_refl.
  - destruct (String.eqb k k') eqn:Hk; simpl.
    + now rewrite String.eqb_refl.
    + now rewrite Hk.
Qed.

Lemma dict_set_fresh {V} (k : string) (v : V) (d : dict V) :
  ~ In k (keys d) -> dict_set k v d = d ++ [(k, v)].
Proof.
  induction d as [|[k' v'] d IH]; simpl; intros H; auto.
  destruct (String.eqb k k') eqn:Hk.
  - apply String.eqb_eq in Hk. subst. tauto.
  - rewrite IH; auto.
Qed.

Lemma keys_dict_set {V} (k : string) (v : V) (d : dict V) :
  In k (keys d) -> keys (dict_set k v d) = keys d.
Proof.
  induction d as [|[k' v'] d IH]; simpl; intros H; [tauto|].
  destruct (String.eqb k k') eqn:Hk; simpl.
  - apply String.eqb_eq in Hk. now subst.
  - f_equal. apply IH. destruct H as [H|H]; auto.
    subst. now rewrite String.eqb_refl in Hk.
Qed.

(** A [dict] keeps one entry per key. *)
Lemma dict_set_NoDup {V} (k : string) (v : V) (d : dict V) :
  NoDup (keys d) -> NoDup (keys (dict_set k v d)).
Proof.
  intros H. destruct (in_dec string_dec k (keys d)) as [Hin|Hout].
  - now rewrite keys_dict_set.
  - rewrite dict_set_fresh by assumption. unfold keys in *.
    rewrite map_app. simpl.
    apply NoDup_app; auto.
    + repeat constructor. simpl. tauto.
    + intros x Hx [Hy|[]]. simpl in Hy. subst. tauto.
Qed.

(** ** Frames: what a computation on the socket [fd] leaves alone *)

Lemma frame_refl fd w : frame fd w w.
Proof.
  split; auto. exists (fun s => s). split; auto. now rewrite upd_nth_same.
Qed.

Lemma frame_trans fd w1 w2 w3 : frame fd w1 w2 -> frame fd w2 w3 -> frame fd w1 w3.
Proof.
  intros [Ht1 [f [Hf Hf']]] [Ht2 [g [Hg Hg']]]. split; [congruence|].
  exists (fun s => g (f s)). split.
  - now rewrite Hg, Hf, upd_nth_twice.
  - intros s. now rewrite Hg', Hf'.
Qed.

Lemma frame_upd_sock fd f w :
  (forall s, s_tx (f s) = s_tx s) -> frame fd w (upd_sock fd f w).
Proof.
  intros H. split; auto. now exists f.
Qed.

Lemma frame_set_files fd fs w : frame fd w (set_files fs w).
Proof.
  split; auto. exists (fun s => s). split; auto. simpl. now rewrite upd_nth_same.
Qed.

Lemma fuel_of_upd fd f w :
  fuel_of fd (upd_sock fd f w) =
  match nth_error (socks w) fd with
  | Some s => S (rx_weight (s_rx (f s)))
  | None => 1%nat
  end.
Proof.
  unfold fuel_of, upd_sock. simpl. rewrite nth_error_upd_nth.
  now destruct (nth_error (socks w) fd).
Qed.

Lemma ok_ret {A} fd (a : A) : ok fd (ret a).
Proof. intros w. simpl. split; [discriminate | apply frame_refl]. Qed.

Lemma ok_raise {A} fd e : ok fd (@raise A e).
Proof. intros w. simpl. split; [discriminate | apply frame_refl]. Qed.

Lemma ok_lift {A} fd (r : result A) : r <> Stuck -> ok fd (lift r).
Proof. intros H w. simpl. split; [assumption | apply frame_refl]. Qed.

Lemma ok_at_bind {A B} fd (m : M A) (k : A -> M B) w :
  ok_at fd m w ->
  (forall a w1, m w = (Ret a, w1) -> ok_at fd (k a) w1) ->
  ok_at fd (bind m k) w.
Proof.
  unfold ok_at, bind. intros Hm Hk.
  destruct (m w) as [[a|e|] w1]; simpl in *.
  - destruct (Hk a w1 eq_refl) as [H1 H2]. split; auto.
    eapply frame_trans; [apply Hm | apply H2].
  - split; [discriminate | apply Hm].
  - now destruct Hm.
Qed.

Lemma ok_bind {A B} fd (m : M A) (k : A -> M B) :
  ok fd m -> (forall a, ok fd (k a)) -> ok fd (bind m k).
Proof.
  intros Hm Hk w. apply ok_at_bind; [apply Hm|]. intros a w1 _. apply Hk.
Qed.

Lemma ok_try_except {A} fd (m : M A) (h : exn -> M A) :
  ok fd m -> (forall e, ok fd (h e)) -> ok fd (try_except m h).
Proof.
  intros Hm Hh w. unfold ok_at, try_except. specialize (Hm w). unfold ok_at in Hm.
  destruct (m w) as [[a|e|] w1]; simpl in *; auto.
  destruct (Hh e w1) as [H1 H2]. split; auto.
  eapply frame_trans; [apply Hm | apply H2].
Qed.

Section Facts.

Variable E : env.

Lemma ok_sock_close fd : ok fd (sock_close fd).
Proof.
  intros w. simpl. split; [discriminate|]. now apply frame_upd_sock.
Qed.

(** A read never blocks for ever; when it brings bytes, less is left. *)
Lemma sock_recv_spec fd n w :
  fst (sock_recv fd n w) <> Stuck /\
  frame fd w (snd (sock_recv fd n w)) /\
  forall chunk, fst (sock_recv fd n w) = Ret chunk -> chunk <> [] ->
    (fuel_of fd (snd (sock_recv fd n w)) < fuel_of fd w)%nat.
Proof.
  unfold sock_recv.
  destruct (nth_error (socks w) fd) as [s|] eqn:Hs;
    [|simpl; repeat split; try discriminate; apply frame_refl].
  destruct (s_open s);
    [|simpl; repeat split; try discriminate; apply frame_refl].
  destruct (n <? 0);
    [simpl; repeat split; try discriminate; apply frame_refl|].
  destruct (rx_take (Z.to_nat n) (s_rx s)) as [r rest] eqn:Hr. simpl.
  assert (Hfuel : fuel_of fd w = S (rx_weight (s_rx s))).
  { unfold fuel_of. now rewrite Hs. }
  rewrite fuel_of_upd, Hs, Hfuel. simpl.
  unfold rx_take in Hr.
  destruct (s_rx s) as [|[d|e] l].
  - inversion Hr; subst. repeat split; try discriminate.
    + now apply frame_upd_sock.
    + intros chunk Hc. inversion Hc. congruence.
  - destruct (List.length d <=? Z.to_nat n)%nat eqn:Hlen; inversion Hr; subst.
    + repeat split; try discriminate; [now apply frame_upd_sock|].
      intros. simpl. lia.
    + repeat split; try discriminate; [now apply frame_upd_sock|].
      intros chunk Hc Hne. inversion Hc; subst. simpl.
      apply Nat.leb_gt in Hlen. rewrite length_skipn.
      destruct (Z.to_nat n); [now simpl in Hne | lia].
  - inversion Hr; subst. repeat split; try discriminate.
    now apply frame_upd_sock.
Qed.

Lemma ok_sock_recv fd n : ok fd (sock_recv fd n).
Proof. intros w. destruct (sock_recv_spec fd n w) as (H1 & H2 & _). now split. Qed.

Lemma ok_json_loads fd data : ok fd (json_loads E data).
Proof.
  unfold json_loads. destruct (loads E data); [apply ok_ret | apply ok_raise].
Qed.

Lemma ok_os_makedirs fd d : ok fd (os_makedirs E d).
Proof.
  unfold os_makedirs. destruct (makedirs_ok E); [apply ok_ret | apply ok_raise].
Qed.

Lemma ok_file_open fd path : ok fd (file_open E path).
Proof.
  unfold file_open. destruct (open_ok E path); [|apply ok_raise].
  intros w. simpl. split; [discriminate | apply frame_set_files].
Qed.

Lemma ok_file_write fd path chunk : ok fd (file_write path chunk).
Proof.
  intros w. simpl. split; [discriminate | apply frame_set_files].
Qed.

End Facts.

Section Loops.

Variable E : env.

(** The three receive loops end before their bound. *)
Lemma fuel_of_zero fd w : ~ (fuel_of fd w <= 0)%nat.
Proof. unfold fuel_of. destruct (nth_error (socks w) fd); lia. Qed.

Lemma recv_less_fuel fd n w chunk w1 :
  sock_recv fd n w = (Ret chunk, w1) -> chunk <> [] ->
  (fuel_of fd w1 < fuel_of fd w)%nat.
Proof.
  intros H Hne. destruct (sock_recv_spec fd n w) as (_ & _ & H3).
  rewrite H in H3. simpl in H3. now apply (H3 chunk).
Qed.

Lemma recv_header_loop_ok fuel : forall fd header_size header_data w,
  (fuel_of fd w <= fuel)%nat ->
  ok_at fd (recv_header_loop fuel fd header_size header_data) w.
Proof.
  induction fuel as [|fuel IH]; intros fd hs hd w Hf.
  - now apply fuel_of_zero in Hf.
  - simpl. destruct (len hd <? hs); [|apply ok_ret].
    apply ok_at_bind; [apply ok_sock_recv|]. intros chunk w1 Hrecv.
    destruct chunk as [|b chunk]; simpl; [apply ok_ret|].
    apply IH. apply recv_less_fuel in Hrecv; [lia | discriminate].
Qed.

Lemma download_loop_ok fuel : forall fd path file_size bytes_received w,
  (fuel_of fd w <= fuel)%nat ->
  ok_at fd (download_loop fuel fd path file_size bytes_received) w.
Proof.
  induction fuel as [|fuel IH]; intros fd path fs br w Hf.
  - now apply fuel_of_zero in Hf.
  - simpl. destruct (int_lt br fs); [|apply ok_ret].
    apply ok_at_bind.
    { apply ok_lift. unfold recv_size. destruct (min_8192 _); discriminate. }
    intros n w0 Hn. unfold lift in Hn. inversion Hn; subst w0.
    apply ok_at_bind; [apply ok_sock_recv|]. intros chunk w1 Hrecv.
    destruct chunk as [|b chunk]; simpl; [apply ok_ret|].
    apply ok_at_bind; [apply ok_file_write|]. intros u w2 Hw.
    apply IH. apply recv_less_fuel in Hrecv; [|discriminate].
    unfold file_write in Hw. inversion Hw. unfold fuel_of in *. simpl. lia.
Qed.

Lemma recv_json_loop_ok fuel : forall fd response_data w,
  (fuel_of fd w <= fuel)%nat ->
  ok_at fd (recv_json_loop E fuel fd response_data) w.
Proof.
  induction fuel as [|fuel IH]; intros fd rd w Hf.
  - now apply fuel_of_zero in Hf.
  - unfold ok_at. simpl.
    pose proof (ok_sock_recv fd 8192 w) as [H1 H2].
    destruct (sock_recv fd 8192 w) as [[chunk|e|] w1] eqn:Hrecv; simpl in *.
    + destruct chunk as [|b chunk]; simpl.
      * split; [discriminate | assumption].
      * destruct (loads E (rd ++ b :: chunk)); simpl.
        -- split; [discriminate | assumption].
        -- apply recv_less_fuel in Hrecv; [|discriminate].
           destruct (IH fd (rd ++ b :: chunk) w1) as [Ha Hb]; [lia|].
           split; [assumption | eapply frame_trans; eassumption].
    + destruct e; simpl; (split; [discriminate | assumption]).
    + congruence.
Qed.

Lemma ok_with_fuel {A} fd (k : nat -> M A) :
  (forall fuel w, (fuel_of fd w <= fuel)%nat -> ok_at fd (k fuel) w) ->
  ok fd (with_fuel fd k).
Proof.
  intros H w. unfold ok_at, with_fuel. apply H. lia.
Qed.

Lemma ok_handle_file_download fd device_ip file_id :
  ok fd (_handle_file_download E fd device_ip file_id).
Proof.
  unfold _handle_file_download.
  apply ok_try_except.
  - apply ok_bind; [apply ok_sock_recv|]. intros hsd.
    destruct (negb (len hsd =? 4)); [apply ok_ret|].
    apply ok_bind.
    { apply ok_with_fuel. intros. now apply recv_header_loop_ok. }
    intros hd. apply ok_bind; [apply ok_json_loads|]. intros hi.
    apply ok_bind.
    { apply ok_lift. unfold py_getitem.
      destruct hi; try discriminate. destruct (dict_get _ _); discriminate. }
    intros fname. apply ok_bind.
    { apply ok_lift. unfold py_getitem.
      destruct hi; try discriminate. destruct (dict_get _ _); discriminate. }
    intros fsz. apply ok_bind.
    { apply ok_lift. unfold format_size.
      destruct (as_num fsz) as [[z|q|x]|];
        [destruct (quotient_too_large z); discriminate | discriminate
        | discriminate |].
      destruct fsz; discriminate. }
    intros fs. apply ok_bind; [apply ok_os_makedirs|]. intros _.
    apply ok_bind; [apply ok_file_open|]. intros _.
    apply ok_bind.
    { apply ok_with_fuel. intros. now apply download_loop_ok. }
    intros _. apply ok_bind; [apply ok_sock_close|]. intros _. apply ok_ret.
  - intros e. apply ok_bind; [apply ok_sock_close|]. intros _. apply ok_ret.
Qed.

Lemma py_contains_not_stuck k v : py_contains k v <> Stuck.
Proof. destruct v; discriminate. Qed.

Lemma py_getitem_not_stuck v k : py_getitem v k <> Stuck.
Proof.
  destruct v; try discriminate. simpl. destruct (dict_get k d); discriminate.
Qed.

(** What [send_command] does once the request has been sent. *)
Lemma ok_handle_response fd device_ip command file_id :
  ok fd (handle_response E fd device_ip command file_id).
Proof.
  unfold handle_response.
  destruct (String.eqb command "GET_VIDEO"); [apply ok_handle_file_download|].
  apply ok_bind.
  { destruct (String.eqb command "LIST_FILES"); [|apply ok_sock_recv].
    apply ok_with_fuel. intros. now apply recv_json_loop_ok. }
  intros rd. destruct (negb (is_empty rd)).
  - apply ok_bind; [apply ok_json_loads|]. intros rj.
    apply ok_bind.
    { destruct (String.eqb command "STOP_RECORDING"); [|apply ok_ret].
      apply ok_lift, py_contains_not_stuck. }
    intros [|]; [|apply ok_ret].
    apply ok_bind; [apply ok_lift, py_getitem_not_stuck|].
    intros v. destruct (truthy v); apply ok_ret.
  - apply ok_bind; [apply ok_sock_close|]. intros _. apply ok_ret.
Qed.

End Loops.

Section Link.

Variable E : env.

Lemma timestamp_or_now_run timestamp w :
  timestamp_or_now E timestamp w =
  (Ret (stamp_of E timestamp w), set_ticks (clock_reads timestamp + ticks w) w).
Proof.
  unfold timestamp_or_now, stamp_of, clock_reads.
  destruct timestamp as [t|]; [destruct (truthy (PFloat t))|]; simpl; auto.
  destruct w; reflexivity.
Qed.

Lemma sock_connect_snoc w ticks0 pre s files0 device_ip device_port :
  w = {| ticks := ticks0; socks := pre ++ [s]; files := files0 |} ->
  s_open s = true ->
  sock_connect E (List.length pre) device_ip device_port w =
  match p_connect (net E device_ip device_port) with
  | Some e => (Raise e, w)
  | None =>
      (Ret tt,
       {| ticks := ticks0;
          socks := pre ++ [{| s_open := true;
                              s_send := p_send (net E device_ip device_port);
                              s_rx := p_rx (net E device_ip device_port);
                              s_tx := s_tx s |}];
          files := files0 |})
  end.
Proof.
  intros -> Ho. unfold sock_connect, upd_sock, set_socks. simpl.
  rewrite nth_error_snoc, Ho, upd_nth_snoc. reflexivity.
Qed.

Lemma sock_send_snoc w ticks0 pre s files0 data :
  w = {| ticks := ticks0; socks := pre ++ [s]; files := files0 |} ->
  s_open s = true ->
  sock_send (List.length pre) data w =
  match s_send s with
  | Some e => (Raise e, w)
  | None =>
      (Ret tt,
       {| ticks := ticks0;
          socks := pre ++ [{| s_open := true; s_send := s_send s;
                              s_rx := s_rx s; s_tx := s_tx s ++ data |}];
          files := files0 |})
  end.
Proof.
  intros -> Ho. unfold sock_send, upd_sock, set_socks. simpl.
  rewrite nth_error_snoc, upd_nth_snoc, Ho. reflexivity.
Qed.

End Link.

(** ** A device link sees its own connection only *)

Section Simulation.

Variable E : env.
Variables fd1 fd2 : nat.

Lemma rrel_eq_refl {A} (r : result A) : rrel eq r r.
Proof. destruct r; simpl; auto. Qed.

Lemma sim_ret {A} (RA : A -> A -> Prop) a1 a2 :
  RA a1 a2 -> sim fd1 fd2 RA (ret a1) (ret a2).
Proof. intros H w1 w2 Hw. simpl. auto. Qed.

Lemma sim_lift {A} (r : result A) : sim fd1 fd2 eq (lift r) (lift r).
Proof. intros w1 w2 Hw. simpl. split; [apply rrel_eq_refl | assumption]. Qed.

Lemma sim_raise {A} e : sim fd1 fd2 eq (@raise A e) (raise e).
Proof. intros w1 w2 Hw. simpl. auto. Qed.

Lemma sim_bind {A B} (RA : A -> A -> Prop) (RB : B -> B -> Prop)
    (m1 m2 : M A) (k1 k2 : A -> M B) :
  sim fd1 fd2 RA m1 m2 ->
  (forall a1 a2, RA a1 a2 -> sim fd1 fd2 RB (k1 a1) (k2 a2)) ->
  sim fd1 fd2 RB (bind m1 k1) (bind m2 k2).
Proof.
  intros Hm Hk w1 w2 Hw. unfold bind. specialize (Hm w1 w2 Hw).
  destruct (m1 w1) as [[a1|e1|] w1'], (m2 w2) as [[a2|e2|] w2'];
    simpl in Hm; destruct Hm as [Hr Ho]; try contradiction.
  - apply Hk; assumption.
  - simpl. auto.
  - simpl. auto.
Qed.

Lemma sim_try_except {A} (RA : A -> A -> Prop) (m1 m2 : M A) (h1 h2 : exn -> M A) :
  sim fd1 fd2 RA m1 m2 ->
  (forall e, sim fd1 fd2 RA (h1 e) (h2 e)) ->
  sim fd1 fd2 RA (try_except m1 h1) (try_except m2 h2).
Proof.
  intros Hm Hh w1 w2 Hw. unfold try_except. specialize (Hm w1 w2 Hw).
  destruct (m1 w1) as [[a1|e1|] w1'], (m2 w2) as [[a2|e2|] w2'];
    simpl in Hm; destruct Hm as [Hr Ho]; try contradiction.
  - simpl. auto.
  - subst. apply Hh; assumption.
  - simpl. auto.
Qed.

Lemma obs_upd_sock fd f w :
  obs fd (upd_sock fd f w) =
  option_map (fun s => (s_open (f s), s_send (f s), s_rx (f s)))
             (nth_error (socks w) fd).
Proof.
  unfold obs, upd_sock. simpl. rewrite nth_error_upd_nth.
  now destruct (nth_error (socks w) fd).
Qed.

Lemma sim_sock_recv n : sim fd1 fd2 eq (sock_recv fd1 n) (sock_recv fd2 n).
Proof.
  intros w1 w2 Hw. unfold sock_recv.
  pose proof Hw as Hw'. unfold obs in Hw'.
  destruct (nth_error (socks w1) fd1) as [s1|] eqn:H1,
           (nth_error (socks w2) fd2) as [s2|] eqn:H2;
    simpl in Hw'; try discriminate; [|simpl; auto].
  injection Hw' as Ho Hs Hr. rewrite Ho, Hr.
  destruct (s_open s2) eqn:Ho2; [|simpl; auto].
  destruct (n <? 0); [simpl; auto|].
  destruct (rx_take (Z.to_nat n) (s_rx s2)) as [r rest]. simpl.
  split; [apply rrel_eq_refl|].
  rewrite !obs_upd_sock, H1, H2. simpl. congruence.
Qed.

Lemma sim_sock_close : sim fd1 fd2 eq (sock_close fd1) (sock_close fd2).
Proof.
  intros w1 w2 Hw. unfold sock_close. simpl. split; auto.
  rewrite !obs_upd_sock. unfold obs in Hw.
  destruct (nth_error (socks w1) fd1), (nth_error (socks w2) fd2);
    simpl in *; try discriminate; auto.
  injection Hw as Ho Hs Hr. congruence.
Qed.

Lemma sim_json_loads data : sim fd1 fd2 eq (json_loads E data) (json_loads E data).
Proof.
  unfold json_loads. destruct (loads E data); [now apply sim_ret | apply sim_raise].
Qed.

Lemma sim_os_makedirs d : sim fd1 fd2 eq (os_makedirs E d) (os_makedirs E d).
Proof.
  unfold os_makedirs. destruct (makedirs_ok E); [now apply sim_ret | apply sim_raise].
Qed.

Lemma sim_file_open path : sim fd1 fd2 eq (file_open E path) (file_open E path).
Proof.
  unfold file_open. destruct (open_ok E path); [|apply sim_raise].
  intros w1 w2 Hw. simpl. auto.
Qed.

Lemma sim_file_write path chunk :
  sim fd1 fd2 eq (file_write path chunk) (file_write path chunk).
Proof. intros w1 w2 Hw. simpl. auto. Qed.

Lemma obs_fuel_of w1 w2 : obs fd1 w1 = obs fd2 w2 -> fuel_of fd1 w1 = fuel_of fd2 w2.
Proof.
  unfold obs, fuel_of.
  destruct (nth_error (socks w1) fd1), (nth_error (socks w2) fd2);
    simpl; try discriminate; auto.
  intros H. injection H as Ho Hs Hr. now rewrite Hr.
Qed.

Lemma sim_with_fuel {A} (RA : A -> A -> Prop) (k1 k2 : nat -> M A) :
  (forall fuel, sim fd1 fd2 RA (k1 fuel) (k2 fuel)) ->
  sim fd1 fd2 RA (with_fuel fd1 k1) (with_fuel fd2 k2).
Proof.
  intros H w1 w2 Hw. unfold with_fuel. rewrite (obs_fuel_of w1 w2 Hw).
  now apply H.
Qed.

Lemma sim_recv_header_loop fuel : forall header_size header_data,
  sim fd1 fd2 eq (recv_header_loop fuel fd1 header_size header_data)
                 (recv_header_loop fuel fd2 header_size header_data).
Proof.
  induction fuel as [|fuel IH]; intros hs hd; simpl;
    (destruct (len hd <? hs); [|now apply sim_ret]).
  - apply sim_lift.
  - eapply sim_bind; [apply sim_sock_recv|]. intros chunk ? <-.
    destruct (is_empty chunk); [now apply sim_ret | apply IH].
Qed.

Lemma sim_download_loop fuel : forall path file_size bytes_received,
  sim fd1 fd2 eq (download_loop fuel fd1 path file_size bytes_received)
                 (download_loop fuel fd2 path file_size bytes_received).
Proof.
  induction fuel as [|fuel IH]; intros path fs br; simpl;
    (destruct (int_lt br fs); [|now apply sim_ret]).
  - apply sim_lift.
  - eapply sim_bind; [apply sim_lift|]. intros n ? <-.
    eapply sim_bind; [apply sim_sock_recv|]. intros chunk ? <-.
    destruct (is_empty chunk); [now apply sim_ret|].
    eapply sim_bind; [apply sim_file_write|]. intros _ _ _. apply IH.
Qed.

Lemma sim_recv_json_loop fuel : forall response_data,
  sim fd1 fd2 eq (recv_json_loop E fuel fd1 response_data)
                 (recv_json_loop E fuel fd2 response_data).
Proof.
  induction fuel as [|fuel IH]; intros rd; simpl; [apply sim_lift|].
  intros w1 w2 Hw.
  destruct (sim_sock_recv 8192 w1 w2 Hw) as [Hr Ho].
  destruct (sock_recv fd1 8192 w1) as [[c1|e1|] w1'],
           (sock_recv fd2 8192 w2) as [[c2|e2|] w2'];
    simpl in Hr, Ho; try contradiction.
  - subst c2. destruct (is_empty c1); [simpl; auto|].
    destruct (loads E (rd ++ c1)); [simpl; auto|]. now apply IH.
  - subst e2. destruct e1; simpl; auto.
  - simpl. auto.
Qed.

Lemma sim_handle_file_download device_ip file_id :
  sim fd1 fd2 eq (_handle_file_download E fd1 device_ip file_id)
                 (_handle_file_download E fd2 device_ip file_id).
Proof.
  unfold _handle_file_download. apply sim_try_except.
  - eapply sim_bind; [apply sim_sock_recv|]. intros hsd ? <-.
    destruct (negb (len hsd =? 4)); [now apply sim_ret|].
    eapply sim_bind.
    { apply sim_with_fuel. intros. apply sim_recv_header_loop. }
    intros hd ? <-. eapply sim_bind; [apply sim_json_loads|]. intros hi ? <-.
    eapply sim_bind; [apply sim_lift|]. intros fname ? <-.
    eapply sim_bind; [apply sim_lift|]. intros fsz ? <-.
    eapply sim_bind; [apply sim_lift|]. intros fs ? <-.
    eapply sim_bind; [apply sim_os_makedirs|]. intros _ _ _.
    eapply sim_bind; [apply sim_file_open|]. intros _ _ _.
    eapply sim_bind.
    { apply sim_with_fuel. intros. apply sim_download_loop. }
    intros _ _ _.
    eapply sim_bind; [apply sim_sock_close|]. intros _ _ _. now apply sim_ret.
  - intros e. eapply sim_bind; [apply sim_sock_close|]. intros _ _ _.
    now apply sim_ret.
Qed.

Lemma sim_handle_response device_ip command file_id :
  sim fd1 fd2 eq (handle_response E fd1 device_ip command file_id)
                 (handle_response E fd2 device_ip command file_id).
Proof.
  unfold handle_response.
  destruct (String.eqb command "GET_VIDEO"); [apply sim_handle_file_download|].
  eapply sim_bind.
  { destruct (String.eqb command "LIST_FILES"); [|apply sim_sock_recv].
    apply sim_with_fuel. intros. apply sim_recv_json_loop. }
  intros rd ? <-. destruct (negb (is_empty rd)).
  - eapply sim_bind; [apply sim_json_loads|]. intros rj ? <-.
    eapply sim_bind.
    { destruct (String.eqb command "STOP_RECORDING");
        [apply sim_lift | now apply sim_ret]. }
    intros has ? <-. destruct has; [|now apply sim_ret].
    eapply sim_bind; [apply sim_lift|]. intros v ? <-.
    destruct (truthy v); now apply sim_ret.
  - eapply sim_bind; [apply sim_sock_close|]. intros _ _ _. now apply sim_ret.
Qed.

End Simulation.

Section Unfold.

Variable E : env.

(** [send_command] step by step: the connection, the request, the answer. *)
Lemma send_command_unfold device_ip device_port command timestamp file_id w :
  let p := net E device_ip device_port in
  let data := dumps E (message_of command (stamp_of E timestamp w) file_id) in
  send_command E device_ip device_port command timestamp file_id w =
  match p_connect p with
  | Some _ => (Ret (PBool false), with_socket timestamp w fresh_socket)
  | None =>
      match p_send p with
      | Some _ => (Ret (PBool false), with_socket timestamp w (connected_socket p []))
      | None =>
          try_except (handle_response E (List.length (socks w)) device_ip command file_id)
                     (fun _ => ret (PBool false))
                     (with_socket timestamp w (connected_socket p data))
      end
  end.
Proof.
  intros p data.
  unfold send_command, try_except, send_command_try.
  unfold bind at 1. rewrite timestamp_or_now_run. cbv beta iota.
  unfold bind at 1. unfold socket_socket at 1. cbv beta iota.
  unfold set_socks, set_ticks. simpl ticks. simpl socks. simpl files.
  unfold bind at 1.
  erewrite sock_connect_snoc; [|reflexivity|reflexivity].
  fold p. destruct (p_connect p) as [e|]; [reflexivity|].
  cbv beta iota. unfold bind at 1.
  erewrite sock_send_snoc; [|reflexivity|reflexivity]. simpl s_send. simpl s_tx.
  unfold connected_socket.
  destruct (p_send p) as [e|]; [reflexivity|].
  reflexivity.
Qed.

(** A call of [send_command] returns a value (it raises nothing, and its
    loops end with the script of the peer),
    reads the clock only for its timestamp, creates one socket and touches
    no other; what it has sent is the request, if the peer could be reached,
    and nothing otherwise. *)
Lemma send_command_run device_ip device_port command timestamp file_id w :
  exists v w' s,
    send_command E device_ip device_port command timestamp file_id w = (Ret v, w') /\
    ticks w' = (clock_reads timestamp + ticks w)%nat /\
    socks w' = socks w ++ [s] /\
    s_tx s = if reachable (net E device_ip device_port)
             then dumps E (message_of command (stamp_of E timestamp w) file_id)
             else [].
Proof.
  rewrite send_command_unfold. cbv zeta. unfold reachable.
  destruct (p_connect (net E device_ip device_port)).
  { eexists _, _, _. split; [reflexivity|]. simpl. auto. }
  destruct (p_send (net E device_ip device_port)) eqn:Hsend.
  { eexists _, _, _. split; [reflexivity|]. simpl. auto. }
  unfold try_except.
  match goal with |- context [handle_response _ ?fd _ _ _ ?w4] =>
    destruct (ok_handle_response E fd device_ip command file_id w4)
      as [Hns [Ht [f [Hf Htx]]]];
    destruct (handle_response E fd device_ip command file_id w4) as [r w5]
  end.
  simpl in Hns, Ht, Hf. rewrite upd_nth_snoc in Hf.
  destruct r as [v|e|]; [| |congruence].
  - eexists v, w5, _. split; [reflexivity|]. split; [exact Ht|].
    split; [exact Hf|]. rewrite Htx. reflexivity.
  - eexists (PBool false), w5, _. split; [reflexivity|]. split; [exact Ht|].
    split; [exact Hf|]. rewrite Htx. reflexivity.
Qed.

(** The value returned does not depend on the world the call starts in,
    nor on the timestamp it carries. *)
Lemma send_command_value device_ip device_port command timestamp file_id w :
  fst (send_command E device_ip device_port command timestamp file_id w) =
  Ret (link_value E device_ip device_port command file_id).
Proof.
  unfold link_value.
  destruct (send_command_run device_ip device_port command None file_id empty_world)
    as (v0 & w0' & s0 & Hrun0 & _).
  rewrite Hrun0. simpl.
  destruct (send_command_run device_ip device_port command timestamp file_id w)
    as (v & w' & s & Hrun & _).
  rewrite Hrun. simpl. f_equal.
  rewrite send_command_unfold in Hrun, Hrun0. cbv zeta in Hrun, Hrun0.
  destruct (p_connect (net E device_ip device_port)); [congruence|].
  destruct (p_send (net E device_ip device_port)) eqn:Hsend; [congruence|].
  unfold try_except in Hrun, Hrun0.
  match type of Hrun with context [handle_response _ _ _ _ _ ?w1] =>
    match type of Hrun0 with context [handle_response _ _ _ _ _ ?w2] =>
      destruct (sim_handle_response E (List.length (socks w))
                  (List.length (socks empty_world)) device_ip command file_id w1 w2)
        as [Hr _]
    end
  end.
  { unfold obs, with_socket. simpl socks. rewrite !nth_error_snoc. simpl.
    rewrite Hsend. reflexivity. }
  match type of Hr with rrel _ (fst ?a) (fst ?b) =>
    destruct a as [[a1|e1|] w1'], b as [[a2|e2|] w2']
  end; simpl in Hr; try contradiction; unfold ret in *; congruence.
Qed.

End Unfold.

(** ** The broadcast *)

Lemma fold_dict_set_fresh {V} (l acc : dict V) :
  NoDup (keys acc ++ keys l) ->
  fold_left (fun r nv => dict_set (fst nv) (snd nv) r) l acc = acc ++ l.
Proof.
  revert acc. induction l as [|[k v] l IH]; intros acc H; simpl.
  - now rewrite app_nil_r.
  - simpl in H. rewrite dict_set_fresh.
    + rewrite IH.
      * now rewrite <- app_assoc.
      * unfold keys in *. rewrite map_app. simpl. now rewrite <- app_assoc.
    + apply NoDup_remove_2 in H. intros Hin. apply H. apply in_or_app. now left.
Qed.

Section Broadcast.

Variable E : env.

Lemma keys_link_values devices command :
  keys (link_values E devices command) = keys devices.
Proof.
  unfold keys, link_values. rewrite map_map. reflexivity.
Qed.

(** The threads: every device gets its link's value stored under its name,
    and its socket has sent the request stamped [sync_timestamp]. *)
Lemma send_and_store_results_run devices : forall command sync_timestamp results w,
  exists w' new,
    send_and_store_results E devices command sync_timestamp results w =
    (Ret (fold_left (fun r nv => dict_set (fst nv) (snd nv) r)
                    (link_values E devices command) results), w') /\
    ticks w' = (List.length devices * clock_reads (Some sync_timestamp) + ticks w)%nat /\
    socks w' = socks w ++ new /\
    Forall2 (fun nd s => exists t,
               (truthy (PFloat sync_timestamp) = true -> t = sync_timestamp) /\
               s_tx s = if reachable (net E (ip (snd nd)) (port (snd nd)))
                        then dumps E (message_of command t None) else [])
            devices new.
Proof.
  induction devices as [|[name d] devices IH]; intros command ts results w.
  - exists w, []. simpl. rewrite app_nil_r. repeat split; auto.
  - simpl. unfold bind.
    destruct (send_command_run E (ip d) (port d) command (Some ts) None w)
      as (v & w1 & s & Hrun & Ht & Hs & Htx).
    pose proof (send_command_value E (ip d) (port d) command (Some ts) None w) as Hv.
    rewrite Hrun in Hv. simpl in Hv. injection Hv as Hv. rewrite Hrun.
    destruct (IH command ts (dict_set name v results) w1)
      as (w' & new & Hrun' & Ht' & Hs' & Htx').
    exists w', (s :: new). rewrite Hrun'. subst v.
    split; [reflexivity|]. split; [rewrite Ht', Ht; simpl; lia|]. split.
    + rewrite Hs', Hs, <- app_assoc. reflexivity.
    + constructor; [|assumption].
      exists (stamp_of E (Some ts) w). split; [|exact Htx].
      intros Htr. simpl. now rewrite Htr.
Qed.

(** The timestamp of a broadcast and the clock readings taken for it. *)
Lemma sync_timestamp_run command timestamp (sync_delay : Q) w :
  (if (String.eqb command "START_RECORDING" && is_none timestamp)%bool
   then now <- time_time E;; ret (now + sync_delay)%Q
   else timestamp_or_now E timestamp) w =
  (Ret (if (String.eqb command "START_RECORDING" && is_none timestamp)%bool
        then (clock E (ticks w) + sync_delay)%Q
        else stamp_of E timestamp w),
   set_ticks ((if (String.eqb command "START_RECORDING" && is_none timestamp)%bool
               then 1 else clock_reads timestamp) + ticks w) w).
Proof.
  destruct (String.eqb command "START_RECORDING" && is_none timestamp)%bool.
  - reflexivity.
  - apply timestamp_or_now_run.
Qed.

(** A broadcast returns for every command: the value of each device's link
    under the device's name, cut down to the [str] values for
    [STOP_RECORDING]. *)
Lemma send_command_to_all_run devices command timestamp sync_delay w :
  devices <> [] -> NoDup (keys devices) ->
  fst (send_command_to_all E devices command timestamp sync_delay w) =
  Ret (Some (if String.eqb command "STOP_RECORDING"
             then file_ids_of (link_values E devices command)
             else link_values E devices command)).
Proof.
  intros Hne Hnd. unfold send_command_to_all.
  destruct devices as [|nd devices'] eqn:Hd; [congruence|].
  cbv beta iota. rewrite <- Hd in *. clear Hd.
  unfold bind at 1. rewrite sync_timestamp_run. unfold bind.
  match goal with |- context [send_and_store_results E devices command ?ts [] ?w1] =>
    destruct (send_and_store_results_run devices command ts [] w1)
      as (w' & new & Hrun & _)
  end.
  rewrite Hrun.
  rewrite fold_dict_set_fresh by (simpl; now rewrite keys_link_values).
  simpl app.
  destruct (String.eqb command "STOP_RECORDING"); reflexivity.
Qed.

End Broadcast.

Section BroadcastWorld.

Variable E : env.

(** The sockets of a broadcast: one per device, each having sent the request
    stamped with the one timestamp of the broadcast (when that timestamp is
    not zero), or nothing when the device was out of reach. *)
Lemma send_command_to_all_world devices command timestamp sync_delay w :
  devices <> [] ->
  let start := (String.eqb command "START_RECORDING" && is_none timestamp)%bool in
  let sync_timestamp :=
    if start then (clock E (ticks w) + sync_delay)%Q else stamp_of E timestamp w in
  exists r w' new,
    send_command_to_all E devices command timestamp sync_delay w = (Ret (Some r), w') /\
    ticks w' = (List.length devices * clock_reads (Some sync_timestamp) +
                ((if start then 1 else clock_reads timestamp) + ticks w))%nat /\
    socks w' = socks w ++ new /\
    Forall2 (fun nd s => exists t,
               (truthy (PFloat sync_timestamp) = true -> t = sync_timestamp) /\
               s_tx s = if reachable (net E (ip (snd nd)) (port (snd nd)))
                        then dumps E (message_of command t None) else [])
            devices new.
Proof.
  intros Hne start ts. unfold send_command_to_all.
  destruct devices as [|nd devices'] eqn:Hd; [congruence|].
  cbv beta iota. rewrite <- Hd in *. clear Hd.
  unfold bind at 1. rewrite sync_timestamp_run. fold start. fold ts. unfold bind.
  match goal with |- context [send_and_store_results E devices command ts [] ?w1] =>
    destruct (send_and_store_results_run E devices command ts [] w1)
      as (w' & new & Hrun & Ht & Hs & Htx)
  end.
  rewrite Hrun. simpl in Ht, Hs.
  destruct (String.eqb command "STOP_RECORDING");
    eexists _, w', new; (split; [reflexivity|]); auto.
Qed.

End BroadcastWorld.

(** ** Dicts with one entry per key *)

Lemma dict_get_In {V} (k : string) (v : V) (d : dict V) :
  NoDup (keys d) -> In (k, v) d -> dict_get k d = Some v.
Proof.
  induction d as [|[k' v'] d IH]; simpl; intros Hnd Hin; [tauto|].
  inversion Hnd as [|? ? Hout Hnd']; subst.
  destruct Hin as [Heq|Hin].
  - injection Heq as -> ->. now rewrite String.eqb_refl.
  - destruct (String.eqb k k') eqn:Hk.
    + apply String.eqb_eq in Hk. subst k'. exfalso. apply Hout.
      change k with (fst (k, v)). now apply in_map.
    + now apply IH.
Qed.

Lemma dict_get_None {V} (k : string) (d : dict V) :
  ~ In k (keys d) -> dict_get k d = None.
Proof.
  induction d as [|[k' v'] d IH]; simpl; intros H; auto.
  destruct (String.eqb k k') eqn:Hk.
  - apply String.eqb_eq in Hk. subst. tauto.
  - apply IH. tauto.
Qed.

Lemma keys_filter_incl {V} (p : string * V -> bool) (d : dict V) (k : string) :
  In k (keys (filter p d)) -> In k (keys d).
Proof.
  unfold keys. rewrite !in_map_iff. intros [x [Hx Hin]].
  apply filter_In in Hin. exists x. tauto.
Qed.

Lemma keys_filter_NoDup {V} (p : string * V -> bool) (d : dict V) :
  NoDup (keys d) -> NoDup (keys (filter p d)).
Proof.
  induction d as [|[k v] d IH]; simpl; intros H; [constructor|].
  inversion H as [|? ? Hout Hnd]; subst.
  destruct (p (k, v)); simpl; auto.
  constructor; auto. intros Hin. apply Hout. eapply keys_filter_incl; eauto.
Qed.

(** Looking a name up after [file_ids_of]. *)
Lemma dict_get_file_ids (k : string) (v : pyval) (d : dict pyval) :
  NoDup (keys d) -> In (k, v) d ->
  dict_get k (file_ids_of d) = if is_str v then Some v else None.
Proof.
  intros Hnd Hin. unfold file_ids_of.
  destruct (is_str v) eqn:Hv.
  - apply dict_get_In; [now apply keys_filter_NoDup|].
    apply filter_In. auto.
  - apply dict_get_None. unfold keys. rewrite in_map_iff.
    intros [[k' v'] [Hk Hin']]. simpl in Hk. subst k'.
    apply filter_In in Hin'. destruct Hin' as [Hin' Hp]. simpl in Hp.
    assert (Some v' = Some v) as Heq.
    { rewrite <- (dict_get_In k v' d Hnd Hin'). now apply dict_get_In. }
    injection Heq as ->. congruence.
Qed.

Lemma length_file_ids (d : dict pyval) :
  (List.length (file_ids_of d) <= List.length d)%nat.
Proof. unfold file_ids_of. apply filter_length_le. Qed.

Lemma In_link_values E devices command name d :
  In (name, d) devices ->
  In (name, link_value E (ip d) (port d) command None) (link_values E devices command).
Proof.
  intros H. unfold link_values.
  apply (in_map (fun nd => (fst nd, link_value E (ip (snd nd)) (port (snd nd)) command None))
           _ _ H).
Qed.

(** ** The order of the threads *)

Lemma dict_get_same_entries {V} (k : string) (d d' : dict V) :
  NoDup (keys d) -> NoDup (keys d') ->
  (forall x, In x d <-> In x d') ->
  dict_get k d = dict_get k d'.
Proof.
  intros Hd Hd' Hsame.
  destruct (in_dec string_dec k (keys d)) as [Hin|Hout].
  - unfold keys in Hin. apply in_map_iff in Hin. destruct Hin as [[k' v] [Hk Hin]].
    simpl in Hk. subst k'.
    rewrite (dict_get_In k v d Hd Hin).
    symmetry. apply dict_get_In; [assumption | now apply Hsame].
  - rewrite (dict_get_None k d Hout). symmetry. apply dict_get_None.
    intros Hin. apply Hout. unfold keys in *. apply in_map_iff in Hin.
    destruct Hin as [x [Hk Hin]]. apply in_map_iff. exists x.
    split; [assumption | now apply Hsame].
Qed.

(** The links of a broadcast may run in any order: the mapping returned has
    the same entries. *)
Lemma broadcast_order_irrelevant E devices devices' command timestamp sync_delay w w' :
  devices <> [] -> NoDup (keys devices) -> Permutation devices devices' ->
  exists results results',
    fst (send_command_to_all E devices command timestamp sync_delay w) =
      Ret (Some results) /\
    fst (send_command_to_all E devices' command timestamp sync_delay w') =
      Ret (Some results') /\
    forall name, dict_get name results = dict_get name results'.
Proof.
  intros Hne Hnd Hperm.
  assert (Hne' : devices' <> []).
  { intros ->. apply Permutation_sym, Permutation_nil in Hperm. congruence. }
  assert (Hnd' : NoDup (keys devices')).
  { unfold keys. eapply Permutation_NoDup; [|exact Hnd]. now apply Permutation_map. }
  eexists _, _.
  split; [now apply send_command_to_all_run|].
  split; [now apply send_command_to_all_run|].
  intros name.
  assert (Hsame : forall x, In x (link_values E devices command) <->
                            In x (link_values E devices' command)).
  { intros x. unfold link_values. split; apply Permutation_in;
      [|apply Permutation_sym]; now apply Permutation_map. }
  destruct (String.eqb command "STOP_RECORDING").
  - apply dict_get_same_entries.
    + apply keys_filter_NoDup. now rewrite keys_link_values.
    + apply keys_filter_NoDup. now rewrite keys_link_values.
    + intros x. unfold file_ids_of. rewrite !filter_In, Hsame. reflexivity.
  - apply dict_get_same_entries; [now rewrite keys_link_values ..|exact Hsame].
Qed.

(** * The claims *)

(** ** C1: one entry per targeted device *)

(** C1, as stated, fails for [STOP_RECORDING]: a broadcast to one device
    whose link fails returns a mapping without any entry. *)
Lemma stop_broadcast_drops_failed_device :
  ~ (exists results,
       fst (send_command_to_all Sample.one_down [("cam2", Sample.cam "10.0.0.2")]
              "STOP_RECORDING" None 3 Sample.w0) = Ret (Some results) /\
       List.length results = List.length [("cam2", Sample.cam "10.0.0.2")]).
Proof.
  intros [results [H1 H2]]. vm_compute in H1. injection H1 as <-. discriminate.
Qed.

(** C1, amended: a broadcast to a non-empty registry returns a mapping with
    exactly one entry per targeted device, a failed link included, for every
    command but [STOP_RECORDING] (the names of the mapping are the names of
    the registry, each once); for [STOP_RECORDING] the mapping has an entry
    for exactly the devices whose link returned a [str], so it has at most
    one entry per targeted device. *)
Theorem broadcast_entries E devices command timestamp sync_delay w :
  devices <> [] -> NoDup (keys devices) ->
  exists results,
    fst (send_command_to_all E devices command timestamp sync_delay w) =
      Ret (Some results) /\
    (command <> "STOP_RECORDING" ->
       NoDup (keys results) /\
       Permutation (keys results) (keys devices) /\
       List.length results = List.length devices) /\
    (command = "STOP_RECORDING" ->
       (List.length results <= List.length devices)%nat /\
       forall name d, In (name, d) devices ->
         dict_has name results = is_str (link_value E (ip d) (port d) command None)).
Proof.
  intros Hne Hnd. eexists. split; [now apply send_command_to_all_run|].
  split.
  - intros Hc. apply String.eqb_neq in Hc. rewrite Hc.
    rewrite keys_link_values. split; [assumption|].
    split; [apply Permutation_refl|]. unfold link_values. apply length_map.
  - intros Hc. subst command. simpl String.eqb. cbv iota. split.
    + etransitivity; [apply length_file_ids|]. unfold link_values.
      now rewrite length_map.
    + intros name d Hin. unfold dict_has.
      rewrite (dict_get_file_ids name
                 (link_value E (ip d) (port d) "STOP_RECORDING" None)).
      * now destruct (is_str _).
      * now rewrite keys_link_values.
      * now apply In_link_values.
Qed.

Lemma broadcast_entries_witness :
  exists results,
    fst (send_command_to_all Sample.one_down Sample.three_cams "DEVICE_STATUS" None 3
           Sample.w0) = Ret (Some results) /\
    ("DEVICE_STATUS" <> "STOP_RECORDING" ->
       NoDup (keys results) /\
       Permutation (keys results) (keys Sample.three_cams) /\
       List.length results = List.length Sample.three_cams) /\
    ("DEVICE_STATUS" = "STOP_RECORDING" ->
       (List.length results <= List.length Sample.three_cams)%nat /\
       forall name d, In (name, d) Sample.three_cams ->
         dict_has name results =
         is_str (link_value Sample.one_down (ip d) (port d) "DEVICE_STATUS" None)).
Proof.
  apply (broadcast_entries Sample.one_down Sample.three_cams "DEVICE_STATUS" None 3
           Sample.w0).
  - discriminate.
  - repeat constructor; simpl; intuition discriminate.
Defined.

(** ** C2: one timestamp for a synchronised start *)

Lemma truthy_nonzero (q : Q) : ~ (q == 0)%Q -> truthy (PFloat q) = true.
Proof.
  intros H. simpl. destruct (Qeq_bool q 0) eqn:Hq; auto.
  apply Qeq_bool_iff in Hq. contradiction.
Qed.

(** C2, as stated, fails when the current time plus the delay is zero: the
    clock shows 100 when the broadcast reads it and the delay is -100, so
    the shared timestamp is 0, which each device link replaces by its own
    reading of the clock: the first device is sent the timestamp 101 and the
    third 103 (the second cannot be reached; its link reads 102). *)
Lemma start_at_zero_is_stamped_by_each_link :
  exists results w' s1 s2 s3,
    send_command_to_all Sample.one_down Sample.three_cams "START_RECORDING" None
      (-100) Sample.w0 = (Ret (Some results), w') /\
    (clock Sample.one_down (ticks Sample.w0) + -100 == 0)%Q /\
    ticks w' = 4%nat /\
    socks w' = [s1; s2; s3] /\
    s_tx s1 = dumps Sample.one_down
                (PDict [("command", PStr "START_RECORDING");
                        ("timestamp", PFloat 101);
                        ("deviceId", PStr "controller")]) /\
    s_tx s3 = dumps Sample.one_down
                (PDict [("command", PStr "START_RECORDING");
                        ("timestamp", PFloat 103);
                        ("deviceId", PStr "controller")]) /\
    s_tx s1 <> s_tx s3.
Proof.
  do 5 eexists. split; [vm_compute; reflexivity|].
  split; [reflexivity|]. split; [reflexivity|]. split; [reflexivity|].
  split; [reflexivity|]. split; [reflexivity|]. vm_compute. discriminate.
Qed.

(** C2, amended: a broadcast of [START_RECORDING] without a timestamp reads
    the clock once, before any device link runs, and when that reading plus
    [sync_delay] is not zero no link reads the clock again: every device
    that can be reached is sent the request whose timestamp is that reading
    plus [sync_delay], and nothing is sent to the others. *)
Theorem start_broadcast_shares_one_timestamp E devices sync_delay w :
  devices <> [] -> ~ (clock E (ticks w) + sync_delay == 0)%Q ->
  exists results w' new,
    send_command_to_all E devices "START_RECORDING" None sync_delay w =
      (Ret (Some results), w') /\
    ticks w' = S (ticks w) /\
    socks w' = socks w ++ new /\
    Forall2 (fun nd s =>
               s_tx s =
               if reachable (net E (ip (snd nd)) (port (snd nd)))
               then dumps E
                      (PDict [("command", PStr "START_RECORDING");
                              ("timestamp",
                               PFloat (clock E (ticks w) + sync_delay)%Q);
                              ("deviceId", PStr "controller")])
               else [])
            devices new.
Proof.
  intros Hne Hnz.
  destruct (send_command_to_all_world E devices "START_RECORDING" None sync_delay w Hne)
    as (r & w' & new & Hrun & Ht & Hs & Htx).
  simpl in Hrun, Ht, Hs, Htx.
  pose proof (truthy_nonzero _ Hnz) as Hpos.
  exists r, w', new. split; [exact Hrun|]. split.
  - rewrite Ht. simpl in Hpos. rewrite Hpos. simpl. lia.
  - split; [exact Hs|].
    eapply Forall2_impl; [|exact Htx].
    intros nd s [t [Heq Hs']]. rewrite Hs'. now rewrite (Heq Hpos).
Qed.

Lemma start_broadcast_shares_one_timestamp_witness :
  exists results w' new,
    send_command_to_all Sample.one_down Sample.three_cams "START_RECORDING" None 3
      Sample.w0 = (Ret (Some results), w') /\
    ticks w' = S (ticks Sample.w0) /\
    socks w' = socks Sample.w0 ++ new /\
    Forall2 (fun nd s =>
               s_tx s =
               if reachable (net Sample.one_down (ip (snd nd)) (port (snd nd)))
               then dumps Sample.one_down
                      (PDict [("command", PStr "START_RECORDING");
                              ("timestamp",
                               PFloat (clock Sample.one_down (ticks Sample.w0) + 3)%Q);
                              ("deviceId", PStr "controller")])
               else [])
            Sample.three_cams new.
Proof.
  apply (start_broadcast_shares_one_timestamp Sample.one_down Sample.three_cams 3
           Sample.w0).
  - discriminate.
  - discriminate.
Defined.

(** ** Running the primitives on the socket of a call *)

Section OnSocket.

Variable E : env.

Lemma sock_recv_snoc w ticks0 pre s files0 n :
  w = {| ticks := ticks0; socks := pre ++ [s]; files := files0 |} ->
  s_open s = true -> 0 <= n ->
  sock_recv (List.length pre) n w =
  (fst (rx_take (Z.to_nat n) (s_rx s)),
   {| ticks := ticks0;
      socks := pre ++ [{| s_open := true; s_send := s_send s;
                          s_rx := snd (rx_take (Z.to_nat n) (s_rx s));
                          s_tx := s_tx s |}];
      files := files0 |}).
Proof.
  intros -> Ho Hn. unfold sock_recv, upd_sock, set_socks. simpl.
  rewrite nth_error_snoc, Ho.
  destruct (n <? 0) eqn:Hlt; [apply Z.ltb_lt in Hlt; lia|].
  destruct (rx_take (Z.to_nat n) (s_rx s)). simpl.
  now rewrite upd_nth_snoc, Ho.
Qed.

Lemma sock_close_snoc w ticks0 pre s files0 :
  w = {| ticks := ticks0; socks := pre ++ [s]; files := files0 |} ->
  sock_close (List.length pre) w =
  (Ret tt,
   {| ticks := ticks0;
      socks := pre ++ [{| s_open := false; s_send := s_send s;
                          s_rx := s_rx s; s_tx := s_tx s |}];
      files := files0 |}).
Proof.
  intros ->. unfold sock_close, upd_sock, set_socks. simpl.
  now rewrite upd_nth_snoc.
Qed.

Lemma unreachable_link_value device_ip device_port command file_id :
  reachable (net E device_ip device_port) = false ->
  link_value E device_ip device_port command file_id = PBool false.
Proof.
  unfold link_value, reachable. rewrite send_command_unfold. cbv zeta.
  destruct (p_connect (net E device_ip device_port)); [reflexivity|].
  destruct (p_send (net E device_ip device_port)); [reflexivity|discriminate].
Qed.

(** One read of up to 4096 bytes from a peer whose first bytes are [data]. *)
Lemma first_read data rest :
  data <> [] -> (List.length data <= 4096)%nat ->
  rx_take (Z.to_nat 4096) (Data data :: rest) = (Ret data, rest).
Proof.
  intros _ Hlen. unfold rx_take.
  replace (Z.to_nat 4096) with 4096%nat by reflexivity.
  apply Nat.leb_le in Hlen. now rewrite Hlen.
Qed.

(** The commands answered by one read of at most 4096 bytes. *)
Lemma handle_response_one_read w ticks0 pre s files0 device_ip command file_id data rest :
  w = {| ticks := ticks0; socks := pre ++ [s]; files := files0 |} ->
  s_open s = true ->
  String.eqb command "GET_VIDEO" = false ->
  String.eqb command "LIST_FILES" = false ->
  s_rx s = Data data :: rest ->
  data <> [] -> (List.length data <= 4096)%nat ->
  handle_response E (List.length pre) device_ip command file_id w =
  (decode_response E command data,
   {| ticks := ticks0;
      socks := pre ++ [{| s_open := true; s_send := s_send s;
                          s_rx := rest; s_tx := s_tx s |}];
      files := files0 |}).
Proof.
  intros Hw Ho Hget Hlist Hrx Hne Hlen.
  unfold handle_response. rewrite Hget, Hlist.
  unfold bind at 1. erewrite sock_recv_snoc; [|exact Hw|exact Ho|lia].
  rewrite Hrx, first_read by assumption. simpl fst. simpl snd. cbv iota.
  destruct data as [|b data]; [congruence|]. simpl is_empty. simpl negb. cbv iota.
  unfold decode_response, bind, json_loads, lift, ret, raise.
  destruct (loads E (b :: data)) as [rj|]; [|reflexivity].
  destruct (String.eqb command "STOP_RECORDING"); [|reflexivity].
  destruct (py_contains "fileId" rj) as [[|]|e|]; try reflexivity.
  destruct (py_getitem rj "fileId") as [v|e|]; try reflexivity.
  destruct (truthy v); reflexivity.
Qed.

(** A peer that closes without a byte. *)
Lemma handle_response_no_data w ticks0 pre s files0 device_ip command file_id :
  w = {| ticks := ticks0; socks := pre ++ [s]; files := files0 |} ->
  s_open s = true ->
  String.eqb command "GET_VIDEO" = false ->
  s_rx s = [] ->
  handle_response E (List.length pre) device_ip command file_id w =
  (Ret (PBool true),
   {| ticks := ticks0;
      socks := pre ++ [{| s_open := false; s_send := s_send s;
                          s_rx := []; s_tx := s_tx s |}];
      files := files0 |}).
Proof.
  intros Hw Ho Hget Hrx.
  unfold handle_response. rewrite Hget.
  unfold bind at 1.
  destruct (String.eqb command "LIST_FILES").
  - unfold with_fuel. unfold fuel_of. rewrite Hw. simpl socks.
    rewrite nth_error_snoc, Hrx. simpl rx_weight.
    unfold recv_json_loop.
    erewrite sock_recv_snoc; [|reflexivity|exact Ho|lia].
    rewrite Hrx. simpl. unfold bind.
    erewrite sock_close_snoc; [|reflexivity]. reflexivity.
  - erewrite sock_recv_snoc; [|exact Hw|exact Ho|lia].
    rewrite Hrx. simpl. unfold bind.
    erewrite sock_close_snoc; [|reflexivity]. reflexivity.
Qed.

(** The value of a link answered by one read. *)
Lemma one_read_link_value device_ip device_port command file_id data rest :
  reachable (net E device_ip device_port) = true ->
  String.eqb command "GET_VIDEO" = false ->
  String.eqb command "LIST_FILES" = false ->
  p_rx (net E device_ip device_port) = Data data :: rest ->
  data <> [] -> (List.length data <= 4096)%nat ->
  link_value E device_ip device_port command file_id =
  or_false (decode_response E command data).
Proof.
  intros Hreach Hget Hlist Hrx Hne Hlen.
  unfold link_value, reachable in *. rewrite send_command_unfold. cbv zeta.
  destruct (p_connect (net E device_ip device_port)); [discriminate|].
  destruct (p_send (net E device_ip device_port)) eqn:Hsend; [discriminate|].
  unfold try_except, with_socket, connected_socket.
  erewrite handle_response_one_read;
    [|reflexivity|reflexivity|assumption|assumption|exact Hrx|assumption|assumption].
  destruct (decode_response E command data); reflexivity.
Qed.

End OnSocket.

(** ** C6: the file id of a stopped recording *)

Lemma decode_stop_dict E data r :
  loads E data = Some (PDict r) ->
  decode_response E "STOP_RECORDING" data =
  Ret (match dict_get "fileId" r with
       | Some v => if truthy v then v else PDict r
       | None => PDict r
       end).
Proof.
  intros H. unfold decode_response. rewrite H.
  change (String.eqb "STOP_RECORDING" "STOP_RECORDING") with true. cbv iota.
  simpl py_contains. unfold dict_has. simpl py_getitem.
  destruct (dict_get "fileId" r); reflexivity.
Qed.

(** C6, as stated, fails in its second half: the device [cam2] answers a
    [STOP_RECORDING] with a status that has no [fileId]; its raw response is
    the value of its link, but not its value in the mapping returned by the
    broadcast, where it has no entry. *)
Lemma stop_broadcast_drops_response_without_file_id :
  link_value Sample.one_without_id "10.0.0.2" 8080 "STOP_RECORDING" None =
    PDict [("timestamp", PFloat (100200000 # 1000000))] /\
  ~ (exists results,
       fst (send_command_to_all Sample.one_without_id
              [("cam1", Sample.cam "10.0.0.1"); ("cam2", Sample.cam "10.0.0.2")]
              "STOP_RECORDING" None 3 Sample.w0) = Ret (Some results) /\
       dict_get "cam2" results =
         Some (PDict [("timestamp", PFloat (100200000 # 1000000))])).
Proof.
  split; [vm_compute; reflexivity|].
  intros [results [H1 H2]]. vm_compute in H1. injection H1 as <-.
  vm_compute in H2. discriminate.
Qed.

(** C6, amended: for a [STOP_RECORDING] answered by a dict, the device link
    returns the [fileId] of the answer when it has one that is not empty,
    and the raw answer when the [fileId] is empty or absent; in the mapping
    returned by the broadcast the device's value is the file id when that is
    a non-empty string, and the device has no entry otherwise. *)
Theorem stop_recording_file_id E devices timestamp sync_delay w name d data rest r :
  devices <> [] -> NoDup (keys devices) -> In (name, d) devices ->
  reachable (net E (ip d) (port d)) = true ->
  p_rx (net E (ip d) (port d)) = Data data :: rest ->
  data <> [] -> (List.length data <= 4096)%nat ->
  loads E data = Some (PDict r) ->
  (forall ts file_id w1,
     fst (send_command E (ip d) (port d) "STOP_RECORDING" ts file_id w1) =
     Ret (match dict_get "fileId" r with
          | Some v => if truthy v then v else PDict r
          | None => PDict r
          end)) /\
  exists results,
    fst (send_command_to_all E devices "STOP_RECORDING" timestamp sync_delay w) =
      Ret (Some results) /\
    dict_get name results =
      match dict_get "fileId" r with
      | Some (PStr f) => if String.eqb f "" then None else Some (PStr f)
      | _ => None
      end.
Proof.
  intros Hne Hnd Hin Hreach Hrx Hdata Hlen Hloads.
  assert (Hv : forall file_id,
             link_value E (ip d) (port d) "STOP_RECORDING" file_id =
             match dict_get "fileId" r with
             | Some v => if truthy v then v else PDict r
             | None => PDict r
             end).
  { intros file_id.
    rewrite (one_read_link_value E (ip d) (port d) "STOP_RECORDING" file_id data rest)
      by (assumption || reflexivity).
    now rewrite (decode_stop_dict E data r Hloads). }
  split.
  - intros ts file_id w1. now rewrite send_command_value, Hv.
  - eexists. split; [now apply send_command_to_all_run|].
    change (String.eqb "STOP_RECORDING" "STOP_RECORDING") with true. cbv iota.
    rewrite (dict_get_file_ids name
               (link_value E (ip d) (port d) "STOP_RECORDING" None)).
    + rewrite Hv. destruct (dict_get "fileId" r) as [v|]; [|reflexivity].
      destruct (truthy v) eqn:Ht.
      * destruct v as [|b|z|q|x|f|l|m]; simpl; try reflexivity.
        simpl in Ht. destruct (String.eqb f ""); [discriminate|reflexivity].
      * simpl. destruct v as [|b|z|q|x|f|l|m]; try reflexivity.
        simpl in Ht. destruct (String.eqb f ""); [reflexivity|discriminate].
    + now rewrite keys_link_values.
    + now apply In_link_values.
Qed.

Lemma stop_recording_file_id_witness :
  (forall ts file_id w1,
     fst (send_command Sample.one_without_id "10.0.0.1" 8080 "STOP_RECORDING"
            ts file_id w1) = Ret (PStr "abc123")) /\
  exists results,
    fst (send_command_to_all Sample.one_without_id
           [("cam1", Sample.cam "10.0.0.1"); ("cam2", Sample.cam "10.0.0.2")]
           "STOP_RECORDING" None 3 Sample.w0) = Ret (Some results) /\
    dict_get "cam1" results = Some (PStr "abc123").
Proof.
  apply (stop_recording_file_id Sample.one_without_id
           [("cam1", Sample.cam "10.0.0.1"); ("cam2", Sample.cam "10.0.0.2")]
           None 3 Sample.w0 "cam1" (Sample.cam "10.0.0.1")
           (MiniJson.mini_dumps (PDict [("fileId", PStr "abc123")])) []
           [("fileId", PStr "abc123")]).
  - discriminate.
  - repeat constructor; simpl; intuition discriminate.
  - simpl. auto.
  - reflexivity.
  - reflexivity.
  - discriminate.
  - apply Nat.leb_le. reflexivity.
  - reflexivity.
Defined.

(** ** C7: failures stay with their device *)




(** ** C10: a zero timestamp and an empty file id *)

(** C10: the request a call sends carries the caller's timestamp when that
    is not zero and a reading of the clock when it is zero, and it has a
    [fileId] only for a file id that is not the empty string. *)
Theorem zero_timestamp_and_empty_file_id E device_ip device_port command
    (timestamp : Q) file_id w :
  exists v w' s,
    send_command E device_ip device_port command (Some timestamp) file_id w =
      (Ret v, w') /\
    socks w' = socks w ++ [s] /\
    s_tx s =
      if reachable (net E device_ip device_port) then
        dumps E
          (PDict ([("command", PStr command);
                   ("timestamp",
                    PFloat (if Qeq_bool timestamp 0 then clock E (ticks w)
                            else timestamp));
                   ("deviceId", PStr "controller")] ++
                  match file_id with
                  | Some f => if String.eqb f "" then [] else [("fileId", PStr f)]
                  | None => []
                  end))
      else [].
Proof.
  destruct (send_command_run E device_ip device_port command (Some timestamp) file_id w)
    as (v & w' & s & Hrun & _ & Hs & Htx).
  exists v, w', s. split; [exact Hrun|]. split; [exact Hs|].
  rewrite Htx. destruct (reachable _); [|reflexivity]. f_equal.
  unfold message_of, stamp_of. simpl truthy.
  destruct (Qeq_bool timestamp 0); simpl negb; cbv iota;
    (destruct file_id as [f|]; [destruct (String.eqb f "")|]; reflexivity).
Qed.

(** ** Reading a stream of chunks *)

Lemma firstn_short {A} (n : nat) (l : list A) :
  (List.length l <= n)%nat -> firstn n l = l.
Proof.
  revert n; induction l as [|x l IH]; intros [|n] H; simpl in *; auto; try lia.
  f_equal. apply IH. lia.
Qed.

Lemma firstn_app_long {A} (n : nat) (l1 l2 : list A) :
  (List.length l1 <= n)%nat ->
  firstn n (l1 ++ l2) = l1 ++ firstn (n - List.length l1) l2.
Proof.
  revert n; induction l1 as [|x l1 IH]; intros n H; simpl in *.
  - now rewrite Nat.sub_0_r.
  - destruct n as [|n]; [lia|]. simpl. f_equal. apply IH. lia.
Qed.

(** A read of [n > 0] bytes from chunks that have arrived takes a non-empty
    piece off their front. *)
Lemma rx_take_chunks (n : nat) (c : bytes) (cs : list bytes) :
  (0 < n)%nat -> c <> [] -> Forall (fun c => c <> []) cs ->
  exists chunk cs',
    rx_take n (map Data (c :: cs)) = (Ret chunk, map Data cs') /\
    chunk <> [] /\ (List.length chunk <= n)%nat /\
    chunk = firstn n c /\
    Forall (fun c => c <> []) cs' /\
    chunk ++ List.concat cs' = List.concat (c :: cs) /\
    (rx_weight (map Data cs') < rx_weight (map Data (c :: cs)))%nat.
Proof.
  intros Hn Hc Hcs. simpl map. unfold rx_take.
  destruct (List.length c <=? n)%nat eqn:Hlen.
  - apply Nat.leb_le in Hlen. exists c, cs.
    repeat split; auto.
    + now rewrite firstn_short.
    + simpl. lia.
  - apply Nat.leb_gt in Hlen. exists (firstn n c), (skipn n c :: cs).
    assert (Hskip : skipn n c <> []).
    { intros H. apply (f_equal (@List.length byte)) in H.
      rewrite length_skipn in H. simpl in H. lia. }
    repeat split; auto.
    + destruct n; [lia|]. destruct c; [congruence|]. discriminate.
    + rewrite length_firstn. lia.
    + simpl. rewrite app_assoc, firstn_skipn. reflexivity.
    + simpl. rewrite length_skipn. lia.
Qed.

Section Reading.

Variable E : env.

(** The commands answered by one read: the first 4096 bytes, at most, of
    what has arrived first. *)
Lemma handle_response_first_chunk w ticks0 pre s files0 device_ip command file_id c rest :
  w = {| ticks := ticks0; socks := pre ++ [s]; files := files0 |} ->
  s_open s = true ->
  String.eqb command "GET_VIDEO" = false ->
  String.eqb command "LIST_FILES" = false ->
  s_rx s = Data c :: rest ->
  c <> [] ->
  exists s',
    handle_response E (List.length pre) device_ip command file_id w =
    (decode_response E command (firstn 4096 c),
     {| ticks := ticks0; socks := pre ++ [s']; files := files0 |}) /\
    s_open s' = true.
Proof.
  intros Hw Ho Hget Hlist Hrx Hne.
  unfold handle_response. rewrite Hget, Hlist.
  unfold bind at 1. erewrite sock_recv_snoc; [|exact Hw|exact Ho|lia].
  rewrite Hrx.
  destruct (rx_take_chunks 4096 c [] ltac:(lia) Hne ltac:(constructor))
    as (chunk & cs' & Htake & Hchunk & _ & Hfirst & _).
  replace (Z.to_nat 4096) with 4096%nat by reflexivity.
  assert (Hfst : fst (rx_take 4096 (Data c :: rest)) = Ret chunk).
  { simpl in Htake. unfold rx_take in *.
    destruct (List.length c <=? 4096)%nat; now inversion Htake. }
  rewrite Hfst. cbv iota. subst chunk.
  destruct (firstn 4096 c) as [|b chunk] eqn:Hc; [congruence|].
  simpl is_empty. simpl negb. cbv iota.
  eexists
    {| s_open := true; s_send := s_send s;
       s_rx := snd (rx_take 4096 (Data c :: rest)); s_tx := s_tx s |}.
  split; [|reflexivity].
  unfold decode_response, bind, json_loads, lift, ret, raise.
  destruct (loads E (b :: chunk)) as [rj|]; [|reflexivity].
  destruct (String.eqb command "STOP_RECORDING"); [|reflexivity].
  destruct (py_contains "fileId" rj) as [[|]|e|]; try reflexivity.
  destruct (py_getitem rj "fileId") as [v|e|]; try reflexivity.
  destruct (truthy v); reflexivity.
Qed.

(** The [LIST_FILES] loop reads on to the end of the stream when nothing it
    has gathered parses, and what it ends with does not parse either. *)
Lemma recv_json_loop_drain fuel : forall chunks response_data w ticks0 pre s files0,
  w = {| ticks := ticks0; socks := pre ++ [s]; files := files0 |} ->
  s_open s = true ->
  s_rx s = map Data chunks ->
  Forall (fun c => c <> []) chunks ->
  (rx_weight (map Data chunks) < fuel)%nat ->
  (forall d, In d (gathered_loop fuel (map Data chunks) response_data) ->
             loads E d = None) ->
  exists s',
    recv_json_loop E fuel (List.length pre) response_data w =
    (Ret (response_data ++ List.concat chunks),
     {| ticks := ticks0; socks := pre ++ [s']; files := files0 |}) /\
    s_open s' = true /\
    (chunks <> [] -> loads E (response_data ++ List.concat chunks) = None).
Proof.
  induction fuel as [|fuel IH]; intros chunks rd w t pre s f Hw Ho Hrx Hcs Hfuel Hloads;
    [lia|].
  simpl. erewrite sock_recv_snoc; [|exact Hw|exact Ho|lia].
  rewrite Hrx. destruct chunks as [|c cs].
  - simpl. rewrite app_nil_r.
    exists {| s_open := true; s_send := s_send s; s_rx := []; s_tx := s_tx s |}.
    split; [reflexivity|]. split; [reflexivity|congruence].
  - inversion Hcs as [|? ? Hc Hcs']; subst.
    destruct (rx_take_chunks (Z.to_nat 8192) c cs ltac:(lia) Hc Hcs')
      as (chunk & cs' & Htake & Hchunk & _ & _ & Hcs'' & Hcat & Hw').
    rewrite Htake. simpl fst. simpl snd. cbv iota.
    cbn [gathered_loop] in Hloads. rewrite Htake in Hloads.
    destruct chunk as [|b chunk]; [congruence|]. simpl is_empty in *. cbv iota in *.
    rewrite (Hloads (rd ++ b :: chunk)) by now left.
    destruct (IH cs' (rd ++ b :: chunk) _ t pre
                {| s_open := true; s_send := s_send s; s_rx := map Data cs';
                   s_tx := s_tx s |} f eq_refl eq_refl eq_refl Hcs'')
      as (s' & Hrun & Ho' & Hlast).
    + lia.
    + intros d Hd. apply Hloads. now right.
    + exists s'. rewrite <- Hcat, app_assoc. split; [exact Hrun|].
      split; [exact Ho'|]. intros _.
      destruct cs' as [|c' cs'']; [|apply Hlast; discriminate].
      simpl. rewrite app_nil_r. apply Hloads. now left.
Qed.

End Reading.

(** ** C4: a connection closed before the response parses *)

(** C4, as stated, fails when no byte arrives: the peer at 10.0.0.3 accepts
    the request and closes; the call returns [True], not a failure. *)
Lemma silent_peer_is_acknowledged :
  p_rx (net Sample.mixed_peers "10.0.0.3" 8080) = [] /\
  fst (send_command Sample.mixed_peers "10.0.0.3" 8080 "DEVICE_STATUS" None None
         Sample.w0) = Ret (PBool true).
Proof. split; vm_compute; reflexivity. Qed.

(** [LIST_FILES] answered by bytes that never parse. *)
Lemma handle_response_unparsed_list E w ticks0 pre s files0 device_ip file_id chunks :
  w = {| ticks := ticks0; socks := pre ++ [s]; files := files0 |} ->
  s_open s = true ->
  s_rx s = map Data chunks ->
  Forall (fun c => c <> []) chunks ->
  is_empty (List.concat chunks) = false ->
  (forall d, In d (gathered "LIST_FILES" (map Data chunks)) -> loads E d = None) ->
  exists s',
    handle_response E (List.length pre) device_ip "LIST_FILES" file_id w =
    (Raise JSONDecodeError, {| ticks := ticks0; socks := pre ++ [s']; files := files0 |}) /\
    s_open s' = true.
Proof.
  intros Hw Ho Hrx Hcs Hne Hloads.
  unfold handle_response.
  change (String.eqb "LIST_FILES" "GET_VIDEO") with false.
  change (String.eqb "LIST_FILES" "LIST_FILES") with true. cbv iota.
  unfold bind at 1. unfold with_fuel, fuel_of. rewrite Hw. simpl socks.
  rewrite nth_error_snoc, Hrx.
  edestruct (recv_json_loop_drain E (S (rx_weight (map Data chunks))) chunks [])
    as (s' & Hrun & Ho' & Hlast);
    [reflexivity|exact Ho|exact Hrx|exact Hcs|lia|exact Hloads|].
  rewrite Hrun. cbv iota. rewrite !app_nil_l in *. rewrite Hne. simpl negb. cbv iota.
  unfold bind, json_loads.
  rewrite Hlast.
  - exists s'. split; [reflexivity|exact Ho'].
  - intros H. rewrite H in Hne. discriminate.
Qed.

(** C4, amended: for every command but [GET_VIDEO], against a peer that
    sends some bytes and closes the connection, when nothing that the call
    gathers parses as JSON, the call returns [False] if at least one byte
    has arrived, its socket left open; if none has arrived it closes the
    socket and returns [True]. *)
Theorem closed_before_parse E device_ip device_port command timestamp file_id w chunks :
  reachable (net E device_ip device_port) = true ->
  String.eqb command "GET_VIDEO" = false ->
  p_rx (net E device_ip device_port) = map Data chunks ->
  Forall (fun c => c <> []) chunks ->
  (forall d, In d (gathered command (map Data chunks)) -> loads E d = None) ->
  exists w' s,
    send_command E device_ip device_port command timestamp file_id w =
      (Ret (PBool (is_empty (List.concat chunks))), w') /\
    socks w' = socks w ++ [s] /\
    s_open s = negb (is_empty (List.concat chunks)).
Proof.
  intros Hreach Hget Hrx Hcs Hloads.
  unfold reachable in *. rewrite send_command_unfold. cbv zeta.
  destruct (p_connect (net E device_ip device_port)); [discriminate|].
  destruct (p_send (net E device_ip device_port)) eqn:Hsend; [discriminate|].
  unfold try_except, with_socket, connected_socket. rewrite Hrx.
  destruct chunks as [|c cs].
  - erewrite handle_response_no_data; [|reflexivity|reflexivity|assumption|reflexivity].
    eexists _, _. split; [reflexivity|]. split; reflexivity.
  - inversion Hcs as [|? ? Hc Hcs']; subst.
    assert (Hne : is_empty (List.concat (c :: cs)) = false).
    { simpl. destruct c; [congruence|reflexivity]. }
    rewrite Hne.
    destruct (String.eqb command "LIST_FILES") eqn:Hlist.
    + apply String.eqb_eq in Hlist. subst command.
      lazymatch goal with |- context [handle_response E _ _ _ _ ?W] =>
        destruct (handle_response_unparsed_list E W _ (socks w) _ _
                    device_ip file_id (c :: cs) eq_refl eq_refl eq_refl Hcs Hne Hloads)
          as (s' & Hrun & Ho)
      end.
      rewrite Hrun. eexists _, s'. split; [reflexivity|]. split; [reflexivity|exact Ho].
    + lazymatch goal with |- context [handle_response E _ _ _ _ ?W] =>
        destruct (handle_response_first_chunk E W _ (socks w) _ _
                    device_ip command file_id c (map Data cs)
                    eq_refl eq_refl Hget Hlist eq_refl Hc)
          as (s' & Hrun & Ho)
      end.
      rewrite Hrun. unfold decode_response.
      rewrite (Hloads (firstn 4096 c)).
      * eexists _, s'. split; [reflexivity|]. split; [reflexivity|exact Ho].
      * unfold gathered. rewrite Hlist.
        destruct (rx_take_chunks (Z.to_nat 4096) c cs ltac:(lia) Hc Hcs')
          as (chunk & cs' & Htake & Hchunk & _ & Hfirst & _).
        rewrite Htake. destruct chunk; [congruence|].
        simpl is_empty. cbv iota. left. exact Hfirst.
Qed.

Lemma closed_before_parse_witness :
  exists w' s,
    send_command Sample.mixed_peers "10.0.0.4" 8080 "LIST_FILES" None None Sample.w0 =
      (Ret (PBool (is_empty (List.concat [[x7b]]))), w') /\
    socks w' = socks Sample.w0 ++ [s] /\
    s_open s = negb (is_empty (List.concat [[x7b]])).
Proof.
  apply (closed_before_parse Sample.mixed_peers "10.0.0.4" 8080 "LIST_FILES" None None
           Sample.w0 [[x7b]]).
  - reflexivity.
  - reflexivity.
  - reflexivity.
  - repeat constructor. discriminate.
  - intros d [<-|[]]. reflexivity.
Defined.

Lemma decode_response_not_stuck E command data :
  decode_response E command data <> Stuck.
Proof.
  unfold decode_response. destruct (loads E data) as [rj|]; [|discriminate].
  destruct (String.eqb command "STOP_RECORDING"); [|discriminate].
  pose proof (py_contains_not_stuck "fileId" rj) as H1.
  destruct (py_contains "fileId" rj) as [[|]|e|]; try discriminate; [|congruence].
  pose proof (py_getitem_not_stuck rj "fileId") as H2.
  destruct (py_getitem rj "fileId"); try discriminate. congruence.
Qed.

(** ** C5: the socket at the end of a call *)

(** C5 fails on the code: when the first read brings bytes, the call returns
    (the decoded value, or [False] when decoding fails) with its socket still
    open; [sock.close()] is only reached by an empty response. *)
Theorem answered_call_leaves_socket_open E device_ip device_port command timestamp
    file_id w c rest :
  reachable (net E device_ip device_port) = true ->
  String.eqb command "GET_VIDEO" = false ->
  String.eqb command "LIST_FILES" = false ->
  p_rx (net E device_ip device_port) = Data c :: rest ->
  c <> [] ->
  exists w' s,
    send_command E device_ip device_port command timestamp file_id w =
      (Ret (or_false (decode_response E command (firstn 4096 c))), w') /\
    socks w' = socks w ++ [s] /\
    s_open s = true.
Proof.
  intros Hreach Hget Hlist Hrx Hc.
  unfold reachable in *. rewrite send_command_unfold. cbv zeta.
  destruct (p_connect (net E device_ip device_port)); [discriminate|].
  destruct (p_send (net E device_ip device_port)) eqn:Hsend; [discriminate|].
  unfold try_except, with_socket, connected_socket.
  lazymatch goal with |- context [handle_response E _ _ _ _ ?W] =>
    destruct (handle_response_first_chunk E W _ (socks w) _ _
                device_ip command file_id c rest
                eq_refl eq_refl Hget Hlist Hrx Hc)
      as (s' & Hrun & Ho)
  end.
  rewrite Hrun.
  pose proof (decode_response_not_stuck E command (firstn 4096 c)) as Hns.
  destruct (decode_response E command (firstn 4096 c)); [| |congruence];
    eexists _, s'; (split; [reflexivity|]); simpl; auto.
Qed.

Lemma answered_call_leaves_socket_open_witness :
  exists w' s,
    send_command Sample.mixed_peers "10.0.0.2" 8080 "DEVICE_STATUS" None None Sample.w0 =
      (Ret (or_false
              (decode_response Sample.mixed_peers "DEVICE_STATUS"
                 (firstn 4096
                    (MiniJson.mini_dumps (PDict [("timestamp", PFloat (1002 # 10))]))))),
       w') /\
    socks w' = socks Sample.w0 ++ [s] /\
    s_open s = true.
Proof.
  apply (answered_call_leaves_socket_open Sample.mixed_peers "10.0.0.2" 8080
           "DEVICE_STATUS" None None Sample.w0
           (MiniJson.mini_dumps (PDict [("timestamp", PFloat (1002 # 10))])) []).
  - reflexivity.
  - reflexivity.
  - reflexivity.
  - reflexivity.
  - discriminate.
Defined.

(** ** C9: the clock estimate *)

Section Estimator.

Variable E : env.

Lemma time_time_run w :
  time_time E w = (Ret (clock E (ticks w)), set_ticks (S (ticks w)) w).
Proof. reflexivity. Qed.

(** A probe always ends with an entry for its device. *)
Lemma probe_device_run d w :
  exists p w', probe_device E d w = (Ret p, w').
Proof.
  unfold probe_device, try_except. unfold bind at 1. rewrite time_time_run.
  cbv iota beta. unfold bind at 1.
  destruct (send_command_run E (ip d) (port d) "DEVICE_STATUS"
              (Some (clock E (ticks w))) None (set_ticks (S (ticks w)) w))
    as (v & w1 & s & Hrun & _).
  rewrite Hrun. cbv iota beta. unfold bind at 1. rewrite time_time_run.
  cbv iota beta.
  destruct v as [| | | | | | |r]; try (eexists _, _; reflexivity).
  destruct (dict_get "timestamp" r) as [td|]; [|eexists _, _; reflexivity].
  unfold lift, estimate, add_float.
  destruct (as_num td) as [[z|q|x]|];
    [unfold float_of_num; destruct (too_large_for_float z)| | |];
    eexists _, _; reflexivity.
Qed.

(** C9, amended: for a device that answers the probe with a status whose
    timestamp is a number [td] (an [int], a [bool] or a [float]), with [t0]
    the clock when the probe is sent and [t1] the clock when the answer is
    back, the entry of the device has the round trip [(t1 - t0) * 1000] and
    the clock difference [(td + (t1 - t0) / 2 - t1) * 1000], each operation
    rounded to binary64; for [td = 100.000], [t0 = 100.000] and
    [t1 = 100.040] the difference is the float -19.99999999999602, which is
    not -20. *)
Theorem clock_estimate d w data rest r td n x :
  reachable (net E (ip d) (port d)) = true ->
  p_rx (net E (ip d) (port d)) = Data data :: rest ->
  data <> [] -> (List.length data <= 4096)%nat ->
  loads E data = Some (PDict r) ->
  dict_get "timestamp" r = Some td ->
  as_num td = Some n -> float_of_num n = Ret x ->
  let t0 := round64 (clock E (ticks w)) in
  let t1 := round64 (clock E (S (clock_reads (Some (clock E (ticks w))) + ticks w))) in
  let round_trip_time := fsub t1 t0 in
  let time_difference := fsub (fadd x (half round_trip_time)) t1 in
  fst (probe_device E d w) =
    Ret (ProbeSuccess n (fmul round_trip_time (Finite 1000))
                        (fmul time_difference (Finite 1000))) /\
  (x = Finite 100 -> t0 = Finite 100 -> t1 = round64 (10004 # 100) ->
   fmul time_difference (Finite 1000) = Finite (-175921860444125 # 8796093022208) /\
   ~ (-175921860444125 # 8796093022208 == -20)%Q).
Proof.
  intros Hreach Hrx Hdata Hlen Hloads Htd Hn Hx t0 t1 round_trip_time time_difference.
  split.
  - unfold probe_device, try_except. unfold bind at 1. rewrite time_time_run.
    cbv iota beta. unfold bind at 1.
    destruct (send_command_run E (ip d) (port d) "DEVICE_STATUS"
                (Some (clock E (ticks w))) None (set_ticks (S (ticks w)) w))
      as (v & w1 & s & Hrun & Ht & _).
    pose proof (send_command_value E (ip d) (port d) "DEVICE_STATUS"
                  (Some (clock E (ticks w))) None
                  (set_ticks (S (ticks w)) w)) as Hv.
    rewrite Hrun in Hv. simpl in Hv. injection Hv as Hv.
    rewrite (one_read_link_value E (ip d) (port d) "DEVICE_STATUS" None data rest)
      in Hv by (assumption || reflexivity).
    unfold decode_response in Hv. rewrite Hloads in Hv.
    change (String.eqb "DEVICE_STATUS" "STOP_RECORDING") with false in Hv.
    simpl in Hv. subst v.
    rewrite Hrun. cbv iota beta. unfold bind at 1. rewrite time_time_run.
    cbv iota beta. rewrite Htd. unfold lift, estimate, add_float.
    rewrite Hn, Hx. cbv iota beta.
    simpl fst. rewrite Ht. simpl ticks.
    replace (clock_reads (Some (clock E (ticks w))) + S (ticks w))%nat
      with (S (clock_reads (Some (clock E (ticks w))) + ticks w)) by lia.
    reflexivity.
  - intros H1 H2 H3. split; [|discriminate].
    unfold time_difference, round_trip_time. rewrite H1, H2, H3.
    vm_compute. reflexivity.
Qed.

End Estimator.

Lemma clock_estimate_witness :
  fst (probe_device Sample.forty_ms (Sample.cam "10.0.0.1") Sample.w0) =
    Ret (ProbeSuccess (NFloat (100000000 # 1000000))
           (Finite (351843720888375 # 8796093022208))
           (Finite (-175921860444125 # 8796093022208))) /\
  ~ (-175921860444125 # 8796093022208 == -20)%Q.
Proof.
  destruct (clock_estimate Sample.forty_ms (Sample.cam "10.0.0.1") Sample.w0
              (MiniJson.mini_dumps (PDict [("timestamp", PFloat (inject_Z 100))])) []
              [("timestamp", PFloat (100000000 # 1000000))]
              (PFloat (100000000 # 1000000)) (NFloat (100000000 # 1000000))
              (Finite 100))
    as (Hrun & Hex).
  - reflexivity.
  - reflexivity.
  - discriminate.
  - apply Nat.leb_le. reflexivity.
  - reflexivity.
  - reflexivity.
  - reflexivity.
  - reflexivity.
  - split; [exact Hrun|]. apply Hex; reflexivity.
Defined.

(** C9, as stated, fails at its own example: with the timestamp 100.000,
    the probe sent at 100.000 and the answer back at 100.040, the round trip
    is 40.00000000000625 ms and the clock difference -19.99999999999602 ms,
    the floats next to 40 and -20 that the rounded operations give; the
    difference is above -20 by less than 4e-12. *)
Lemma forty_ms_difference_is_not_minus_20 :
  exists round_trip_ms time_diff_ms,
    fst (probe_device Sample.forty_ms (Sample.cam "10.0.0.1") Sample.w0) =
      Ret (ProbeSuccess (NFloat (100000000 # 1000000))
             (Finite round_trip_ms) (Finite time_diff_ms)) /\
    ~ (time_diff_ms == -20)%Q /\
    (-20 < time_diff_ms)%Q /\ (time_diff_ms < -20 + (4 # 1000000000000))%Q /\
    ~ (round_trip_ms == 40)%Q.
Proof.
  exists (351843720888375 # 8796093022208)%Q, (-175921860444125 # 8796093022208)%Q.
  split; [vm_compute; reflexivity|].
  repeat split; try discriminate; reflexivity.
Qed.

(** ** C8: the classification of the fleet *)

Lemma Qltb_lt (a b : Q) : Qltb a b = true <-> (a < b)%Q.
Proof.
  unfold Qltb. rewrite negb_true_iff. split.
  - intros H. apply Qnot_le_lt. intros Hle.
    apply Qle_bool_iff in Hle. congruence.
  - intros H. destruct (Qle_bool b a) eqn:Hb; auto.
    apply Qle_bool_iff in Hb. exfalso. revert Hb. now apply Qlt_not_le.
Qed.

Lemma Qltb_ge (a b : Q) : Qltb a b = false <-> (b <= a)%Q.
Proof.
  unfold Qltb. rewrite negb_false_iff. apply Qle_bool_iff.
Qed.

(** The order of the floats. *)
Ltac float_cases :=
  repeat match goal with
         | s : bool |- _ => destruct s
         end; simpl; try discriminate; try tauto; try congruence.

Lemma flt_trans a b c : flt a b = true -> flt b c = true -> flt a c = true.
Proof.
  destruct a as [p|[|s1]], b as [q|[|s2]], c as [r|[|s3]]; simpl; float_cases.
  intros H1 H2. apply Qltb_lt in H1, H2. apply Qltb_lt.
  eapply Qlt_trans; eassumption.
Qed.

Lemma fle_trans a b c : fle a b = true -> fle b c = true -> fle a c = true.
Proof.
  destruct a as [p|[|s1]], b as [q|[|s2]], c as [r|[|s3]]; simpl; float_cases.
  intros H1 H2. apply Qle_bool_iff in H1, H2. apply Qle_bool_iff.
  eapply Qle_trans; eassumption.
Qed.

Lemma fle_refl a : ~ is_nan a -> fle a a = true.
Proof.
  unfold is_nan. destruct a as [p|[|s]]; simpl; intros H.
  - apply Qle_bool_iff, Qle_refl.
  - congruence.
  - now destruct s.
Qed.

Lemma flt_fle a b : flt a b = true -> fle a b = true.
Proof.
  destruct a as [p|[|s1]], b as [q|[|s2]]; simpl; float_cases.
  intros H. apply Qltb_lt in H. apply Qle_bool_iff. now apply Qlt_le_weak.
Qed.

(** Two floats that are no [nan] compare one way or the other. *)
Lemma flt_false_fle a b :
  ~ is_nan a -> ~ is_nan b -> flt a b = false -> fle b a = true.
Proof.
  unfold is_nan.
  destruct a as [p|[|s1]], b as [q|[|s2]]; simpl; float_cases.
  intros _ _ H. apply Qltb_ge in H. now apply Qle_bool_iff.
Qed.

(** Where a float stands to a threshold: below it, at or above it, or
    neither, which is the case of [nan] alone. *)
Lemma not_reached c d : fle (Finite c) d = false <-> below c d \/ is_nan d.
Proof.
  unfold below, is_nan. destruct d as [q|[|s]]; simpl.
  - unfold Qltb. rewrite negb_true_iff. split; [auto|].
    intros [H|H]; [exact H|discriminate].
  - split; auto.
  - rewrite negb_false_iff. split; [auto|].
    intros [H|H]; [exact H|discriminate].
Qed.

Lemma py_max_not_nan a b : ~ is_nan a -> ~ is_nan (py_max a b).
Proof.
  unfold py_max, is_nan. intros Ha.
  destruct (flt a b) eqn:H; [|exact Ha].
  intros ->. destruct a as [p|[|s]]; discriminate.
Qed.

(** [max(a, b)] is below a threshold when [a] is and [b] does not reach
    it. *)
Lemma py_max_below c a b :
  ~ is_nan a ->
  flt (py_max a b) (Finite c) =
    (flt a (Finite c) && negb (fle (Finite c) b))%bool.
Proof.
  unfold py_max, is_nan.
  destruct a as [p|[|s1]], b as [q|[|s2]]; simpl; intros Ha;
    try congruence;
    try (now rewrite andb_true_r);
    try (destruct s1, s2; reflexivity);
    try (destruct s2; simpl; rewrite ?andb_true_r, ?andb_false_r; reflexivity);
    try (destruct s1; reflexivity).
  change (negb (Qle_bool c q)) with (Qltb q c).
  destruct (Qltb p q) eqn:Hpq; simpl.
  - destruct (Qltb q c) eqn:Hqc; [|now rewrite andb_false_r].
    rewrite andb_true_r. symmetry.
    apply Qltb_lt in Hpq, Hqc. apply Qltb_lt. eapply Qlt_trans; eassumption.
  - destruct (Qltb p c) eqn:Hpc; [|reflexivity]. simpl. symmetry.
    apply Qltb_ge in Hpq. apply Qltb_lt in Hpc. apply Qltb_lt.
    eapply Qle_lt_trans; eassumption.
Qed.

(** The loop over the results counts the successful probes; its greatest
    difference is below a threshold when none of the differences reaches
    the threshold. *)
Lemma tally_results_spec (c : Q) results : forall t,
  ~ is_nan (max_diff t) ->
  let t' := tally_results results t in
  valid_devices t' = valid_devices t + Z.of_nat (List.length (abs_diffs results)) /\
  ~ is_nan (max_diff t') /\
  flt (max_diff t') (Finite c) =
    (flt (max_diff t) (Finite c) &&
     forallb (fun d => negb (fle (Finite c) d)) (abs_diffs results))%bool.
Proof.
  induction results as [|[name p] results IH]; intros t Ht; simpl.
  - rewrite andb_true_r. repeat split; auto; lia.
  - destruct p as [dt rt x| |e]; try (apply IH; exact Ht).
    match goal with |- context [tally_results results ?t1] =>
      destruct (IH t1) as (Hv & Hnan & Hmax)
    end.
    { simpl. now apply py_max_not_nan. }
    simpl in Hv, Hmax. repeat split.
    + rewrite Hv. simpl. lia.
    + exact Hnan.
    + rewrite Hmax. simpl. rewrite py_max_below by exact Ht.
      now rewrite andb_assoc.
Qed.

Lemma forallb_false {A} (f : A -> bool) (l : list A) :
  forallb f l = false -> exists x, In x l /\ f x = false.
Proof.
  induction l as [|a l IH]; simpl; [discriminate|].
  destruct (f a) eqn:Ha; simpl.
  - intros H. destruct (IH H) as (x & Hin & Hx). exists x. auto.
  - intros _. exists a. auto.
Qed.

Lemma report_of_classified results : classified (report_of results).
Proof.
  unfold classified, report_of. simpl probes. simpl verdict.
  set (t0 := {| max_diff := Finite 0; min_diff := Finite 0; valid_devices := 0 |}).
  assert (Hnan : ~ is_nan (max_diff t0)) by discriminate.
  destruct (tally_results_spec 50 results t0 Hnan) as (Hv & _ & H50).
  destruct (tally_results_spec 200 results t0 Hnan) as (_ & _ & H200).
  simpl in Hv. change (flt (max_diff t0) (Finite 50)) with true in H50.
  change (flt (max_diff t0) (Finite 200)) with true in H200.
  rewrite andb_true_l in H50, H200.
  set (t := tally_results results t0) in *.
  set (ds := abs_diffs results) in *.
  unfold summarize. rewrite Hv.
  destruct (2 <=? Z.of_nat (List.length ds)) eqn:H2.
  - apply Z.leb_le in H2. rewrite H50, H200.
    destruct (forallb (fun d => negb (fle (Finite 50) d)) ds) eqn:Hb50; cbv iota.
    + split; [lia|]. intros d Hd. apply not_reached.
      rewrite forallb_forall in Hb50. apply negb_true_iff. now apply Hb50.
    + destruct (forallb_false _ _ Hb50) as (dm & Hin & Hdm).
      apply negb_false_iff in Hdm.
      destruct (forallb (fun d => negb (fle (Finite 200) d)) ds) eqn:Hb200; cbv iota.
      * split; [lia|]. split; [exists dm; split; assumption|].
        intros d Hd. apply not_reached.
        rewrite forallb_forall in Hb200. apply negb_true_iff. now apply Hb200.
      * destruct (forallb_false _ _ Hb200) as (dp & Hinp & Hdp).
        apply negb_false_iff in Hdp.
        split; [lia|]. exists dp. split; assumption.
  - apply Z.leb_gt in H2.
    destruct (Z.of_nat (List.length ds) =? 1) eqn:H1.
    + apply Z.eqb_eq in H1. lia.
    + apply Z.eqb_neq in H1. lia.
Qed.

(** A difference that reaches 200 ms reaches 50 ms, and one that reaches a
    threshold is neither below it nor [nan]. *)
Lemma reaches_200_50 d : reaches 200 d -> reaches 50 d.
Proof.
  unfold reaches. apply fle_trans. reflexivity.
Qed.

Lemma below_and_above (ds : list float) (a : Q) :
  (forall d, In d ds -> below a d \/ is_nan d) ->
  (exists d, In d ds /\ reaches a d) -> False.
Proof.
  intros Hall (d & Hin & Hle). apply Hall, not_reached in Hin.
  unfold reaches in Hle. congruence.
Qed.

Lemma classified_classification rep : classified rep -> classification rep.
Proof.
  unfold classified, classification.
  destruct (verdict rep); intros H;
    (split; [|split; [|split; [|split]]]); (split; intros H');
    try discriminate H'; try reflexivity; try exact H; exfalso;
    repeat match goal with
           | H : _ /\ _ |- _ => destruct H
           end;
    try lia;
    first [ solve [eapply (below_and_above _ 50); eauto]
          | solve [eapply (below_and_above _ 200); eauto]
          | solve [eapply (below_and_above _ 50); eauto;
                   match goal with
                   | H : exists d, In d _ /\ reaches 200 d |- _ =>
                       destruct H as (d & ? & ?); exists d; split;
                       [assumption | now apply reaches_200_50]
                   end] ].
Qed.

Section SyncCheck.

Variable E : env.

Lemma probe_all_run devices : forall results w,
  exists results' w', probe_all E devices results w = (Ret results', w').
Proof.
  induction devices as [|[name d] devices IH]; intros results w; simpl.
  - eexists _, _. reflexivity.
  - unfold bind. destruct (probe_device_run E d w) as (p & w1 & Hrun).
    rewrite Hrun. apply IH.
Qed.

End SyncCheck.

(** C8 at the upper threshold: two devices are probed with success while
    the clock reads 0.125, one reporting 0.125 and the other 0.325; the
    greatest absolute difference is the float 200.0 exactly, which is in the
    band from 50 to 200 and not above 200, and the summary is the line
    "Poor synchronization (> 200ms difference)". *)
Lemma max_diff_200_is_poor :
  exists rep,
    fst (check_clock_synchronization Sample.skewed_by_200 Sample.two_cams Sample.w0) =
      Ret (Some rep) /\
    abs_diffs (probes rep) = [Finite 0; Finite 200] /\
    valid_devices (totals rep) = 2 /\
    max_diff (totals rep) = Finite 200 /\
    flt (Finite 200) (max_diff (totals rep)) = false /\
    verdict rep = PoorSync.
Proof.
  eexists. split; [vm_compute; reflexivity|]. simpl.
  repeat split; reflexivity.
Qed.

(** C8 with a timestamp that is no number: the status of the second device
    carries [NaN], the device counts as probed with success, its difference
    is [nan], which is not below 50, and the summary is the line of good
    synchronization, with a maximum of 0. *)
Lemma nan_difference_is_good :
  exists rep,
    fst (check_clock_synchronization Sample.not_a_time Sample.two_cams Sample.w0) =
      Ret (Some rep) /\
    abs_diffs (probes rep) = [Finite 0; NonFinite NaN] /\
    valid_devices (totals rep) = 2 /\
    max_diff (totals rep) = Finite 0 /\
    verdict rep = GoodSync.
Proof.
  eexists. split; [vm_compute; reflexivity|]. simpl.
  repeat split; reflexivity.
Qed.



(** The differences of the specification's examples. *)
Example diffs_10_30_45_good :
  verdict (report_of [("a", ProbeSuccess (NInt 0) (Finite 0) (Finite 10));
                      ("b", ProbeSuccess (NInt 0) (Finite 0) (Finite (-30)));
                      ("c", ProbeSuccess (NInt 0) (Finite 0) (Finite 45))]) = GoodSync.
Proof. reflexivity. Qed.

Example diffs_with_120_moderate :
  verdict (report_of [("a", ProbeSuccess (NInt 0) (Finite 0) (Finite 10));
                      ("b", ProbeSuccess (NInt 0) (Finite 0) (Finite (-30)));
                      ("c", ProbeSuccess (NInt 0) (Finite 0) (Finite 45));
                      ("d", ProbeSuccess (NInt 0) (Finite 0) (Finite 120))]) = ModerateSync.
Proof. reflexivity. Qed.

Example diffs_with_250_poor :
  verdict (report_of [("a", ProbeSuccess (NInt 0) (Finite 0) (Finite 10));
                      ("b", ProbeSuccess (NInt 0) (Finite 0) (Finite (-30)));
                      ("c", ProbeSuccess (NInt 0) (Finite 0) (Finite 45));
                      ("d", ProbeSuccess (NInt 0) (Finite 0) (Finite 250))]) = PoorSync.
Proof. reflexivity. Qed.

Example one_success_only :
  verdict (report_of [("a", ProbeSuccess (NInt 0) (Finite 0) (Finite 10)); ("b", ProbeFailed)])
  = OnlyOneDevice.
Proof. reflexivity. Qed.

(** ** C3: the payload of a file transfer *)

Lemma dict_set_twice {V} (k : string) (v1 v2 : V) (d : dict V) :
  dict_set k v2 (dict_set k v1 d) = dict_set k v2 d.
Proof.
  induction d as [|[k' v'] d IH]; simpl.
  - now rewrite String.eqb_refl.
  - destruct (String.eqb k k') eqn:Hk; simpl.
    + now rewrite String.eqb_refl.
    + now rewrite Hk, IH.
Qed.

Lemma Qltb_inject_Z (a b : Z) : Qltb (inject_Z a) (inject_Z b) = (a <? b).
Proof.
  unfold Qltb, Qle_bool. simpl. rewrite !Z.mul_1_r.
  now rewrite Z.ltb_antisym.
Qed.

Lemma len_app (a b : bytes) : len (a ++ b) = len a + len b.
Proof. unfold len. rewrite length_app. lia. Qed.

Section Download.

Variable E : env.

(** The payload loop writes what arrives, up to the declared size, and
    ends without complaint when the stream ends first. *)
Lemma download_loop_drain fuel :
  forall chunks bytes_received content w ticks0 pre s files0 path n,
  w = {| ticks := ticks0; socks := pre ++ [s];
         files := dict_set path content files0 |} ->
  s_open s = true ->
  s_rx s = map Data chunks ->
  Forall (fun c => c <> []) chunks ->
  (rx_weight (map Data chunks) < fuel)%nat ->
  0 <= bytes_received ->
  let taken := firstn (Z.to_nat (n - bytes_received)) (List.concat chunks) in
  exists s',
    download_loop fuel (List.length pre) path (NInt n) bytes_received w =
    (Ret (bytes_received + len taken),
     {| ticks := ticks0; socks := pre ++ [s'];
        files := dict_set path (content ++ taken) files0 |}) /\
    s_open s' = true.
Proof.
  induction fuel as [|fuel IH];
    intros chunks br content w t pre s f0 path n Hw Ho Hrx Hcs Hfuel Hbr taken;
    [lia|].
  simpl. rewrite Qltb_inject_Z.
  destruct (br <? n) eqn:Hlt.
  2:{ apply Z.ltb_ge in Hlt. subst taken.
      replace (Z.to_nat (n - br)) with 0%nat by lia. simpl firstn.
      rewrite app_nil_r. unfold len at 1. simpl. rewrite Z.add_0_r.
      exists s. rewrite Hw. split; [reflexivity|assumption]. }
  apply Z.ltb_lt in Hlt.
  unfold bind at 1. unfold lift at 1.
  unfold num_sub, min_8192, lt_int. rewrite Qltb_inject_Z.
  set (k := if n - br <? 8192 then n - br else 8192).
  assert (Hk : 0 < k <= n - br).
  { unfold k. destruct (n - br <? 8192) eqn:H8; [lia|]. apply Z.ltb_ge in H8. lia. }
  assert (Hsize : recv_size (if n - br <? 8192 then NInt (n - br) else NInt 8192) = Ret k).
  { unfold k. now destruct (n - br <? 8192). }
  rewrite Hsize. cbv iota beta. unfold bind at 1.
  erewrite sock_recv_snoc; [|exact Hw|exact Ho|lia].
  rewrite Hrx. destruct chunks as [|c cs].
  - simpl. subst taken. simpl List.concat. rewrite firstn_nil, app_nil_r.
    unfold len at 1. simpl. rewrite Z.add_0_r.
    eexists {| s_open := true; s_send := s_send s; s_rx := []; s_tx := s_tx s |}.
    split; reflexivity.
  - inversion Hcs as [|? ? Hc Hcs']; subst.
    destruct (rx_take_chunks (Z.to_nat k) c cs ltac:(lia) Hc Hcs')
      as (chunk & cs' & Htake & Hchunk & Hlen & _ & Hcs'' & Hcat & Hw').
    rewrite Htake. simpl fst. simpl snd. cbv iota.
    assert (Hem : is_empty chunk = false) by (destruct chunk; [congruence|reflexivity]).
    rewrite Hem. cbv iota. unfold bind at 1. unfold file_write at 1.
    simpl files. rewrite dict_get_set_same. unfold set_files. simpl ticks.
    simpl socks. simpl files. rewrite dict_set_twice. cbv iota beta.
    destruct (IH cs' (br + len chunk) (content ++ chunk) _ t pre
                {| s_open := true; s_send := s_send s; s_rx := map Data cs';
                   s_tx := s_tx s |} f0 path n eq_refl eq_refl eq_refl Hcs'')
      as (s' & Hrun & Ho').
    + lia.
    + unfold len. lia.
    + exists s'. split; [|exact Ho'].
      eapply eq_trans; [exact Hrun|]. subst taken. rewrite <- Hcat.
      rewrite (firstn_app_long (Z.to_nat (n - br)) chunk (List.concat cs'))
        by (unfold len in *; lia).
      replace (Z.to_nat (n - br) - List.length chunk)%nat
        with (Z.to_nat (n - (br + len chunk))) by (unfold len; lia).
      rewrite len_app, <- app_assoc, Z.add_assoc. reflexivity.
Qed.

(** The header loop, when the header arrives in one piece. *)
Lemma recv_header_loop_exact fuel w ticks0 pre s files0 header rest :
  w = {| ticks := ticks0; socks := pre ++ [s]; files := files0 |} ->
  s_open s = true ->
  s_rx s = Data header :: rest ->
  header <> [] ->
  recv_header_loop (S (S fuel)) (List.length pre) (len header) [] w =
  (Ret header,
   {| ticks := ticks0;
      socks := pre ++ [{| s_open := true; s_send := s_send s;
                          s_rx := rest; s_tx := s_tx s |}];
      files := files0 |}).
Proof.
  intros Hw Ho Hrx Hne.
  assert (Hpos : 0 < len header).
  { unfold len. destruct header; [congruence|]. simpl. lia. }
  cbn [recv_header_loop].
  replace (len [] <? len header) with true
    by (symmetry; apply Z.ltb_lt; unfold len at 1; simpl; lia).
  unfold bind at 1.
  erewrite sock_recv_snoc; [|exact Hw|exact Ho|unfold len at 2; simpl; lia].
  rewrite Hrx. unfold rx_take.
  replace (List.length header <=? Z.to_nat (len header - len []))%nat with true
    by (symmetry; apply Nat.leb_le; unfold len; simpl; lia).
  simpl fst. simpl snd. cbv iota.
  destruct header as [|b header]; [congruence|].
  change (is_empty (b :: header)) with false. cbv iota.
  change ([] ++ b :: header) with (b :: header).
  rewrite Z.ltb_irrefl. reflexivity.
Qed.

End Download.

Section Transfer.

Variable E : env.

(** A transfer whose length prefix and header arrive whole: the call saves
    the first [n] bytes of the payload that arrives, closes the socket and
    returns the path. *)
Lemma handle_file_download_run w ticks0 pre s files0 device_ip file_id
    len4 header h file_name n chunks :
  w = {| ticks := ticks0; socks := pre ++ [s]; files := files0 |} ->
  s_open s = true ->
  s_rx s = Data len4 :: Data header :: map Data chunks ->
  List.length len4 = 4%nat ->
  unpack_be32 len4 = len header ->
  header <> [] ->
  loads E header = Some (PDict h) ->
  dict_get "fileName" h = Some (PStr file_name) ->
  dict_get "fileSize" h = Some (PInt n) ->
  quotient_too_large n = false ->
  makedirs_ok E = true ->
  open_ok E (local_path_of E device_ip (PStr file_name)) = true ->
  Forall (fun c => c <> []) chunks ->
  let local_path := local_path_of E device_ip (PStr file_name) in
  exists s',
    _handle_file_download E (List.length pre) device_ip file_id w =
    (Ret (PStr local_path),
     {| ticks := ticks0; socks := pre ++ [s'];
        files := dict_set local_path (firstn (Z.to_nat n) (List.concat chunks)) files0 |}) /\
    s_open s' = false.
Proof.
  intros Hw Ho Hrx H4 Hunpack Hne Hloads Hname Hsize Hfit Hmk Hopen Hcs local_path.
  unfold _handle_file_download, try_except.
  unfold bind at 1.
  erewrite sock_recv_snoc; [|exact Hw|exact Ho|lia].
  rewrite Hrx. unfold rx_take at 1 2.
  replace (List.length len4 <=? Z.to_nat 4)%nat with true
    by (rewrite H4; reflexivity).
  simpl fst. simpl snd. cbv iota.
  replace (len len4 =? 4) with true by (unfold len; rewrite H4; reflexivity).
  change (negb true) with false. cbv iota.
  unfold bind at 1. unfold with_fuel at 1. unfold fuel_of at 1. simpl socks.
  rewrite nth_error_snoc. simpl s_rx. rewrite Hunpack.
  cbn [rx_weight].
  set (s1 := {| s_open := true; s_send := s_send s;
                s_rx := Data header :: map Data chunks; s_tx := s_tx s |}).
  rewrite (recv_header_loop_exact _ _ ticks0 pre s1 files0 header (map Data chunks)
             eq_refl eq_refl eq_refl Hne).
  cbv iota. unfold bind at 1. unfold json_loads at 1. rewrite Hloads.
  unfold ret at 1. cbv iota.
  unfold bind at 1. unfold lift at 1. simpl py_getitem. rewrite Hname. cbv iota.
  unfold bind at 1. unfold lift at 1. rewrite Hsize. cbv iota.
  unfold bind at 1. unfold lift at 1. unfold format_size at 1.
  change (as_num (PInt n)) with (Some (NInt n)). cbv iota. rewrite Hfit. cbv iota.
  unfold bind at 1. unfold os_makedirs at 1. rewrite Hmk. unfold ret at 1. cbv iota.
  fold local_path.
  unfold bind at 1. unfold file_open at 1. fold local_path in Hopen. rewrite Hopen.
  cbv iota beta. unfold set_files. simpl ticks. simpl socks. simpl files.
  unfold bind at 1. unfold with_fuel at 1. unfold fuel_of at 1. simpl socks.
  rewrite nth_error_snoc. simpl s_rx.
  set (s2 := {| s_open := true; s_send := s_send s1;
                s_rx := map Data chunks; s_tx := s_tx s1 |}).
  destruct (download_loop_drain (S (rx_weight (map Data chunks))) chunks 0 []
              _ ticks0 pre s2 files0 local_path n eq_refl eq_refl eq_refl Hcs)
    as (s' & Hrun & Ho'); [lia|lia|].
  rewrite Z.sub_0_r in Hrun. simpl app in Hrun.
  match goal with |- context [download_loop ?f ?fd ?p ?sz ?br ?W] =>
    replace (download_loop f fd p sz br W)
      with (Ret (0 + len (firstn (Z.to_nat n) (List.concat chunks))),
            {| ticks := ticks0; socks := pre ++ [s'];
               files := dict_set local_path
                          (firstn (Z.to_nat n) (List.concat chunks)) files0 |})
      by (symmetry; exact Hrun)
  end.
  cbv iota beta. unfold bind at 1.
  erewrite sock_close_snoc; [|reflexivity]. cbv iota beta.
  eexists. split; reflexivity.
Qed.

End Transfer.

Lemma len_firstn (n : Z) (l : bytes) :
  len (firstn (Z.to_nat n) l) = Z.min (Z.max n 0) (len l).
Proof. unfold len. rewrite length_firstn. lia. Qed.

(** C3 fails on the code in its second half.  For a transfer whose header
    declares [fileSize] [n] (an [int] that the size line can print): the
    call saves the first [n] bytes of the
    payload that arrives and returns the path of the file.  When [n] bytes
    or more arrive the file has [n] bytes, as the claim says; when the
    stream closes after fewer, the call still returns the path, as for a
    complete transfer, and the file has the bytes that arrived: no failure
    is reported. *)
Theorem download_saves_what_arrives E device_ip device_port timestamp file_id w
    len4 header h file_name n chunks :
  reachable (net E device_ip device_port) = true ->
  p_rx (net E device_ip device_port) = Data len4 :: Data header :: map Data chunks ->
  List.length len4 = 4%nat ->
  unpack_be32 len4 = len header ->
  header <> [] ->
  loads E header = Some (PDict h) ->
  dict_get "fileName" h = Some (PStr file_name) ->
  dict_get "fileSize" h = Some (PInt n) ->
  quotient_too_large n = false ->
  makedirs_ok E = true ->
  open_ok E (local_path_of E device_ip (PStr file_name)) = true ->
  Forall (fun c => c <> []) chunks ->
  let local_path := local_path_of E device_ip (PStr file_name) in
  exists w' saved,
    send_command E device_ip device_port "GET_VIDEO" timestamp file_id w =
      (Ret (PStr local_path), w') /\
    dict_get local_path (files w') = Some saved /\
    saved = firstn (Z.to_nat n) (List.concat chunks) /\
    len saved = Z.min (Z.max n 0) (len (List.concat chunks)).
Proof.
  intros Hreach Hrx H4 Hunpack Hne Hloads Hname Hsize Hfit Hmk Hopen Hcs local_path.
  unfold reachable in *. rewrite send_command_unfold. cbv zeta.
  destruct (p_connect (net E device_ip device_port)); [discriminate|].
  destruct (p_send (net E device_ip device_port)) eqn:Hsend; [discriminate|].
  unfold try_except, with_socket, connected_socket, handle_response.
  change (String.eqb "GET_VIDEO" "GET_VIDEO") with true. cbv iota.
  lazymatch goal with |- context [_handle_file_download E _ _ _ ?W] =>
    destruct (handle_file_download_run E W _ (socks w) _ _ device_ip file_id
                len4 header h file_name n chunks
                eq_refl eq_refl Hrx H4 Hunpack Hne Hloads Hname Hsize Hfit Hmk Hopen Hcs)
      as (s' & Hrun & _)
  end.
  rewrite Hrun. fold local_path.
  eexists _, _. split; [reflexivity|]. simpl files.
  split; [apply dict_get_set_same|]. split; [reflexivity|apply len_firstn].
Qed.

Lemma download_saves_what_arrives_witness :
  exists w' saved,
    send_command Sample.truncated_clip "10.0.0.1" 8080 "GET_VIDEO" None (Some "abc123")
      Sample.w0 =
      (Ret (PStr (local_path_of Sample.truncated_clip "10.0.0.1" (PStr "clip.mp4"))), w') /\
    dict_get (local_path_of Sample.truncated_clip "10.0.0.1" (PStr "clip.mp4"))
             (files w') = Some saved /\
    saved = firstn (Z.to_nat 1048576) (List.concat Sample.clip_pieces) /\
    len saved = Z.min (Z.max 1048576 0) (len (List.concat Sample.clip_pieces)).
Proof.
  apply (download_saves_what_arrives Sample.truncated_clip "10.0.0.1" 8080 None
           (Some "abc123") Sample.w0
           (Sample.be32 (len Sample.clip_header)) Sample.clip_header
           [("fileName", PStr "clip.mp4"); ("fileSize", PInt 1048576)]
           "clip.mp4" 1048576 Sample.clip_pieces).
  - reflexivity.
  - reflexivity.
  - reflexivity.
  - reflexivity.
  - discriminate.
  - reflexivity.
  - reflexivity.
  - reflexivity.
  - reflexivity.
  - reflexivity.
  - reflexivity.
  - apply Forall_forall. intros c Hc. apply repeat_spec in Hc. subst c.
    discriminate.
Defined.

(** A small transfer, run: the header declares 16 bytes, 10 arrive before
    the device closes; the call returns the path, the file has 10 bytes and
    the socket is closed. *)
Lemma truncated_download_reported_as_success :
  let rw := send_command Sample.cut_short "10.0.0.1" 8080 "GET_VIDEO" None
              (Some "abc123") Sample.w0 in
  fst rw = Ret (PStr "/home/user/Downloads/multiCam/10_0_0_1_clip.mp4") /\
  option_map len (dict_get "/home/user/Downloads/multiCam/10_0_0_1_clip.mp4"
                    (files (snd rw))) = Some 10 /\
  map s_open (socks (snd rw)) = [false].
Proof. vm_compute. repeat split. Qed.

(** * Further properties *)

(** ** The registry of devices *)

Lemma dict_get_set_other {V} (k k' : string) (v : V) (d : dict V) :
  String.eqb k k' = false -> dict_get k (dict_set k' v d) = dict_get k d.
Proof.
  intros Hk. induction d as [|[k0 v0] d IH]; simpl.
  - now rewrite Hk.
  - destruct (String.eqb k' k0) eqn:H0; simpl.
    + apply String.eqb_eq in H0. subst k0. now rewrite Hk.
    + destruct (String.eqb k k0); [reflexivity|exact IH].
Qed.

Lemma keys_dict_del_incl {V} (k x : string) (d : dict V) :
  In x (keys (dict_del k d)) -> In x (keys d).
Proof.
  induction d as [|[k0 v0] d IH]; simpl; [auto|].
  destruct (String.eqb k k0); simpl; intuition.
Qed.

Lemma dict_del_NoDup {V} (k : string) (d : dict V) :
  NoDup (keys d) -> NoDup (keys (dict_del k d)).
Proof.
  induction d as [|[k0 v0] d IH]; simpl; intros H; [constructor|].
  inversion H as [|? ? Hnin Hnd]; subst.
  destruct (String.eqb k k0); [assumption|]. simpl. constructor.
  - intros Hin. apply Hnin. eapply keys_dict_del_incl. exact Hin.
  - now apply IH.
Qed.

Lemma dict_get_del_same {V} (k : string) (d : dict V) :
  NoDup (keys d) -> dict_get k (dict_del k d) = None.
Proof.
  induction d as [|[k0 v0] d IH]; simpl; intros H; [reflexivity|].
  inversion H as [|? ? Hnin Hnd]; subst.
  destruct (String.eqb k k0) eqn:Hk.
  - apply String.eqb_eq in Hk. subst k0. now apply dict_get_None.
  - simpl. rewrite Hk. now apply IH.
Qed.

Lemma dict_get_del_other {V} (k k' : string) (d : dict V) :
  String.eqb k k' = false -> dict_get k (dict_del k' d) = dict_get k d.
Proof.
  intros Hk. induction d as [|[k0 v0] d IH]; simpl; [reflexivity|].
  destruct (String.eqb k' k0) eqn:H0.
  - apply String.eqb_eq in H0. subst k0. now rewrite Hk.
  - simpl. destruct (String.eqb k k0); [reflexivity|exact IH].
Qed.

Lemma registry_step_NoDup d ev : NoDup (keys d) -> NoDup (keys (registry_step d ev)).
Proof.
  intros H. destruct ev as [name info|name|ip0 port0]; simpl.
  - unfold add_service. destruct (resolved info); [now apply dict_set_NoDup|assumption].
  - unfold remove_service. destruct (dict_has name d); [now apply dict_del_NoDup|assumption].
  - unfold manual_connect. now apply dict_set_NoDup.
Qed.

Lemma fold_registry_NoDup events : forall d,
  NoDup (keys d) -> NoDup (keys (fold_left registry_step events d)).
Proof.
  induction events as [|ev events IH]; intros d H; simpl; [assumption|].
  apply IH. now apply registry_step_NoDup.
Qed.

(** Whatever the listener and [manual_connect] do to the registry, in
    whatever order, it holds one entry per name. *)
Lemma registry_names_unique (events : list registry_event) :
  NoDup (keys (registry_after events)).
Proof. apply fold_registry_NoDup. constructor. Qed.

(** X1: the registry is a finite map.  After an event, a name is looked up
    as before, except for the name the event is about: a service added with
    a usable address is found with that address, a service removed is not
    found (and removing an unknown name changes nothing), a device connected
    by hand is found as [manual-<ip>] with the port given last. *)
Theorem registry_lookup (events : list registry_event) (ev : registry_event)
    (name : string) :
  dict_get name (registry_after (events ++ [ev])) =
  match ev with
  | ServiceAdded n info =>
      match resolved info with
      | Some d => if String.eqb name n then Some d
                  else dict_get name (registry_after events)
      | None => dict_get name (registry_after events)
      end
  | ServiceRemoved n =>
      if String.eqb name n then None else dict_get name (registry_after events)
  | ManualConnect ip port =>
      if String.eqb name (String.append "manual-" ip)
      then Some {| ip := ip; port := port |}
      else dict_get name (registry_after events)
  end.
Proof.
  unfold registry_after. rewrite fold_left_app. cbn [fold_left].
  fold (registry_after events).
  assert (Hnd : NoDup (keys (registry_after events))).
  { apply fold_registry_NoDup. constructor. }
  destruct ev as [n info|n|ip0 port0]; cbn [registry_step].
  - unfold add_service. destruct (resolved info) as [d|]; [|reflexivity].
    destruct (String.eqb name n) eqn:Hn.
    + apply String.eqb_eq in Hn. subst n. apply dict_get_set_same.
    + now apply dict_get_set_other.
  - unfold remove_service, dict_has.
    destruct (String.eqb name n) eqn:Hn.
    + apply String.eqb_eq in Hn. subst n.
      destruct (dict_get name (registry_after events)) eqn:Hg; [|exact Hg].
      now apply dict_get_del_same.
    + destruct (dict_get n (registry_after events)); [|reflexivity].
      now apply dict_get_del_other.
  - unfold manual_connect.
    destruct (String.eqb name (String.append "manual-" ip0)) eqn:Hn.
    + apply String.eqb_eq in Hn. subst name. apply dict_get_set_same.
    + now apply dict_get_set_other.
Qed.

(** ** The names of the downloaded files *)

Lemma string_length_append (a b : string) :
  String.length (String.append a b) = (String.length a + String.length b)%nat.
Proof. induction a as [|c a IH]; simpl; [reflexivity|now rewrite IH]. Qed.

Lemma append_inj_l (a b c : string) :
  String.append a b = String.append a c -> b = c.
Proof.
  induction a as [|x a IH]; simpl; intros H; [exact H|].
  injection H as H. now apply IH.
Qed.

Lemma append_inj_r (c : string) : forall a b : string,
  String.append a c = String.append b c -> a = b.
Proof.
  induction a as [|x a IH]; intros [|y b] H; simpl in H.
  - reflexivity.
  - apply (f_equal String.length) in H. simpl in H.
    rewrite string_length_append in H. lia.
  - apply (f_equal String.length) in H. simpl in H.
    rewrite string_length_append in H. lia.
  - injection H as -> H. f_equal. now apply IH.
Qed.

Lemma replace_dotted_inj : forall s1 s2 : string,
  dotted s1 = true -> dotted s2 = true ->
  replace_char "." "_" s1 = replace_char "." "_" s2 -> s1 = s2.
Proof.
  induction s1 as [|c1 s1 IH]; intros [|c2 s2] H1 H2 H; simpl in *;
    try discriminate; [reflexivity|].
  apply andb_true_iff in H1. destruct H1 as [Hc1 H1].
  apply andb_true_iff in H2. destruct H2 as [Hc2 H2].
  injection H as Hc H. f_equal; [|now apply IH].
  destruct (Ascii.eqb c1 ".") eqn:E1, (Ascii.eqb c2 ".") eqn:E2.
  - apply Ascii.eqb_eq in E1, E2. congruence.
  - subst c2. discriminate.
  - subst c1. discriminate.
  - exact Hc.
Qed.

Lemma local_filename_not_absolute (device_ip rest : string) :
  dotted device_ip = true ->
  String.prefix "/" (String.append (replace_char "." "_" device_ip)
                       (String.append "_" rest)) = false.
Proof.
  destruct device_ip as [|c s]; cbn [replace_char String.append dotted].
  - intros _. cbn [String.prefix].
    destruct (ascii_dec "/" "_") as [e|_]; [discriminate e|reflexivity].
  - intros H. apply andb_true_iff in H. destruct H as [Hc _].
    cbn [String.prefix].
    destruct (ascii_dec "/" (if Ascii.eqb c "." then "_"%char else c)) as [e|_];
      [|reflexivity].
    destruct (Ascii.eqb c ".") eqn:E1; [discriminate e|].
    subst c. discriminate Hc.
Qed.

(** X2: the local file name keeps devices apart.  For two devices whose
    addresses are written with digits and dots, the same file name on the
    device gives two different local paths as soon as the addresses
    differ. *)
Theorem download_paths_differ (E : env) (ip1 ip2 : string) (file_name : pyval) :
  dotted ip1 = true -> dotted ip2 = true -> ip1 <> ip2 ->
  String.eqb (local_path_of E ip1 file_name) (local_path_of E ip2 file_name) = false.
Proof.
  intros H1 H2 Hne. apply String.eqb_neq. intros Heq. apply Hne.
  unfold local_path_of, os_path_join in Heq.
  rewrite !local_filename_not_absolute in Heq by assumption.
  apply replace_dotted_inj; [assumption|assumption|].
  apply (append_inj_r (String.append "_" (format_value E file_name))).
  destruct (String.eqb (downloads_dir E) "" || ends_with_slash (downloads_dir E))%bool.
  - now apply append_inj_l in Heq.
  - apply append_inj_l in Heq. now apply append_inj_l in Heq.
Qed.

Lemma download_paths_differ_witness :
  String.eqb (local_path_of Sample.cut_short "10.0.0.1" (PStr "clip.mp4"))
             (local_path_of Sample.cut_short "10.0.0.2" (PStr "clip.mp4")) = false.
Proof.
  apply (download_paths_differ Sample.cut_short "10.0.0.1" "10.0.0.2" (PStr "clip.mp4")).
  - reflexivity.
  - reflexivity.
  - discriminate.
Defined.

(** ** A transfer that fails before the file is opened *)

Section BadHeader.

Variable E : env.

(** The header loop on a header that arrives as one piece: the first
    [header_size] bytes of it, or all of it when it is shorter and the
    stream ends. *)
Lemma recv_header_loop_piece fuel w ticks0 pre s files0 header_size header rest :
  w = {| ticks := ticks0; socks := pre ++ [s]; files := files0 |} ->
  s_open s = true ->
  s_rx s = Data header :: rest ->
  header <> [] ->
  0 < header_size ->
  header_size <= len header \/ rest = [] ->
  exists s',
    recv_header_loop (S (S fuel)) (List.length pre) header_size [] w =
    (Ret (firstn (Z.to_nat header_size) header),
     {| ticks := ticks0; socks := pre ++ [s']; files := files0 |}) /\
    s_open s' = true /\ s_tx s' = s_tx s.
Proof.
  intros Hw Ho Hrx Hne Hpos Hcase.
  cbn [recv_header_loop].
  replace (len [] <? header_size) with true
    by (symmetry; apply Z.ltb_lt; unfold len; simpl; lia).
  unfold bind at 1.
  erewrite sock_recv_snoc; [|exact Hw|exact Ho|unfold len; simpl; lia].
  rewrite Hrx. unfold rx_take at 1 2.
  replace (Z.to_nat (header_size - len [])) with (Z.to_nat header_size)
    by (unfold len; simpl; f_equal; lia).
  destruct (List.length header <=? Z.to_nat header_size)%nat eqn:Hlen.
  - apply Nat.leb_le in Hlen. simpl fst. simpl snd. cbv iota.
    rewrite firstn_short by assumption.
    destruct header as [|b header]; [congruence|].
    change (is_empty (b :: header)) with false. cbv iota.
    change ([] ++ b :: header) with (b :: header).
    destruct (len (b :: header) <? header_size) eqn:Hlt.
    + apply Z.ltb_lt in Hlt. destruct Hcase as [Hge|Hrest]; [lia|]. subst rest.
      unfold bind at 1.
      erewrite sock_recv_snoc; [|reflexivity|reflexivity|lia].
      simpl. eexists. split; [reflexivity|]. split; reflexivity.
    + eexists. split; [reflexivity|]. split; reflexivity.
  - apply Nat.leb_gt in Hlen. simpl fst. simpl snd. cbv iota.
    assert (Hf : firstn (Z.to_nat header_size) header <> []).
    { intros H. apply (f_equal (@List.length byte)) in H.
      rewrite length_firstn in H. simpl in H.
      destruct header; [congruence|]. simpl in *. lia. }
    destruct (firstn (Z.to_nat header_size) header) as [|b chunk] eqn:Hc; [congruence|].
    change (is_empty (b :: chunk)) with false. cbv iota.
    change ([] ++ b :: chunk) with (b :: chunk).
    replace (len (b :: chunk) <? header_size) with false.
    + eexists. split; [reflexivity|]. split; reflexivity.
    + symmetry. apply Z.ltb_ge. unfold len. rewrite <- Hc, length_firstn. lia.
Qed.

(** The steps from the header to the file, as one. *)
Lemma header_steps {A} header_data (k : pyval -> num -> M A) w :
  (header_info <- json_loads E header_data;;
   file_name <- lift (py_getitem header_info "fileName");;
   file_size <- lift (py_getitem header_info "fileSize");;
   file_size <- lift (format_size file_size);;
   k file_name file_size) w =
  match header_fields E header_data with
  | Ret (file_name, file_size) => k file_name file_size w
  | Raise e => (Raise e, w)
  | Stuck => (Stuck, w)
  end.
Proof.
  unfold header_fields, bind, json_loads, lift, ret, raise.
  destruct (loads E header_data) as [hi|]; [|reflexivity].
  destruct (py_getitem hi "fileName") as [fn|e|]; try reflexivity.
  destruct (py_getitem hi "fileSize") as [fs|e|]; try reflexivity.
  destruct (format_size fs) as [n|e|]; reflexivity.
Qed.

Lemma handle_file_download_bad_header w ticks0 pre s files0 device_ip file_id
    len4 header rest e :
  w = {| ticks := ticks0; socks := pre ++ [s]; files := files0 |} ->
  s_open s = true ->
  s_rx s = Data len4 :: Data header :: rest ->
  List.length len4 = 4%nat ->
  header <> [] ->
  0 < unpack_be32 len4 ->
  unpack_be32 len4 <= len header \/ rest = [] ->
  header_fields E (firstn (Z.to_nat (unpack_be32 len4)) header) = Raise e ->
  exists s',
    _handle_file_download E (List.length pre) device_ip file_id w =
    (Ret (PBool false),
     {| ticks := ticks0; socks := pre ++ [s']; files := files0 |}) /\
    s_open s' = false /\ s_tx s' = s_tx s.
Proof.
  intros Hw Ho Hrx H4 Hne Hpos Hcase Hbad.
  unfold _handle_file_download, try_except.
  unfold bind at 1.
  erewrite sock_recv_snoc; [|exact Hw|exact Ho|lia].
  rewrite Hrx. unfold rx_take at 1 2.
  replace (List.length len4 <=? Z.to_nat 4)%nat with true
    by (rewrite H4; reflexivity).
  simpl fst. simpl snd. cbv iota.
  replace (len len4 =? 4) with true by (unfold len; rewrite H4; reflexivity).
  change (negb true) with false. cbv iota.
  unfold bind at 1. unfold with_fuel at 1. unfold fuel_of at 1. simpl socks.
  rewrite nth_error_snoc. simpl s_rx. cbn [rx_weight].
  set (s1 := {| s_open := true; s_send := s_send s;
                s_rx := Data header :: rest; s_tx := s_tx s |}).
  destruct (recv_header_loop_piece (List.length header + rx_weight rest) _ ticks0 pre s1
              files0 (unpack_be32 len4) header rest eq_refl eq_refl eq_refl Hne Hpos Hcase)
    as (s2 & Hrun & Ho2 & Htx2).
  rewrite Hrun. cbv iota.
  rewrite header_steps, Hbad.
  unfold bind. erewrite sock_close_snoc; [|reflexivity].
  eexists. split; [reflexivity|]. split; [reflexivity|]. simpl. exact Htx2.
Qed.

Lemma handle_file_download_short_prefix w ticks0 pre s files0 device_ip file_id d :
  w = {| ticks := ticks0; socks := pre ++ [s]; files := files0 |} ->
  s_open s = true ->
  fst (rx_take 4 (s_rx s)) = Ret d ->
  List.length d <> 4%nat ->
  exists s',
    _handle_file_download E (List.length pre) device_ip file_id w =
    (Ret (PBool false),
     {| ticks := ticks0; socks := pre ++ [s']; files := files0 |}) /\
    s_open s' = true /\ s_tx s' = s_tx s.
Proof.
  intros Hw Ho Hd H4.
  unfold _handle_file_download, try_except.
  unfold bind at 1.
  erewrite sock_recv_snoc; [|exact Hw|exact Ho|lia].
  replace (Z.to_nat 4) with 4%nat by reflexivity. rewrite Hd.
  replace (len d =? 4) with false
    by (symmetry; apply Z.eqb_neq; unfold len; lia).
  change (negb false) with true. cbv iota.
  eexists. split; [reflexivity|]. split; reflexivity.
Qed.

End BadHeader.

(** X3: a transfer is given up before any file is touched when the header
    is bad.  The device sends the four bytes of the length and then a header
    that does not parse, or lacks [fileName] or [fileSize], or whose
    [fileSize] is no number (it may also stop in the middle of the header):
    the call returns [False], has closed its socket, and the local files are
    as before. *)
Theorem bad_header_writes_no_file E device_ip device_port timestamp file_id w
    len4 header rest e :
  reachable (net E device_ip device_port) = true ->
  p_rx (net E device_ip device_port) = Data len4 :: Data header :: rest ->
  List.length len4 = 4%nat ->
  header <> [] ->
  0 < unpack_be32 len4 ->
  unpack_be32 len4 <= len header \/ rest = [] ->
  header_fields E (firstn (Z.to_nat (unpack_be32 len4)) header) = Raise e ->
  exists w' s,
    send_command E device_ip device_port "GET_VIDEO" timestamp file_id w =
      (Ret (PBool false), w') /\
    socks w' = socks w ++ [s] /\
    s_open s = false /\
    files w' = files w.
Proof.
  intros Hreach Hrx H4 Hne Hpos Hcase Hbad.
  unfold reachable in *. rewrite send_command_unfold. cbv zeta.
  destruct (p_connect (net E device_ip device_port)); [discriminate|].
  destruct (p_send (net E device_ip device_port)) eqn:Hsend; [discriminate|].
  unfold try_except, with_socket, connected_socket, handle_response.
  change (String.eqb "GET_VIDEO" "GET_VIDEO") with true. cbv iota.
  lazymatch goal with |- context [_handle_file_download E _ _ _ ?W] =>
    destruct (handle_file_download_bad_header E W _ (socks w) _ _ device_ip file_id
                len4 header rest e eq_refl eq_refl Hrx H4 Hne Hpos Hcase Hbad)
      as (s' & Hrun & Ho & _)
  end.
  rewrite Hrun. eexists _, s'. split; [reflexivity|]. simpl. auto.
Qed.

Lemma bad_header_writes_no_file_witness :
  exists w' s,
    send_command Fleet.transfers "10.0.0.2" 8080 "GET_VIDEO" None (Some "abc123")
      Sample.w0 = (Ret (PBool false), w') /\
    socks w' = socks Sample.w0 ++ [s] /\
    s_open s = false /\
    files w' = files Sample.w0.
Proof.
  apply (bad_header_writes_no_file Fleet.transfers "10.0.0.2" 8080 None (Some "abc123")
           Sample.w0 (Sample.be32 1) [x7b] [] JSONDecodeError).
  - reflexivity.
  - reflexivity.
  - reflexivity.
  - discriminate.
  - reflexivity.
  - left. vm_compute. discriminate.
  - reflexivity.
Defined.

(** X4: when fewer than four bytes come for the length of the header (the
    device closes at once, or sends a shorter piece first), the call returns
    [False] and no file is touched; this is the one failure of a transfer
    that leaves the socket open. *)
Theorem short_length_prefix E device_ip device_port timestamp file_id w d :
  reachable (net E device_ip device_port) = true ->
  fst (rx_take 4 (p_rx (net E device_ip device_port))) = Ret d ->
  List.length d <> 4%nat ->
  exists w' s,
    send_command E device_ip device_port "GET_VIDEO" timestamp file_id w =
      (Ret (PBool false), w') /\
    socks w' = socks w ++ [s] /\
    s_open s = true /\
    files w' = files w.
Proof.
  intros Hreach Hd H4.
  unfold reachable in *. rewrite send_command_unfold. cbv zeta.
  destruct (p_connect (net E device_ip device_port)); [discriminate|].
  destruct (p_send (net E device_ip device_port)) eqn:Hsend; [discriminate|].
  unfold try_except, with_socket, connected_socket, handle_response.
  change (String.eqb "GET_VIDEO" "GET_VIDEO") with true. cbv iota.
  lazymatch goal with |- context [_handle_file_download E _ _ _ ?W] =>
    destruct (handle_file_download_short_prefix E W _ (socks w) _ _ device_ip file_id
                d eq_refl eq_refl Hd H4)
      as (s' & Hrun & Ho & _)
  end.
  rewrite Hrun. eexists _, s'. split; [reflexivity|]. simpl. auto.
Qed.

Lemma short_length_prefix_witness :
  exists w' s,
    send_command Sample.mixed_peers "10.0.0.3" 8080 "GET_VIDEO" None (Some "abc123")
      Sample.w0 = (Ret (PBool false), w') /\
    socks w' = socks Sample.w0 ++ [s] /\
    s_open s = true /\
    files w' = files Sample.w0.
Proof.
  apply (short_length_prefix Sample.mixed_peers "10.0.0.3" 8080 None (Some "abc123")
           Sample.w0 []).
  - reflexivity.
  - reflexivity.
  - discriminate.
Defined.

(** ** The answer to [LIST_FILES], read in pieces *)

Lemma rx_weight_app (a b : list rx_event) :
  rx_weight (a ++ b) = (rx_weight a + rx_weight b)%nat.
Proof.
  induction a as [|[d|e] a IH]; simpl; [reflexivity| |]; rewrite IH; lia.
Qed.

(** A read of [n > 0] bytes takes a non-empty piece off the chunks that have
    arrived, whatever comes after them. *)
Lemma rx_take_chunks_then (n : nat) (c : bytes) (cs : list bytes) (tail : list rx_event) :
  (0 < n)%nat -> c <> [] -> Forall (fun c => c <> []) cs ->
  exists chunk cs',
    rx_take n (map Data (c :: cs) ++ tail) = (Ret chunk, map Data cs' ++ tail) /\
    chunk <> [] /\
    Forall (fun c => c <> []) cs' /\
    chunk ++ List.concat cs' = List.concat (c :: cs) /\
    (rx_weight (map Data cs') < rx_weight (map Data (c :: cs)))%nat.
Proof.
  intros Hn Hc Hcs. simpl map. simpl app. unfold rx_take.
  destruct (List.length c <=? n)%nat eqn:Hlen.
  - apply Nat.leb_le in Hlen. exists c, cs.
    repeat split; auto. simpl. lia.
  - apply Nat.leb_gt in Hlen. exists (firstn n c), (skipn n c :: cs).
    assert (Hskip : skipn n c <> []).
    { intros H. apply (f_equal (@List.length byte)) in H.
      rewrite length_skipn in H. simpl in H. lia. }
    repeat split; auto.
    + destruct n; [lia|]. destruct c; [congruence|]. discriminate.
    + simpl. rewrite app_assoc, firstn_skipn. reflexivity.
    + simpl. rewrite length_skipn. lia.
Qed.


Section ListFiles.

Variable E : env.


(** The loop ends at a timeout as at the end of the stream, with what it
    has gathered. *)
Lemma recv_json_loop_timeout fuel :
  forall chunks response_data w ticks0 pre s files0 rest,
  w = {| ticks := ticks0; socks := pre ++ [s]; files := files0 |} ->
  s_open s = true ->
  s_rx s = map Data chunks ++ Fault SocketTimeout :: rest ->
  Forall (fun c => c <> []) chunks ->
  (rx_weight (map Data chunks) < fuel)%nat ->
  (forall p q, p <> [] -> List.concat chunks = p ++ q ->
               loads E (response_data ++ p) = None) ->
  recv_json_loop E fuel (List.length pre) response_data w =
  (Ret (response_data ++ List.concat chunks),
   {| ticks := ticks0;
      socks := pre ++ [{| s_open := true; s_send := s_send s; s_rx := rest;
                          s_tx := s_tx s |}];
      files := files0 |}).
Proof.
  induction fuel as [|fuel IH];
    intros chunks rd w t pre s f rest Hw Ho Hrx Hcs Hfuel Hpre; [lia|].
  simpl. erewrite sock_recv_snoc; [|exact Hw|exact Ho|lia].
  rewrite Hrx. destruct chunks as [|c cs].
  - simpl. rewrite app_nil_r. reflexivity.
  - inversion Hcs as [|? ? Hc Hcs']; subst.
    destruct (rx_take_chunks_then (Z.to_nat 8192) c cs (Fault SocketTimeout :: rest)
                ltac:(lia) Hc Hcs')
      as (chunk & cs' & Htake & Hchunk & Hcs'' & Hcat & Hw').
    rewrite Htake. simpl fst. simpl snd. cbv iota.
    destruct chunk as [|b chunk]; [congruence|]. simpl is_empty. cbv iota.
    rewrite (Hpre (b :: chunk) (List.concat cs')) by (auto; discriminate).
    erewrite (IH cs' (rd ++ b :: chunk) _ t pre
                {| s_open := true; s_send := s_send s;
                   s_rx := map Data cs' ++ Fault SocketTimeout :: rest;
                   s_tx := s_tx s |} f rest eq_refl eq_refl eq_refl Hcs'').
    + rewrite <- Hcat, <- app_assoc. reflexivity.
    + lia.
    + intros p q Hp Hpq. rewrite <- app_assoc.
      apply (Hpre ((b :: chunk) ++ p) q); [discriminate|].
      rewrite <- Hcat, Hpq, app_assoc. reflexivity.
Qed.

End ListFiles.



(** X6: for [LIST_FILES] a timeout ends the answer as the end of the stream
    does.  When the device falls silent after pieces of which no beginning
    is a JSON text, the call returns [False] if a byte has arrived and
    [True] if none has. *)
Theorem list_files_timeout E device_ip device_port timestamp file_id w chunks rest :
  reachable (net E device_ip device_port) = true ->
  p_rx (net E device_ip device_port) = map Data chunks ++ Fault SocketTimeout :: rest ->
  Forall (fun c => c <> []) chunks ->
  (forall p q, p <> [] -> List.concat chunks = p ++ q -> loads E p = None) ->
  fst (send_command E device_ip device_port "LIST_FILES" timestamp file_id w) =
  Ret (PBool (is_empty (List.concat chunks))).
Proof.
  intros Hreach Hrx Hcs Hpre.
  unfold reachable in *. rewrite send_command_unfold. cbv zeta.
  destruct (p_connect (net E device_ip device_port)); [discriminate|].
  destruct (p_send (net E device_ip device_port)) eqn:Hsend; [discriminate|].
  unfold try_except, with_socket, connected_socket, handle_response.
  change (String.eqb "LIST_FILES" "GET_VIDEO") with false.
  change (String.eqb "LIST_FILES" "LIST_FILES") with true.
  change (String.eqb "LIST_FILES" "STOP_RECORDING") with false. cbv iota.
  unfold bind at 1. unfold with_fuel, fuel_of. simpl socks.
  rewrite nth_error_snoc. simpl s_rx. rewrite Hrx.
  lazymatch goal with |- context [recv_json_loop E ?f _ _ ?W] =>
    rewrite (recv_json_loop_timeout E f chunks [] W _ (socks w) _ _ rest
               eq_refl eq_refl eq_refl Hcs);
      [|rewrite rx_weight_app; lia|exact Hpre]
  end.
  cbv iota. rewrite app_nil_l.
  destruct (List.concat chunks) as [|b l] eqn:Hc.
  - change (negb (is_empty [])) with false. cbv iota.
    unfold bind. erewrite sock_close_snoc; [|reflexivity]. reflexivity.
  - change (negb (is_empty (b :: l))) with true. cbv iota.
    unfold bind, json_loads.
    rewrite (Hpre (b :: l) []); [reflexivity|discriminate|now rewrite app_nil_r].
Qed.

Lemma list_files_timeout_witness :
  fst (send_command Fleet.slow "10.0.0.2" 8080 "LIST_FILES" None None Sample.w0) =
  Ret (PBool (is_empty (List.concat [[x7b]]))).
Proof.
  apply (list_files_timeout Fleet.slow "10.0.0.2" 8080 None None Sample.w0 [[x7b]] []).
  - reflexivity.
  - reflexivity.
  - repeat constructor. discriminate.
  - intros p q Hp H. destruct p as [|b p]; [congruence|].
    simpl in H. injection H as <- H.
    destruct p; [reflexivity|discriminate].
Defined.

(** X7: a fault at the first read.  Every command returns [False], but for
    [LIST_FILES] met by a timeout, which returns [True]; the socket is
    closed by [GET_VIDEO] and by that [LIST_FILES], and left open by the
    others. *)
Theorem fault_at_first_read E device_ip device_port command timestamp file_id w e rest :
  reachable (net E device_ip device_port) = true ->
  p_rx (net E device_ip device_port) = Fault e :: rest ->
  let timed_out := match e with SocketTimeout => true | _ => false end in
  let acknowledged := (String.eqb command "LIST_FILES" && timed_out)%bool in
  exists w' s,
    send_command E device_ip device_port command timestamp file_id w =
      (Ret (PBool acknowledged), w') /\
    socks w' = socks w ++ [s] /\
    s_open s = negb (String.eqb command "GET_VIDEO" || acknowledged).
Proof.
  intros Hreach Hrx timed_out acknowledged.
  unfold reachable in *. rewrite send_command_unfold. cbv zeta.
  destruct (p_connect (net E device_ip device_port)); [discriminate|].
  destruct (p_send (net E device_ip device_port)) eqn:Hsend; [discriminate|].
  unfold try_except, with_socket, connected_socket, handle_response.
  subst acknowledged.
  destruct (String.eqb command "GET_VIDEO") eqn:Hget.
  - assert (Hlist : String.eqb command "LIST_FILES" = false).
    { apply String.eqb_eq in Hget. subst command. reflexivity. }
    rewrite Hlist. simpl andb. simpl orb. simpl negb.
    unfold _handle_file_download, try_except. unfold bind at 1.
    erewrite sock_recv_snoc; [|reflexivity|reflexivity|lia].
    simpl s_rx. rewrite Hrx. simpl fst. simpl snd. cbv iota.
    unfold bind. erewrite sock_close_snoc; [|reflexivity].
    eexists _, _. split; [reflexivity|]. simpl. auto.
  - destruct (String.eqb command "LIST_FILES") eqn:Hlist.
    + unfold bind at 1. unfold with_fuel, fuel_of. simpl socks.
      rewrite nth_error_snoc. simpl s_rx. rewrite Hrx. cbn [rx_weight recv_json_loop].
      erewrite sock_recv_snoc; [|reflexivity|reflexivity|lia].
      simpl s_rx. simpl fst. simpl snd.
      subst timed_out. destruct e; cbv iota; simpl andb; simpl orb; simpl negb.
      1:{ change (negb (is_empty [])) with false. cbv iota.
          unfold bind. erewrite sock_close_snoc; [|reflexivity].
          eexists _, _. split; [reflexivity|]. simpl. auto. }
      all: eexists _, _; (split; [reflexivity|]); simpl; auto.
    + simpl andb. simpl orb. simpl negb.
      unfold bind at 1.
      erewrite sock_recv_snoc; [|reflexivity|reflexivity|lia].
      simpl s_rx. rewrite Hrx. simpl fst. simpl snd. cbv iota.
      eexists _, _. split; [reflexivity|]. simpl. auto.
Qed.

Lemma fault_at_first_read_witness :
  exists w' s,
    send_command Fleet.slow "10.0.0.3" 8080 "DEVICE_STATUS" None None Sample.w0 =
      (Ret (PBool false), w') /\
    socks w' = socks Sample.w0 ++ [s] /\
    s_open s = true.
Proof.
  exact (fault_at_first_read Fleet.slow "10.0.0.3" 8080 "DEVICE_STATUS" None None
           Sample.w0 SocketTimeout [] eq_refl eq_refl).
Defined.

(** ** A broadcast with a timestamp of the caller *)

(** X8: a broadcast that is given a timestamp (not zero) passes it on as it
    is: for every command, [START_RECORDING] included, every device within
    reach is sent the request whose timestamp is the one given, nothing is
    sent to the others, [sync_delay] plays no part, and the clock is not
    read. *)
Theorem broadcast_keeps_given_timestamp E devices command (t sync_delay : Q) w :
  devices <> [] ->
  ~ (t == 0)%Q ->
  exists r w' new,
    send_command_to_all E devices command (Some t) sync_delay w = (Ret (Some r), w') /\
    ticks w' = ticks w /\
    socks w' = socks w ++ new /\
    Forall2 (fun nd s =>
               s_tx s = if reachable (net E (ip (snd nd)) (port (snd nd)))
                        then dumps E
                               (PDict [("command", PStr command);
                                       ("timestamp", PFloat t);
                                       ("deviceId", PStr "controller")])
                        else [])
            devices new.
Proof.
  intros Hne Ht. apply truthy_nonzero in Ht.
  destruct (send_command_to_all_world E devices command (Some t) sync_delay w Hne)
    as (r & w' & new & Hrun & Hticks & Hsocks & Htx).
  assert (Hs : stamp_of E (Some t) w = t) by (unfold stamp_of; now rewrite Ht).
  assert (Hc : clock_reads (Some t) = 0%nat) by (unfold clock_reads; now rewrite Ht).
  change (is_none (Some t)) with false in Hticks, Htx.
  rewrite andb_false_r in Hticks, Htx. cbv iota in Hticks, Htx.
  rewrite Hs in Hticks, Htx. rewrite Hc in Hticks.
  exists r, w', new. split; [exact Hrun|]. split; [lia|]. split; [exact Hsocks|].
  eapply Forall2_impl; [|exact Htx].
  intros nd s (t' & Ht' & Htx'). rewrite Htx', (Ht' Ht). reflexivity.
Qed.

Lemma broadcast_keeps_given_timestamp_witness :
  exists r w' new,
    send_command_to_all Sample.one_down Sample.three_cams "START_RECORDING" (Some 5%Q) 3
      Sample.w0 = (Ret (Some r), w') /\
    ticks w' = ticks Sample.w0 /\
    socks w' = socks Sample.w0 ++ new /\
    Forall2 (fun nd s =>
               s_tx s =
               if reachable (net Sample.one_down (ip (snd nd)) (port (snd nd)))
               then dumps Sample.one_down
                      (PDict [("command", PStr "START_RECORDING");
                              ("timestamp", PFloat 5);
                              ("deviceId", PStr "controller")])
               else [])
            Sample.three_cams new.
Proof.
  apply (broadcast_keeps_given_timestamp Sample.one_down Sample.three_cams
           "START_RECORDING" 5%Q 3 Sample.w0).
  - discriminate.
  - discriminate.
Defined.

(** ** The clock check *)

Section Probes.

Variable E : env.

Lemma probe_device_unreachable d w :
  reachable (net E (ip d) (port d)) = false ->
  fst (probe_device E d w) = Ret ProbeFailed.
Proof.
  intros Hun.
  unfold probe_device, try_except. unfold bind at 1. rewrite time_time_run.
  cbv iota beta. unfold bind at 1.
  destruct (send_command_run E (ip d) (port d) "DEVICE_STATUS"
              (Some (clock E (ticks w))) None (set_ticks (S (ticks w)) w))
    as (v & w1 & s & Hrun & _).
  pose proof (send_command_value E (ip d) (port d) "DEVICE_STATUS"
                (Some (clock E (ticks w))) None (set_ticks (S (ticks w)) w)) as Hv.
  rewrite Hrun in Hv. simpl in Hv. injection Hv as Hv.
  rewrite unreachable_link_value in Hv by assumption. subst v.
  rewrite Hrun. cbv iota beta. unfold bind at 1. rewrite time_time_run.
  reflexivity.
Qed.

(** The loop of the probes: one entry per device, under the device's name. *)
Lemma probe_all_entries devices : forall results w,
  exists entries w',
    probe_all E devices results w =
      (Ret (fold_left (fun r np => dict_set (fst np) (snd np) r) entries results), w') /\
    Forall2 (fun nd np =>
               fst np = fst nd /\
               (reachable (net E (ip (snd nd)) (port (snd nd))) = false ->
                snd np = ProbeFailed))
            devices entries.
Proof.
  induction devices as [|[name d] devices IH]; intros results w; simpl.
  - exists [], w. split; [reflexivity|constructor].
  - unfold bind. destruct (probe_device_run E d w) as (p & w1 & Hrun).
    pose proof (probe_device_unreachable d w) as Hun.
    rewrite Hrun in *. simpl in Hun.
    destruct (IH (dict_set name p results) w1) as (entries & w' & Hrun' & Hall).
    exists ((name, p) :: entries), w'. split; [exact Hrun'|].
    constructor; [|exact Hall]. split; [reflexivity|].
    intros H. specialize (Hun H). now injection Hun.
Qed.

End Probes.

Lemma Forall2_keys {A B} (P : string * A -> string * B -> Prop)
    (l1 : dict A) (l2 : dict B) :
  Forall2 (fun a b => fst b = fst a /\ P a b) l1 l2 -> keys l2 = keys l1.
Proof.
  induction 1 as [|a b l1 l2 [Hk _] _ IH]; simpl; [reflexivity|].
  now rewrite Hk, IH.
Qed.

Lemma Forall2_In_l {A B} (P : A -> B -> Prop) (l1 : list A) (l2 : list B) (a : A) :
  Forall2 P l1 l2 -> In a l1 -> exists b, In b l2 /\ P a b.
Proof.
  induction 1 as [|x y l1 l2 Hxy _ IH]; simpl; [tauto|].
  intros [->|Hin].
  - exists y. auto.
  - destruct (IH Hin) as (b & Hb & Hp). exists b. auto.
Qed.

(** X9: the clock check enters every device of the registry, in its order
    and under its name; a device out of reach is entered as "failed" (not
    as "error"), and when no device is within reach the summary is that no
    device responded. *)
Theorem sync_check_entries E devices w :
  devices <> [] ->
  NoDup (keys devices) ->
  exists rep w',
    check_clock_synchronization E devices w = (Ret (Some rep), w') /\
    keys (probes rep) = keys devices /\
    (forall name d, In (name, d) devices ->
       reachable (net E (ip d) (port d)) = false ->
       dict_get name (probes rep) = Some ProbeFailed) /\
    ((forall name d, In (name, d) devices ->
        reachable (net E (ip d) (port d)) = false) ->
     verdict rep = NoDeviceResponded).
Proof.
  intros Hne Hnd. unfold check_clock_synchronization.
  destruct devices as [|nd devices'] eqn:Hd; [congruence|].
  cbv beta iota. rewrite <- Hd in *. clear Hd.
  unfold bind at 1. rewrite time_time_run. cbv beta iota. unfold bind.
  destruct (probe_all_entries E devices [] (set_ticks (S (ticks w)) w))
    as (entries & w' & Hrun & Hall).
  rewrite Hrun. pose proof (Forall2_keys _ _ _ Hall) as Hkeys.
  rewrite fold_dict_set_fresh by (simpl; now rewrite Hkeys).
  simpl app. exists (report_of entries), w'.
  split; [reflexivity|]. split; [exact Hkeys|]. simpl probes.
  assert (Hfailed : forall name d, In (name, d) devices ->
            reachable (net E (ip d) (port d)) = false -> In (name, ProbeFailed) entries).
  { intros name d Hin Hun.
    destruct (Forall2_In_l _ _ _ _ Hall Hin) as ([n p] & Hp & Hn & Hf).
    simpl in Hn, Hf. subst n. rewrite <- (Hf Hun). exact Hp. }
  split.
  - intros name d Hin Hun. apply dict_get_In; [now rewrite Hkeys|now apply (Hfailed name d)].
  - intros Hun.
    assert (Hds : abs_diffs entries = []).
    { clear Hrun Hkeys Hfailed Hnd Hne.
      induction Hall as [|[n d] [n' p] l1 l2 [_ Hf] _ IH]; [reflexivity|].
      simpl in Hf. simpl. rewrite (Hf (Hun n d (or_introl eq_refl))). simpl.
      apply IH. intros name d' Hin. apply (Hun name d'). now right. }
    pose proof (classified_classification _ (report_of_classified entries)) as Hc.
    destruct Hc as (_ & _ & _ & _ & Hno). apply Hno. simpl probes. now rewrite Hds.
Qed.

Lemma sync_check_entries_witness :
  exists rep w',
    check_clock_synchronization Sample.one_down Sample.three_cams Sample.w0 =
      (Ret (Some rep), w') /\
    keys (probes rep) = keys Sample.three_cams /\
    (forall name d, In (name, d) Sample.three_cams ->
       reachable (net Sample.one_down (ip d) (port d)) = false ->
       dict_get name (probes rep) = Some ProbeFailed) /\
    ((forall name d, In (name, d) Sample.three_cams ->
        reachable (net Sample.one_down (ip d) (port d)) = false) ->
     verdict rep = NoDeviceResponded).
Proof.
  apply (sync_check_entries Sample.one_down Sample.three_cams Sample.w0).
  - discriminate.
  - repeat constructor; simpl; intuition discriminate.
Defined.

Lemma py_max_l (a b : float) : ~ is_nan a -> fle a (py_max a b) = true.
Proof.
  intros Ha. unfold py_max. destruct (flt a b) eqn:H.
  - now apply flt_fle.
  - now apply fle_refl.
Qed.

Lemma py_max_r (a b : float) :
  ~ is_nan a -> ~ is_nan b -> fle b (py_max a b) = true.
Proof.
  intros Ha Hb. unfold py_max. destruct (flt a b) eqn:H.
  - now apply fle_refl.
  - now apply flt_false_fle.
Qed.

Lemma py_max_either (a b : float) : py_max a b = a \/ py_max a b = b.
Proof. unfold py_max. destruct (flt a b); auto. Qed.

Lemma py_min_l (a b : float) : ~ is_nan a -> fle (py_min a b) a = true.
Proof.
  intros Ha. unfold py_min. destruct (flt b a) eqn:H.
  - now apply flt_fle.
  - now apply fle_refl.
Qed.

Lemma py_min_r (a b : float) :
  ~ is_nan a -> ~ is_nan b -> fle (py_min a b) b = true.
Proof.
  intros Ha Hb. unfold py_min. destruct (flt b a) eqn:H.
  - now apply fle_refl.
  - now apply flt_false_fle.
Qed.

Lemma py_min_either (a b : float) : py_min a b = a \/ py_min a b = b.
Proof. unfold py_min. destruct (flt b a); auto. Qed.

Lemma abs_diffs_nonneg results d :
  In d (abs_diffs results) -> ~ is_nan d -> fle (Finite 0) d = true.
Proof.
  unfold abs_diffs. rewrite in_flat_map. intros [[name p] [_ Hin]].
  destruct p as [dt rt [q|[|s]]| |]; simpl in Hin; try tauto;
    destruct Hin as [<-|[]]; unfold is_nan; simpl; try congruence.
  intros _. apply Qle_bool_iff, Qabs_nonneg.
Qed.

(** Among differences that are numbers, the loop keeps the greatest. *)
Lemma tally_max_spec results : forall t,
  ~ is_nan (max_diff t) ->
  (forall d, In d (abs_diffs results) -> ~ is_nan d) ->
  let t' := tally_results results t in
  fle (max_diff t) (max_diff t') = true /\
  (forall d, In d (abs_diffs results) -> fle d (max_diff t') = true) /\
  (max_diff t' = max_diff t \/ In (max_diff t') (abs_diffs results)).
Proof.
  induction results as [|[name p] results IH]; intros t Ht Hds; simpl.
  - split; [now apply fle_refl|]. split; [intros d []|now left].
  - destruct p as [dt rt x| |e]; try (apply IH; assumption).
    assert (Hx : ~ is_nan (fabs x)) by (apply Hds; simpl; now left).
    match goal with |- context [tally_results results ?t1] =>
      destruct (IH t1) as (Hmax & Hall & Hatt)
    end.
    { simpl. now apply py_max_not_nan. }
    { intros d Hd. apply Hds. simpl. now right. }
    simpl in Hmax, Hatt. split; [|split].
    + eapply fle_trans; [apply (py_max_l (max_diff t) (fabs x) Ht)|exact Hmax].
    + simpl. intros d [<-|Hd]; [|now apply Hall].
      eapply fle_trans; [apply (py_max_r (max_diff t) (fabs x) Ht Hx)|exact Hmax].
    + simpl. destruct Hatt as [Hatt|Hatt]; [|auto].
      rewrite Hatt. destruct (py_max_either (max_diff t) (fabs x)) as [H|H];
        rewrite H; auto.
Qed.

(** Once a device has been counted, the loop keeps the least of the
    differences. *)
Lemma tally_min_spec results : forall t,
  0 < valid_devices t ->
  ~ is_nan (min_diff t) ->
  (forall d, In d (abs_diffs results) -> ~ is_nan d) ->
  let t' := tally_results results t in
  fle (min_diff t') (min_diff t) = true /\
  (forall d, In d (abs_diffs results) -> fle (min_diff t') d = true) /\
  (min_diff t' = min_diff t \/ In (min_diff t') (abs_diffs results)).
Proof.
  induction results as [|[name p] results IH]; intros t Hpos Ht Hds; simpl.
  - split; [now apply fle_refl|]. split; [intros d []|now left].
  - destruct p as [dt rt x| |e]; try (apply IH; assumption).
    assert (Hx : ~ is_nan (fabs x)) by (apply Hds; simpl; now left).
    replace (valid_devices t =? 0) with false by (symmetry; apply Z.eqb_neq; lia).
    match goal with |- context [tally_results results ?t1] =>
      destruct (IH t1) as (Hle & Hall & Hatt); [simpl; lia| |
        intros d Hd; apply Hds; simpl; now right |]
    end.
    { simpl. destruct (py_min_either (min_diff t) (fabs x)) as [H|H];
        rewrite H; assumption. }
    simpl in Hle, Hatt. split; [|split].
    + eapply fle_trans; [exact Hle|now apply py_min_l].
    + simpl. intros d [<-|Hd]; [|now apply Hall].
      eapply fle_trans; [exact Hle|now apply py_min_r].
    + simpl. destruct Hatt as [Hatt|Hatt]; [|auto].
      rewrite Hatt. destruct (py_min_either (min_diff t) (fabs x)) as [H|H];
        rewrite H; auto.
Qed.

(** From the start, the first device counted sets the minimum. *)
Lemma tally_min_first results : forall t,
  valid_devices t = 0 ->
  (forall d, In d (abs_diffs results) -> ~ is_nan d) ->
  let t' := tally_results results t in
  (forall d, In d (abs_diffs results) -> fle (min_diff t') d = true) /\
  (abs_diffs results <> [] -> In (min_diff t') (abs_diffs results)).
Proof.
  induction results as [|[name p] results IH]; intros t Hz Hds; simpl.
  - split; [intros d []|congruence].
  - destruct p as [dt rt x| |e]; try (apply IH; assumption).
    assert (Hx : ~ is_nan (fabs x)) by (apply Hds; simpl; now left).
    rewrite Hz. change (0 =? 0) with true. cbv iota.
    match goal with |- context [tally_results results ?t1] =>
      destruct (tally_min_spec results t1) as (Hle & Hall & Hatt);
        [simpl; lia | exact Hx | intros d Hd; apply Hds; simpl; now right |]
    end.
    simpl in Hle, Hatt. split.
    + simpl. intros d [<-|Hd]; [exact Hle|now apply Hall].
    + intros _. simpl. destruct Hatt as [Hatt|Hatt]; [left; now rewrite Hatt|now right].
Qed.

(** X10: the extremes of the clock check.  When the absolute clock
    differences of the devices probed with success are all numbers (none is
    [nan]), the minimum and the maximum that the summary prints bound them,
    the minimum is one of them and the maximum equals one of them.  The
    maximum is never [nan]: a [nan] difference is not taken into it. *)
Theorem sync_check_extremes E devices w :
  devices <> [] ->
  exists rep w',
    check_clock_synchronization E devices w = (Ret (Some rep), w') /\
    let ds := abs_diffs (probes rep) in
    ~ is_nan (max_diff (totals rep)) /\
    ((forall d, In d ds -> ~ is_nan d) ->
     (forall d, In d ds ->
        fle (min_diff (totals rep)) d = true /\
        fle d (max_diff (totals rep)) = true) /\
     (ds <> [] ->
        In (min_diff (totals rep)) ds /\
        exists d, In d ds /\ fle (max_diff (totals rep)) d = true)).
Proof.
  intros Hne. unfold check_clock_synchronization.
  destruct devices as [|nd devices'] eqn:Hd; [congruence|].
  cbv beta iota. rewrite <- Hd. clear Hd.
  unfold bind at 1. rewrite time_time_run. cbv beta iota. unfold bind.
  destruct (probe_all_run E devices [] (set_ticks (S (ticks w)) w))
    as (results & w' & Hrun).
  rewrite Hrun. exists (report_of results), w'.
  split; [reflexivity|]. cbv zeta. unfold report_of. simpl probes. simpl totals.
  set (t0 := {| max_diff := Finite 0; min_diff := Finite 0; valid_devices := 0 |}).
  assert (Hnan : ~ is_nan (max_diff t0)) by discriminate.
  split; [apply (tally_results_spec 0 results t0 Hnan)|].
  intros Hds.
  destruct (tally_max_spec results t0 Hnan Hds) as (_ & Hmax & Hatt).
  destruct (tally_min_first results t0 eq_refl Hds) as (Hmin & Hfirst).
  simpl in Hatt. split.
  - intros d Hd. split; [now apply Hmin|now apply Hmax].
  - intros Hne'. split; [now apply Hfirst|].
    destruct Hatt as [H0|Hin].
    + destruct (abs_diffs results) as [|d ds'] eqn:Hr; [congruence|].
      exists d. split; [now left|].
      rewrite H0. apply (abs_diffs_nonneg results).
      * rewrite Hr. now left.
      * apply Hds. now left.
    + exists (max_diff (tally_results results t0)). split; [assumption|].
      apply fle_refl. now apply Hds.
Qed.

Lemma sync_check_extremes_witness :
  exists rep w',
    check_clock_synchronization Sample.skewed Sample.two_cams Sample.w0 =
      (Ret (Some rep), w') /\
    let ds := abs_diffs (probes rep) in
    (forall d, In d ds ->
       fle (min_diff (totals rep)) d = true /\
       fle d (max_diff (totals rep)) = true) /\
    In (min_diff (totals rep)) ds /\
    exists d, In d ds /\ fle (max_diff (totals rep)) d = true.
Proof.
  destruct (sync_check_extremes Sample.skewed Sample.two_cams Sample.w0)
    as (rep & w' & Hrun & _ & H); [discriminate|].
  exists rep, w'. split; [exact Hrun|].
  vm_compute in Hrun. injection Hrun as <- <-.
  destruct H as (Hall & Hatt).
  - intros d [<-|[<-|[]]]; discriminate.
  - split; [exact Hall|]. apply Hatt. discriminate.
Defined.

(** ** The listing of the files *)

Section Listing.

Variable E : env.
Variable localtime_ok : Q -> bool.

(** The loop over the devices: each device's block works on the value of
    the device's link. *)
Lemma list_devices_run devices : forall totals w,
  fst (list_devices E localtime_ok devices totals w) =
  Ret (fold_left
         (fun t nd => list_device localtime_ok
                        (link_value E (ip (snd nd)) (port (snd nd)) "LIST_FILES" None) t)
         devices totals).
Proof.
  induction devices as [|[name d] devices IH]; intros totals w; simpl; [reflexivity|].
  unfold bind at 1. unfold try_except. unfold bind at 1.
  destruct (send_command_run E (ip d) (port d) "LIST_FILES" None None w)
    as (v & w1 & s & Hrun & _).
  pose proof (send_command_value E (ip d) (port d) "LIST_FILES" None None w) as Hv.
  rewrite Hrun in Hv. simpl in Hv. injection Hv as Hv. subst v.
  rewrite Hrun. cbv iota beta. unfold ret at 1. cbv iota beta.
  apply IH.
Qed.

Lemma list_files_on_all_devices_run devices w :
  devices <> [] ->
  fst (list_files_on_all_devices E localtime_ok devices w) =
  listing_of
    (fold_left
       (fun t nd => list_device localtime_ok
                      (link_value E (ip (snd nd)) (port (snd nd)) "LIST_FILES" None) t)
       devices (0, NInt 0)).
Proof.
  intros Hne. unfold list_files_on_all_devices.
  destruct devices as [|nd devices'] eqn:Hd; [congruence|].
  rewrite <- Hd. clear Hd. unfold bind.
  pose proof (list_devices_run devices (0, NInt 0) w) as Hrun.
  destruct (list_devices E localtime_ok devices (0, NInt 0) w) as [r w1].
  simpl in Hrun. subst r. reflexivity.
Qed.

Lemma list_file_not_stuck device_total_size file_info :
  list_file localtime_ok device_total_size file_info <> Stuck.
Proof.
  unfold list_file, rbind.
  pose proof (py_getitem_not_stuck file_info "fileSize").
  destruct (py_getitem file_info "fileSize") as [fs|e|]; [|discriminate|congruence].
  destruct (as_num fs) as [n|]; [|discriminate].
  assert (Hdiv : div_mb n <> Stuck).
  { unfold div_mb. destruct n as [z|q|x]; [destruct (mb_too_large z)| |]; discriminate. }
  destruct (div_mb n) as [[]|e|]; [|discriminate|congruence].
  assert (Hadd : num_add device_total_size n <> Stuck).
  { unfold num_add.
    destruct device_total_size as [x|p|[|s1]], n as [y|q|[|s2]];
      try discriminate;
      try (destruct (too_large_for_float x); discriminate);
      try (destruct (too_large_for_float y); discriminate). }
  destruct (num_add device_total_size n) as [t|e|]; [|discriminate|congruence].
  pose proof (py_getitem_not_stuck file_info "creationDate").
  destruct (py_getitem file_info "creationDate") as [c|e|]; [|discriminate|congruence].
  assert (Hloc : time_localtime localtime_ok c <> Stuck).
  { unfold time_localtime. destruct c as [|b|z|q|[|s]|f|l|m]; try discriminate;
      simpl; match goal with |- context [localtime_ok ?q] => destruct (localtime_ok q) end;
      discriminate. }
  destruct (time_localtime localtime_ok c) as [[]|e|]; [|discriminate|congruence].
  pose proof (py_getitem_not_stuck file_info "fileName").
  destruct (py_getitem file_info "fileName") as [fn|e|]; [|discriminate|congruence].
  pose proof (py_getitem_not_stuck file_info "fileId").
  destruct (py_getitem file_info "fileId") as [fi|e|]; [|discriminate|congruence].
  discriminate.
Qed.

(** A record that lacks one of the keys read stops the loop. *)
Lemma list_file_missing_key device_total_size file_info k e :
  In k ["fileSize"; "creationDate"; "fileName"; "fileId"] ->
  py_getitem file_info k = Raise e ->
  exists e', list_file localtime_ok device_total_size file_info = Raise e'.
Proof.
  intros Hk Hraise.
  pose proof (list_file_not_stuck device_total_size file_info) as Hns.
  destruct (list_file localtime_ok device_total_size file_info) as [t|e'|] eqn:Hrun;
    [exfalso|now exists e'|congruence].
  unfold list_file, rbind in Hrun.
  destruct (py_getitem file_info "fileSize") as [fs|?|] eqn:H1; try discriminate.
  destruct (as_num fs) as [n|]; [|discriminate].
  destruct (div_mb n) as [[]|?|]; try discriminate.
  destruct (num_add device_total_size n) as [t'|?|]; try discriminate.
  destruct (py_getitem file_info "creationDate") as [c|?|] eqn:H2; try discriminate.
  destruct (time_localtime localtime_ok c) as [[]|?|]; try discriminate.
  destruct (py_getitem file_info "fileName") as [fn|?|] eqn:H3; try discriminate.
  destruct (py_getitem file_info "fileId") as [fi|?|] eqn:H4; try discriminate.
  simpl in Hk. destruct Hk as [<-|[<-|[<-|[<-|[]]]]]; congruence.
Qed.

Lemma list_file_loop_not_stuck files : forall device_total_size,
  list_file_loop localtime_ok files device_total_size <> Stuck.
Proof.
  induction files as [|f files IH]; intros t; simpl; [discriminate|].
  pose proof (list_file_not_stuck t f) as Hns. unfold rbind.
  destruct (list_file localtime_ok t f) as [t'|e|]; [apply IH|discriminate|congruence].
Qed.

Lemma list_file_loop_missing_key files : forall device_total_size f k e,
  In f files ->
  In k ["fileSize"; "creationDate"; "fileName"; "fileId"] ->
  py_getitem f k = Raise e ->
  exists e', list_file_loop localtime_ok files device_total_size = Raise e'.
Proof.
  induction files as [|f0 files IH]; intros t f k e Hin Hk Hraise; [destruct Hin|].
  simpl. unfold rbind.
  pose proof (list_file_not_stuck t f0) as Hns.
  destruct (list_file localtime_ok t f0) as [t'|e'|] eqn:Hrun;
    [|now exists e'|congruence].
  destruct Hin as [->|Hin].
  - destruct (list_file_missing_key t f k e Hk Hraise) as (e' & He'). congruence.
  - eapply IH; eassumption.
Qed.

(** The records taken in add their sizes. *)
Lemma list_file_loop_sized files : forall sizes (z : Z),
  Forall2 (sized localtime_ok) files sizes ->
  list_file_loop localtime_ok files (NInt z) = Ret (NInt (z + total sizes)).
Proof.
  induction files as [|f files IH]; intros sizes z H; inversion H as [|? y ? l Hf Hrest]; subst.
  - simpl. now rewrite Z.add_0_r.
  - destruct Hf as (r & c & fn & fi & -> & Hsize & Hfit & Hc & Hloc & Hfn & Hfi).
    simpl. unfold list_file, rbind. simpl py_getitem.
    rewrite Hsize. simpl as_num. cbv iota. unfold div_mb. rewrite Hfit. cbv iota.
    simpl num_add. cbv iota. rewrite Hc, Hloc, Hfn, Hfi. cbv iota.
    rewrite (IH l (z + y) Hrest). simpl. f_equal. f_equal. lia.
Qed.

End Listing.

Lemma total_app (a b : list Z) : total (a ++ b) = total a + total b.
Proof. unfold total. induction a as [|x a IH]; simpl; [reflexivity|]. rewrite IH. lia. Qed.

Lemma total_nonneg (l : list Z) : (forall z, In z l -> 0 <= z) -> 0 <= total l.
Proof.
  unfold total. induction l as [|x l IH]; intros H; simpl; [lia|].
  assert (0 <= x) by (apply H; now left).
  assert (0 <= fold_right Z.add 0 l) by (apply IH; intros z Hz; apply H; now right).
  lia.
Qed.

Lemma mb_too_large_below (a b : Z) :
  0 <= a <= b -> mb_too_large b = false -> mb_too_large a = false.
Proof.
  unfold mb_too_large. set (C := 1024 * 1024 * (2 ^ 1024 - 2 ^ 970)). clearbody C.
  intros Hab Hb. apply Z.leb_gt in Hb. apply Z.leb_gt. lia.
Qed.

(** The blocks of devices that all answer with listings taken in. *)
Lemma fold_list_device_sized E localtime_ok (devices : dict device) :
  forall (listings : list (list Z)) (total_files total_size : Z),
  Forall2 (fun nd sizes =>
             exists r files,
               link_value E (ip (snd nd)) (port (snd nd)) "LIST_FILES" None = PDict r /\
               dict_get "files" r = Some (PList files) /\
               Forall2 (sized localtime_ok) files sizes)
          devices listings ->
  (forall z, In z (List.concat listings) -> 0 <= z) ->
  0 <= total_size ->
  mb_too_large (total_size + total (List.concat listings)) = false ->
  fold_left
    (fun t nd => list_device localtime_ok
                   (link_value E (ip (snd nd)) (port (snd nd)) "LIST_FILES" None) t)
    devices (total_files, NInt total_size) =
  (total_files + Z.of_nat (List.length (List.concat listings)),
   NInt (total_size + total (List.concat listings))).
Proof.
  induction devices as [|[name d] devices IH]; intros listings tf ts Hall Hpos Hts Hfit;
    inversion Hall as [|? sizes ? rest Hd Hrest]; subst.
  - simpl. now rewrite !Z.add_0_r.
  - destruct Hd as (r & files & Hv & Hfiles & Hsized). simpl in Hv.
    simpl List.concat in *. rewrite total_app in *. rewrite length_app.
    assert (Hl : 0 <= total sizes).
    { apply total_nonneg. intros z Hz. apply Hpos. apply in_or_app. now left. }
    assert (Hr : 0 <= total (List.concat rest)).
    { apply total_nonneg. intros z Hz. apply Hpos. apply in_or_app. now right. }
    cbn [fold_left]. simpl fst. simpl snd. rewrite Hv.
    unfold list_device at 2. rewrite Hfiles.
    rewrite (list_file_loop_sized localtime_ok files sizes 0 Hsized). rewrite Z.add_0_l.
    pose proof (Forall2_length Hsized) as Hlen.
    destruct files as [|f files].
    + destruct sizes; [|discriminate]. simpl.
      rewrite (IH rest tf ts Hrest); [reflexivity| |assumption|].
      * intros z Hz. apply Hpos. apply in_or_app. now right.
      * simpl in Hfit. exact Hfit.
    + unfold div_mb.
      rewrite (mb_too_large_below (total sizes) (ts + (total sizes + total (List.concat rest))))
        by (assumption || lia).
      cbv iota. simpl num_add. cbv iota.
      rewrite (IH rest _ (ts + total sizes) Hrest).
      * rewrite Hlen. f_equal; [lia|f_equal; lia].
      * intros z Hz. apply Hpos. apply in_or_app. now right.
      * lia.
      * now rewrite <- Z.add_assoc.
Qed.

(** X11: the summary of a listing.  When every device answers with a list
    of records that the loop takes in (the four keys, an [int] size that is
    not negative, a date that can be printed), the summary gives the number
    of records and the sum of their sizes over all the devices; it says that
    there are no files when there is no record. *)
Theorem listing_totals E localtime_ok (devices : dict device)
    (listings : list (list Z)) w :
  devices <> [] ->
  Forall2 (fun nd sizes =>
             exists r files,
               link_value E (ip (snd nd)) (port (snd nd)) "LIST_FILES" None = PDict r /\
               dict_get "files" r = Some (PList files) /\
               Forall2 (sized localtime_ok) files sizes)
          devices listings ->
  (forall z, In z (List.concat listings) -> 0 <= z) ->
  mb_too_large (total (List.concat listings)) = false ->
  fst (list_files_on_all_devices E localtime_ok devices w) =
  Ret (Some (if 0 <? Z.of_nat (List.length (List.concat listings))
             then FilesSummary (Z.of_nat (List.length (List.concat listings)))
                               (NInt (total (List.concat listings)))
             else NoFilesAnywhere)).
Proof.
  intros Hne Hall Hpos Hfit.
  rewrite list_files_on_all_devices_run by assumption.
  rewrite (fold_list_device_sized E localtime_ok devices listings 0 0 Hall Hpos);
    [|lia|exact Hfit].
  rewrite !Z.add_0_l. unfold listing_of.
  destruct (0 <? Z.of_nat (List.length (List.concat listings))); [|reflexivity].
  unfold div_mb. rewrite Hfit. reflexivity.
Qed.

Lemma listing_totals_witness :
  fst (list_files_on_all_devices Fleet.listing (fun _ => true) Sample.two_cams Sample.w0) =
  Ret (Some (FilesSummary 3 (NInt 3670016))).
Proof.
  apply (listing_totals Fleet.listing (fun _ => true) Sample.two_cams
           [[1048576; 2097152]; [524288]] Sample.w0).
  - discriminate.
  - constructor; [|constructor; [|constructor]].
    + exists [("files", PList Fleet.listing_of_cam1)], Fleet.listing_of_cam1.
      split; [reflexivity|]. split; [reflexivity|].
      repeat (constructor; [do 4 eexists; repeat split; reflexivity|]). constructor.
    + exists [("files", PList Fleet.listing_of_cam2)], Fleet.listing_of_cam2.
      split; [reflexivity|]. split; [reflexivity|].
      repeat (constructor; [do 4 eexists; repeat split; reflexivity|]). constructor.
  - intros z Hz. simpl in Hz. intuition (subst; lia).
  - reflexivity.
Defined.

(** X12: a device that fails does not count and does not stop the listing.
    A device out of reach, or one whose list has a record that lacks one of
    the keys read (its other records are dropped with it), leaves the
    summary as it is without that device. *)
Theorem listing_skips_failed_device E localtime_ok before name d after w w' :
  before ++ after <> [] ->
  reachable (net E (ip d) (port d)) = false \/
  (exists r files f k e,
     link_value E (ip d) (port d) "LIST_FILES" None = PDict r /\
     dict_get "files" r = Some (PList files) /\
     In f files /\
     In k ["fileSize"; "creationDate"; "fileName"; "fileId"] /\
     py_getitem f k = Raise e) ->
  fst (list_files_on_all_devices E localtime_ok (before ++ (name, d) :: after) w) =
  fst (list_files_on_all_devices E localtime_ok (before ++ after) w').
Proof.
  intros Hne Hbad.
  rewrite !list_files_on_all_devices_run;
    [|assumption|destruct before; discriminate].
  rewrite !fold_left_app. cbn [fold_left]. simpl fst. simpl snd.
  f_equal. f_equal.
  match goal with |- list_device _ _ ?t = _ => generalize t end.
  intros [tf ts].
  destruct Hbad as [Hun|(r & files & f & k & e & Hv & Hfiles & Hin & Hk & Hraise)].
  - rewrite unreachable_link_value by assumption. reflexivity.
  - rewrite Hv. unfold list_device. rewrite Hfiles.
    destruct (list_file_loop_missing_key localtime_ok files (NInt 0) f k e Hin Hk Hraise)
      as (e' & He').
    rewrite He'. reflexivity.
Qed.

Lemma listing_skips_failed_device_witness :
  fst (list_files_on_all_devices Fleet.listing (fun _ => true)
         ([("cam1", Sample.cam "10.0.0.1")] ++
          ("cam3", Sample.cam "10.0.0.3") :: [("cam2", Sample.cam "10.0.0.2")])
         Sample.w0) =
  fst (list_files_on_all_devices Fleet.listing (fun _ => true)
         ([("cam1", Sample.cam "10.0.0.1")] ++ [("cam2", Sample.cam "10.0.0.2")])
         Sample.w0).
Proof.
  apply (listing_skips_failed_device Fleet.listing (fun _ => true)
           [("cam1", Sample.cam "10.0.0.1")] "cam3" (Sample.cam "10.0.0.3")
           [("cam2", Sample.cam "10.0.0.2")] Sample.w0 Sample.w0).
  - discriminate.
  - right.
    exists [("files", PList [PDict [("fileId", PStr "c1"); ("fileName", PStr "clip.mp4")]])],
           [PDict [("fileId", PStr "c1"); ("fileName", PStr "clip.mp4")]],
           (PDict [("fileId", PStr "c1"); ("fileName", PStr "clip.mp4")]),
           "fileSize", KeyError.
    split; [reflexivity|]. split; [reflexivity|]. split; [now left|].
    split; [now left|reflexivity].
Defined.

(** ** What a call does to the local files *)

Lemma same_files_ret {A} (a : A) : same_files (ret a).
Proof. intros w. reflexivity. Qed.

Lemma same_files_raise {A} e : same_files (@raise A e).
Proof. intros w. reflexivity. Qed.

Lemma same_files_lift {A} (r : result A) : same_files (lift r).
Proof. intros w. reflexivity. Qed.

Lemma same_files_bind {A B} (m : M A) (k : A -> M B) :
  same_files m -> (forall a, same_files (k a)) -> same_files (bind m k).
Proof.
  intros Hm Hk w. unfold bind. specialize (Hm w).
  destruct (m w) as [[a|e|] w1]; simpl in *; [|assumption|assumption].
  now rewrite Hk.
Qed.

Lemma same_files_try_except {A} (m : M A) (h : exn -> M A) :
  same_files m -> (forall e, same_files (h e)) -> same_files (try_except m h).
Proof.
  intros Hm Hh w. unfold try_except. specialize (Hm w).
  destruct (m w) as [[a|e|] w1]; simpl in *; [assumption| |assumption].
  now rewrite Hh.
Qed.

Lemma same_files_with_fuel {A} fd (k : nat -> M A) :
  (forall fuel, same_files (k fuel)) -> same_files (with_fuel fd k).
Proof. intros H w. unfold with_fuel. apply H. Qed.

Lemma wrote_refl path fs : wrote path fs fs.
Proof. now left. Qed.

Lemma wrote_trans path f1 f2 f3 :
  wrote path f1 f2 -> wrote path f2 f3 -> wrote path f1 f3.
Proof.
  intros [->|[c1 ->]] [->|[c2 ->]].
  - now left.
  - right. now exists c2.
  - right. now exists c1.
  - right. exists c2. apply dict_set_twice.
Qed.

Lemma same_files_writes {A} path (m : M A) : same_files m -> writes path m.
Proof. intros H w. left. apply H. Qed.

Lemma writes_bind {A B} path (m : M A) (k : A -> M B) :
  writes path m -> (forall a, writes path (k a)) -> writes path (bind m k).
Proof.
  intros Hm Hk w. unfold bind. specialize (Hm w).
  destruct (m w) as [[a|e|] w1]; simpl in *; [|assumption|assumption].
  eapply wrote_trans; [exact Hm|apply Hk].
Qed.

Section Files.

Variable E : env.

Lemma same_files_sock_recv fd n : same_files (sock_recv fd n).
Proof.
  intros w. unfold sock_recv.
  destruct (nth_error (socks w) fd) as [s|]; [|reflexivity].
  destruct (s_open s); [|reflexivity].
  destruct (n <? 0); [reflexivity|].
  destruct (rx_take (Z.to_nat n) (s_rx s)). reflexivity.
Qed.

Lemma same_files_sock_close fd : same_files (sock_close fd).
Proof. intros w. reflexivity. Qed.

Lemma same_files_json_loads data : same_files (json_loads E data).
Proof. intros w. unfold json_loads. destruct (loads E data); reflexivity. Qed.

Lemma same_files_os_makedirs d : same_files (os_makedirs E d).
Proof. intros w. unfold os_makedirs. destruct (makedirs_ok E); reflexivity. Qed.

Lemma same_files_recv_header_loop fuel : forall fd header_size header_data,
  same_files (recv_header_loop fuel fd header_size header_data).
Proof.
  induction fuel as [|fuel IH]; intros fd hs hd; simpl;
    destruct (len hd <? hs); try apply same_files_ret; try apply same_files_lift.
  apply same_files_bind; [apply same_files_sock_recv|].
  intros chunk. destruct (is_empty chunk); [apply same_files_ret|apply IH].
Qed.

Lemma same_files_recv_json_loop fuel : forall fd response_data,
  same_files (recv_json_loop E fuel fd response_data).
Proof.
  induction fuel as [|fuel IH]; intros fd rd w; simpl; [reflexivity|].
  pose proof (same_files_sock_recv fd 8192 w) as Hr.
  destruct (sock_recv fd 8192 w) as [[chunk|e|] w1]; simpl in *; [| |assumption].
  - destruct (is_empty chunk); [assumption|].
    destruct (loads E (rd ++ chunk)); [assumption|].
    now rewrite IH.
  - destruct e; assumption.
Qed.

Lemma writes_file_open path : writes path (file_open E path).
Proof.
  intros w. unfold file_open. destruct (open_ok E path); [|now left].
  right. now exists [].
Qed.

Lemma writes_file_write path chunk : writes path (file_write path chunk).
Proof. intros w. right. eexists. reflexivity. Qed.

Lemma writes_download_loop fuel : forall fd path file_size bytes_received,
  writes path (download_loop fuel fd path file_size bytes_received).
Proof.
  induction fuel as [|fuel IH]; intros fd path fs br; simpl;
    destruct (int_lt br fs);
    try (apply same_files_writes; first [apply same_files_ret|apply same_files_lift]).
  apply writes_bind; [apply same_files_writes, same_files_lift|]. intros n.
  apply writes_bind; [apply same_files_writes, same_files_sock_recv|]. intros chunk.
  destruct (is_empty chunk); [apply same_files_writes, same_files_ret|].
  apply writes_bind; [apply writes_file_write|]. intros _. apply IH.
Qed.

(** Every command but [GET_VIDEO] leaves the files alone. *)
Lemma same_files_handle_response fd device_ip command file_id :
  String.eqb command "GET_VIDEO" = false ->
  same_files (handle_response E fd device_ip command file_id).
Proof.
  intros Hget. unfold handle_response. rewrite Hget.
  apply same_files_bind.
  - destruct (String.eqb command "LIST_FILES").
    + apply same_files_with_fuel. intros fuel. apply same_files_recv_json_loop.
    + apply same_files_sock_recv.
  - intros rd. destruct (negb (is_empty rd)).
    + apply same_files_bind; [apply same_files_json_loads|]. intros rj.
      apply same_files_bind.
      * destruct (String.eqb command "STOP_RECORDING");
          [apply same_files_lift|apply same_files_ret].
      * intros [|]; [|apply same_files_ret].
        apply same_files_bind; [apply same_files_lift|].
        intros v. destruct (truthy v); apply same_files_ret.
    + apply same_files_bind; [apply same_files_sock_close|].
      intros _. apply same_files_ret.
Qed.

End Files.

(** X13: only [GET_VIDEO] writes.  A call with any other command leaves
    every local file as it is, whatever the device sends. *)
Theorem only_get_video_writes_files E device_ip device_port command timestamp file_id w :
  String.eqb command "GET_VIDEO" = false ->
  files (snd (send_command E device_ip device_port command timestamp file_id w)) =
  files w.
Proof.
  intros Hget. rewrite send_command_unfold. cbv zeta.
  destruct (p_connect (net E device_ip device_port)); [reflexivity|].
  destruct (p_send (net E device_ip device_port)); [reflexivity|].
  rewrite (same_files_try_except _ _
             (same_files_handle_response E _ device_ip command file_id Hget)
             (fun _ => same_files_ret _)).
  reflexivity.
Qed.

Lemma only_get_video_writes_files_witness :
  files (snd (send_command Sample.one_down "10.0.0.1" 8080 "STOP_RECORDING" None None
                Sample.w0)) = files Sample.w0.
Proof.
  apply (only_get_video_writes_files Sample.one_down "10.0.0.1" 8080 "STOP_RECORDING"
           None None Sample.w0).
  reflexivity.
Defined.

Section TransferOutcome.

Variable E : env.

(** From the header on: the file named by the header is the only one
    written, and the path returned is its path. *)
Lemma transfer_tail fd device_ip file_name file_size w :
  let local_path := local_path_of E device_ip file_name in
  let rw := (os_makedirs E (downloads_dir E);;
             file_open E local_path;;
             with_fuel fd (fun fuel => download_loop fuel fd local_path file_size 0);;
             sock_close fd;;
             ret (PStr local_path)) w in
  match fst rw with
  | Ret v => v = PStr local_path /\
             exists content, files (snd rw) = dict_set local_path content (files w)
  | Raise _ => wrote local_path (files w) (files (snd rw))
  | Stuck => True
  end.
Proof.
  intros local_path rw. subst rw.
  match goal with |- context [fst ?t] => remember t as rw eqn:Hrw end.
  destruct rw as [r w'].
  simpl fst. simpl snd.
  unfold bind at 1 in Hrw. unfold os_makedirs in Hrw.
  destruct (makedirs_ok E).
  2:{ injection Hrw as -> ->. apply wrote_refl. }
  unfold ret at 1 in Hrw. cbv iota beta in Hrw.
  unfold bind at 1 in Hrw. unfold file_open in Hrw.
  destruct (open_ok E local_path).
  2:{ injection Hrw as -> ->. apply wrote_refl. }
  cbv iota beta in Hrw. unfold bind at 1 in Hrw.
  match type of Hrw with context [with_fuel fd ?k ?w1] =>
    pose proof (writes_download_loop (fuel_of fd w1) fd local_path file_size 0 w1) as Hw;
    unfold with_fuel in Hrw;
    destruct (download_loop (fuel_of fd w1) fd local_path file_size 0 w1) as [[n|e|] w2]
  end; simpl in Hw; cbv iota beta in Hrw.
  - injection Hrw as -> ->. split; [reflexivity|]. simpl.
    destruct Hw as [->|[c ->]]; eexists; [reflexivity|apply dict_set_twice].
  - injection Hrw as -> ->. eapply wrote_trans; [|exact Hw]. right. now exists [].
  - injection Hrw as -> ->. exact I.
Qed.


End TransferOutcome.


(** ** The name of the file written *)

Lemma rx_take_delivered (n : nat) l chunk l' :
  (0 < n)%nat ->
  rx_take n l = (Ret chunk, l') ->
  (chunk = [] -> delivered l = []) /\
  (chunk <> [] ->
   delivered l = chunk ++ delivered l' /\ (List.length chunk <= n)%nat).
Proof.
  intros Hn. unfold rx_take. destruct l as [|[d|e] l]; [| |discriminate].
  - intros H. injection H as <- <-. split; [reflexivity|congruence].
  - destruct (List.length d <=? n)%nat eqn:Hlen; intros H; injection H as <- <-.
    + apply Nat.leb_le in Hlen. split.
      * intros ->. reflexivity.
      * intros Hd. simpl. destruct d; [congruence|]. simpl. auto.
    + apply Nat.leb_gt in Hlen.
      assert (Hd : is_empty d = false) by (destruct d; [simpl in Hlen; lia|reflexivity]).
      assert (Hskip : is_empty (skipn n d) = false).
      { destruct (skipn n d) eqn:Hs; [|reflexivity].
        apply (f_equal (@List.length byte)) in Hs.
        rewrite length_skipn in Hs. simpl in Hs. lia. }
      split.
      * intros H. apply (f_equal (@List.length byte)) in H.
        rewrite length_firstn in H. simpl in H. lia.
      * intros _. simpl. rewrite Hd, Hskip, app_assoc, firstn_skipn.
        split; [reflexivity|]. rewrite length_firstn. lia.
Qed.

Section Named.

Variable E : env.

(** The header loop gathers the bytes that the stream delivers, up to the
    size of the header. *)
Lemma recv_header_loop_delivered fuel :
  forall header_size header_data w ticks0 pre s files0 hd' w',
  w = {| ticks := ticks0; socks := pre ++ [s]; files := files0 |} ->
  s_open s = true ->
  recv_header_loop fuel (List.length pre) header_size header_data w = (Ret hd', w') ->
  hd' = header_data ++
        firstn (Z.to_nat (header_size - len header_data)) (delivered (s_rx s)).
Proof.
  induction fuel as [|fuel IH]; intros hs hd w t pre s f hd' w' Hw Ho Hrun;
    simpl in Hrun; destruct (len hd <? hs) eqn:Hlt;
    try (apply Z.ltb_ge in Hlt; injection Hrun as <- _;
         replace (Z.to_nat (hs - len hd)) with 0%nat by lia;
         simpl; now rewrite app_nil_r);
    [discriminate|].
  apply Z.ltb_lt in Hlt.
  unfold bind at 1 in Hrun.
  erewrite sock_recv_snoc in Hrun; [|exact Hw|exact Ho|lia].
  destruct (rx_take (Z.to_nat (hs - len hd)) (s_rx s)) as [[chunk|e|] l'] eqn:Htake;
    simpl fst in Hrun; simpl snd in Hrun; cbv iota beta in Hrun; try discriminate.
  assert (Hpos : (0 < Z.to_nat (hs - len hd))%nat) by lia.
  destruct (rx_take_delivered _ _ _ _ Hpos Htake) as [Hempty Hsome].
  destruct chunk as [|b chunk].
  - simpl in Hrun. injection Hrun as <- _. rewrite Hempty by reflexivity.
    rewrite firstn_nil. now rewrite app_nil_r.
  - simpl is_empty in Hrun. cbv iota in Hrun.
    destruct Hsome as [Hdel Hlen]; [discriminate|].
    eapply IH in Hrun; [|reflexivity|reflexivity]. simpl s_rx in Hrun.
    rewrite Hrun, Hdel, firstn_app_long by exact Hlen.
    rewrite <- app_assoc. do 3 f_equal.
    unfold len. rewrite length_app. lia.
Qed.

Lemma header_fields_name header_data file_name file_size :
  header_fields E header_data = Ret (file_name, file_size) ->
  exists header_info,
    loads E header_data = Some header_info /\
    py_getitem header_info "fileName" = Ret file_name.
Proof.
  unfold header_fields. destruct (loads E header_data) as [hi|]; [|discriminate].
  destruct (py_getitem hi "fileName") as [fn|e|] eqn:Hname; try discriminate.
  destruct (py_getitem hi "fileSize") as [fs|e|]; try discriminate.
  destruct (format_size fs) as [n|e|]; try discriminate.
  intros H. injection H as <- _. exists hi. split; [reflexivity|exact Hname].
Qed.

(** A transfer writes no file, or the file named by the header that the
    stream delivers; a path returned is the path of that file. *)
Lemma handle_file_download_named w ticks0 pre s files0 device_ip file_id :
  w = {| ticks := ticks0; socks := pre ++ [s]; files := files0 |} ->
  s_open s = true ->
  let rw := _handle_file_download E (List.length pre) device_ip file_id w in
  match fst rw with
  | Ret v =>
      (v = PBool false /\ files (snd rw) = files0) \/
      (exists header_info file_name content,
         loads E (header_of (s_rx s)) = Some header_info /\
         py_getitem header_info "fileName" = Ret file_name /\
         files (snd rw) = dict_set (local_path_of E device_ip file_name) content files0 /\
         (v = PBool false \/ v = PStr (local_path_of E device_ip file_name)))
  | Raise _ => False
  | Stuck => True
  end.
Proof.
  intros Hw Ho rw. subst rw.
  match goal with |- context [fst ?t] => remember t as rw eqn:Hrw end.
  destruct rw as [r w'].
  simpl fst. simpl snd.
  unfold _handle_file_download, try_except in Hrw.
  unfold bind at 1 in Hrw.
  erewrite sock_recv_snoc in Hrw; [|exact Hw|exact Ho|lia].
  destruct (rx_take (Z.to_nat 4) (s_rx s)) as [[hsd|e|] l1] eqn:Htake;
    simpl fst in Hrw; simpl snd in Hrw; cbv iota beta in Hrw.
  2:{ unfold bind in Hrw. erewrite sock_close_snoc in Hrw; [|reflexivity].
      injection Hrw as -> ->. left. split; reflexivity. }
  2:{ injection Hrw as -> ->. exact I. }
  destruct (negb (len hsd =? 4)) eqn:Hlen4; cbv iota in Hrw.
  { injection Hrw as -> ->. left. split; reflexivity. }
  apply negb_false_iff, Z.eqb_eq in Hlen4.
  assert (Hlen : List.length hsd = 4%nat) by (unfold len in Hlen4; lia).
  assert (Hpos : (0 < Z.to_nat 4)%nat) by lia.
  destruct (rx_take_delivered _ _ _ _ Hpos Htake) as [_ Hsome].
  destruct Hsome as [Hdel _]; [intros ->; discriminate|].
  assert (Hhead : header_of (s_rx s) =
                  firstn (Z.to_nat (unpack_be32 hsd)) (delivered l1)).
  { unfold header_of. rewrite Hdel.
    rewrite firstn_app_long by lia. rewrite Hlen. simpl firstn at 2.
    rewrite app_nil_r, skipn_app, Hlen.
    rewrite (skipn_all2 hsd) by lia. reflexivity. }
  set (s1 := {| s_open := true; s_send := s_send s; s_rx := l1; s_tx := s_tx s |}) in *.
  set (w1 := {| ticks := ticks0; socks := pre ++ [s1]; files := files0 |}) in *.
  unfold bind at 1 in Hrw.
  pose proof (same_files_with_fuel (List.length pre) _
                (fun fuel => same_files_recv_header_loop fuel (List.length pre)
                               (unpack_be32 hsd) []) w1) as H2.
  unfold with_fuel at 1 in Hrw. unfold with_fuel in H2.
  destruct (recv_header_loop (fuel_of (List.length pre) w1) (List.length pre)
              (unpack_be32 hsd) [] w1) as [[hd|e|] w2] eqn:Hloop;
    simpl in H2; cbv iota beta in Hrw.
  2:{ unfold bind, sock_close, ret in Hrw. injection Hrw as -> ->.
      left. split; [reflexivity|]. simpl. exact H2. }
  2:{ injection Hrw as -> ->. exact I. }
  apply (recv_header_loop_delivered _ _ _ w1 ticks0 pre s1 files0) in Hloop;
    [|reflexivity|reflexivity].
  simpl in Hloop. rewrite Z.sub_0_r in Hloop. rewrite <- Hhead in Hloop. subst hd.
  rewrite header_steps in Hrw.
  destruct (header_fields E (header_of (s_rx s))) as [[file_name file_size]|e|] eqn:Hf.
  2:{ unfold bind, sock_close, ret in Hrw. injection Hrw as -> ->.
      left. split; [reflexivity|]. simpl. exact H2. }
  2:{ injection Hrw as -> ->. exact I. }
  destruct (header_fields_name _ _ _ Hf) as (hi & Hloads & Hname).
  pose proof (transfer_tail E (List.length pre) device_ip file_name file_size w2) as H3.
  cbv zeta in H3. rewrite H2 in H3. simpl files in H3.
  match type of H3 with match fst ?t with _ => _ end => destruct t as [[v|e|] w3] end;
    simpl in H3; cbv iota beta in Hrw.
  - injection Hrw as -> ->. destruct H3 as [-> [c Hc]]. right.
    exists hi, file_name, c. auto.
  - unfold bind, sock_close, ret in Hrw. injection Hrw as -> ->. simpl.
    destruct H3 as [->|[c Hc]]; [left; split; reflexivity|].
    right. exists hi, file_name, c. auto.
  - injection Hrw as -> ->. exact I.
Qed.

End Named.

(** X14: what a transfer can do.  Whatever the device sends, a call with
    [GET_VIDEO] returns [False] or a path.  It writes no file, or one file:
    the one that the download directory, the address of the device and the
    [fileName] of the header received name, the header being the bytes that
    the device sends after the 4 bytes of its length; and a path returned is
    the path of that file. *)
Theorem transfer_outcome E device_ip device_port timestamp file_id w :
  exists v w',
    send_command E device_ip device_port "GET_VIDEO" timestamp file_id w = (Ret v, w') /\
    ((v = PBool false /\ files w' = files w) \/
     (exists header_info file_name content,
        loads E (header_of (p_rx (net E device_ip device_port))) = Some header_info /\
        py_getitem header_info "fileName" = Ret file_name /\
        files w' = dict_set (local_path_of E device_ip file_name) content (files w) /\
        (v = PBool false \/ v = PStr (local_path_of E device_ip file_name)))).
Proof.
  destruct (send_command_run E device_ip device_port "GET_VIDEO" timestamp file_id w)
    as (v & w' & s & Hrun & _).
  exists v, w'. split; [exact Hrun|].
  rewrite send_command_unfold in Hrun. cbv zeta in Hrun.
  destruct (p_connect (net E device_ip device_port)).
  { injection Hrun as <- <-. left. split; reflexivity. }
  destruct (p_send (net E device_ip device_port)).
  { injection Hrun as <- <-. left. split; reflexivity. }
  unfold try_except, handle_response in Hrun.
  change (String.eqb "GET_VIDEO" "GET_VIDEO") with true in Hrun. cbv iota in Hrun.
  match type of Hrun with context [_handle_file_download E ?fd _ _ ?W] =>
    pose proof (handle_file_download_named E W _ (socks w) _ _ device_ip file_id
                  eq_refl eq_refl) as Hout;
    cbv zeta in Hout;
    destruct (_handle_file_download E fd device_ip file_id W) as [[v1|e|] w1]
  end; simpl in Hout; [|contradiction|discriminate].
  injection Hrun as <- <-. exact Hout.
Qed.

(** ** The interactive mode: [stop], then [download-all] *)

Lemma str_items_file_ids (d : dict pyval) : str_items (file_ids_of d) = str_items d.
Proof.
  unfold str_items, file_ids_of. induction d as [|[k v] d IH]; simpl; [reflexivity|].
  destruct v; simpl; try exact IH. now rewrite IH.
Qed.

Lemma In_str_items_link_values E (devices : dict device) command name fid :
  In (name, fid) (str_items (link_values E devices command)) <->
  exists d, In (name, d) devices /\
            link_value E (ip d) (port d) command None = PStr fid.
Proof.
  unfold str_items, link_values. rewrite in_flat_map. split.
  - intros ([n v] & Hin & Hm). apply in_map_iff in Hin.
    destruct Hin as ([n' d] & Heq & Hin). simpl in Heq. injection Heq as <- <-.
    simpl in Hm. destruct (link_value E (ip d) (port d) command None) eqn:Hv;
      simpl in Hm; try contradiction.
    destruct Hm as [Hm|[]]. injection Hm as <- <-. now exists d.
  - intros (d & Hin & Hv). exists (name, PStr fid). split.
    + apply in_map_iff. exists (name, d). simpl. now rewrite Hv.
    + simpl. now left.
Qed.

Section DownloadAll.

Variable E : env.

(** The loop of [download-all]: one call per file id whose device is in the
    registry; each call reads the clock once, for the timestamp of its
    request. *)
Lemma download_each_run devices : forall file_ids downloaded_files w,
  (forall name fid, In (name, fid) file_ids -> dict_get name devices <> None) ->
  exists paths w' new,
    download_each E devices file_ids downloaded_files w = (Ret paths, w') /\
    socks w' = socks w ++ new /\
    Forall2 (fun knf s =>
               exists d,
                 dict_get (fst (snd knf)) devices = Some d /\
                 s_tx s = if reachable (net E (ip d) (port d))
                          then dumps E (message_of "GET_VIDEO" (clock E (fst knf))
                                          (Some (snd (snd knf))))
                          else [])
            (combine (seq (ticks w) (List.length file_ids)) file_ids) new.
Proof.
  induction file_ids as [|[name fid] file_ids IH]; intros acc w Hin; simpl.
  - exists acc, w, []. rewrite app_nil_r. repeat split. constructor.
  - destruct (dict_get name devices) as [d|] eqn:Hd.
    2:{ exfalso. apply (Hin name fid); [now left|exact Hd]. }
    unfold bind.
    destruct (send_command_run E (ip d) (port d) "GET_VIDEO" None (Some fid) w)
      as (v & w1 & s & Hrun & Ht & Hs & Htx).
    rewrite Hrun.
    destruct (IH (if truthy v then acc ++ [v] else acc) w1) as (paths & w' & new & Hrun' & Hs' & Hall).
    { intros n f H. apply (Hin n f). now right. }
    exists paths, w', (s :: new). split; [exact Hrun'|]. split.
    + rewrite Hs', Hs, <- app_assoc. reflexivity.
    + constructor.
      * exists d. simpl. auto.
      * simpl in Ht. rewrite Ht in Hall. exact Hall.
Qed.


End DownloadAll.

(** X15: [stop], then [download-all].  The file ids kept by [stop] are
    those of the devices whose link returned a string; [download-all] then
    makes one call per file id kept, in order, to the device that gave it:
    the call reads the clock for the timestamp of its request, and the
    request carries the file id, unless the id is the empty string, which is
    sent without a [fileId].  Nothing is sent to a device out of reach. *)
Theorem download_all_asks_for_stopped_files E1 E2 self w :
  discovered_devices self <> [] ->
  NoDup (keys (discovered_devices self)) ->
  exists self1 w1 self2 w2 new,
    stop_command E1 self w = (Ret self1, w1) /\
    download_all_command E2 self1 w1 = (Ret self2, w2) /\
    (forall name fid,
       In (name, fid) (last_file_ids self1) <->
       exists d, In (name, d) (discovered_devices self) /\
                 link_value E1 (ip d) (port d) "STOP_RECORDING" None = PStr fid) /\
    socks w2 = socks w1 ++ new /\
    Forall2 (fun knf s =>
               let '(k, (device_name, file_id)) := knf in
               exists d,
                 dict_get device_name (discovered_devices self) = Some d /\
                 s_tx s =
                 if reachable (net E2 (ip d) (port d))
                 then dumps E2
                        (PDict ([("command", PStr "GET_VIDEO");
                                 ("timestamp", PFloat (clock E2 k));
                                 ("deviceId", PStr "controller")] ++
                                if String.eqb file_id "" then []
                                else [("fileId", PStr file_id)]))
                 else [])
            (combine (seq (ticks w1) (List.length (last_file_ids self1)))
                     (last_file_ids self1))
            new.
Proof.
  intros Hne Hnd.
  pose proof (send_command_to_all_run E1 (discovered_devices self) "STOP_RECORDING"
                None 3 w Hne Hnd) as Hstop.
  change (String.eqb "STOP_RECORDING" "STOP_RECORDING") with true in Hstop.
  cbv iota in Hstop.
  unfold stop_command. unfold bind at 1.
  destruct (send_command_to_all E1 (discovered_devices self) "STOP_RECORDING" None 3 w)
    as [r w1].
  simpl in Hstop. subst r. cbv iota beta. unfold ret at 1.
  rewrite str_items_file_ids.
  set (ids := str_items (link_values E1 (discovered_devices self) "STOP_RECORDING")).
  assert (Hids : forall name fid, In (name, fid) ids <->
            exists d, In (name, d) (discovered_devices self) /\
                      link_value E1 (ip d) (port d) "STOP_RECORDING" None = PStr fid).
  { intros name fid. apply In_str_items_link_values. }
  destruct (download_each_run E2 (discovered_devices self) ids [] w1)
    as (paths & w2 & new & Hrun & Hs & Hall).
  { intros name fid Hin. apply Hids in Hin. destruct Hin as (d & Hin & _).
    rewrite (dict_get_In name d _ Hnd Hin). discriminate. }
  assert (Hall' :
    Forall2 (fun knf s =>
               let '(k, (device_name, file_id)) := knf in
               exists d,
                 dict_get device_name (discovered_devices self) = Some d /\
                 s_tx s =
                 if reachable (net E2 (ip d) (port d))
                 then dumps E2
                        (PDict ([("command", PStr "GET_VIDEO");
                                 ("timestamp", PFloat (clock E2 k));
                                 ("deviceId", PStr "controller")] ++
                                if String.eqb file_id "" then []
                                else [("fileId", PStr file_id)]))
                 else [])
            (combine (seq (ticks w1) (List.length ids)) ids) new).
  { eapply Forall2_impl; [|exact Hall].
    intros [k [device_name file_id]] s (d & Hd & Htx). exists d.
    split; [exact Hd|]. rewrite Htx. simpl fst. simpl snd.
    unfold message_of. simpl truthy.
    destruct (String.eqb file_id ""); reflexivity. }
  set (self1 := {| discovered_devices := discovered_devices self;
                   last_file_ids := ids;
                   last_downloaded_files := last_downloaded_files self;
                   debug := debug self |}).
  exists self1, w1.
  assert (Hdl : exists self2, download_all_command E2 self1 w1 = (Ret self2, w2) \/
                              (ids = [] /\ download_all_command E2 self1 w1 = (Ret self2, w1))).
  { unfold download_all_command.
    change (last_file_ids self1) with ids.
    change (discovered_devices self1) with (discovered_devices self).
    destruct ids as [|nf ids'] eqn:Hi.
    - exists self1. right. split; reflexivity.
    - rewrite <- Hi in *. unfold bind. rewrite Hrun.
      destruct paths; eexists; left; reflexivity. }
  destruct Hdl as (self2 & [Hdl|[Hnil Hdl]]).
  - exists self2, w2, new. split; [reflexivity|]. split; [exact Hdl|].
    split; [exact Hids|]. split; [exact Hs|exact Hall'].
  - exists self2, w1, []. split; [reflexivity|]. split; [exact Hdl|].
    split; [exact Hids|]. split; [now rewrite app_nil_r|].
    change (last_file_ids self1) with ids. rewrite Hnil. constructor.
Qed.

Lemma download_all_asks_for_stopped_files_witness :
  exists self1 w1 self2 w2 new,
    stop_command Sample.one_down Fleet.studio Sample.w0 = (Ret self1, w1) /\
    download_all_command Fleet.transfers self1 w1 = (Ret self2, w2) /\
    (forall name fid,
       In (name, fid) (last_file_ids self1) <->
       exists d, In (name, d) (discovered_devices Fleet.studio) /\
                 link_value Sample.one_down (ip d) (port d) "STOP_RECORDING" None =
                 PStr fid) /\
    socks w2 = socks w1 ++ new /\
    Forall2 (fun knf s =>
               let '(k, (device_name, file_id)) := knf in
               exists d,
                 dict_get device_name (discovered_devices Fleet.studio) = Some d /\
                 s_tx s =
                 if reachable (net Fleet.transfers (ip d) (port d))
                 then dumps Fleet.transfers
                        (PDict ([("command", PStr "GET_VIDEO");
                                 ("timestamp", PFloat (clock Fleet.transfers k));
                                 ("deviceId", PStr "controller")] ++
                                if String.eqb file_id "" then []
                                else [("fileId", PStr file_id)]))
                 else [])
            (combine (seq (ticks w1) (List.length (last_file_ids self1)))
                     (last_file_ids self1))
            new.
Proof.
  apply (download_all_asks_for_stopped_files Sample.one_down Fleet.transfers Fleet.studio
           Sample.w0).
  - discriminate.
  - repeat constructor; simpl; intuition discriminate.
Defined.

(** A file id that is the empty string: the device answers [stop] with the
    JSON text of the empty string, which [stop] keeps as the file id of the
    device; the request of [download-all] then has no [fileId]. *)
Example empty_file_id_is_kept_and_not_sent :
  exists self1 w1 self2 w2 s,
    stop_command Fleet.empty_answer Fleet.booth Sample.w0 = (Ret self1, w1) /\
    last_file_ids self1 = [("cam1", "")] /\
    download_all_command Fleet.empty_answer self1 w1 = (Ret self2, w2) /\
    socks w2 = socks w1 ++ [s] /\
    s_tx s = dumps Fleet.empty_answer
               (PDict [("command", PStr "GET_VIDEO");
                       ("timestamp", PFloat 101);
                       ("deviceId", PStr "controller")]).
Proof.
  do 5 eexists. split; [vm_compute; reflexivity|]. split; [reflexivity|].
  split; [vm_compute; reflexivity|]. split; reflexivity.
Qed.


(** ** A transfer cut by a fault *)

Section Interrupted.

Variable E : env.

(** The payload loop met by a fault before the declared size is reached:
    what has arrived is written, and the fault comes out of the loop. *)
Lemma download_loop_fault fuel :
  forall chunks bytes_received content w ticks0 pre s files0 path n e rest,
  w = {| ticks := ticks0; socks := pre ++ [s];
         files := dict_set path content files0 |} ->
  s_open s = true ->
  s_rx s = map Data chunks ++ Fault e :: rest ->
  Forall (fun c => c <> []) chunks ->
  (rx_weight (map Data chunks) < fuel)%nat ->
  0 <= bytes_received ->
  bytes_received + len (List.concat chunks) < n ->
  download_loop fuel (List.length pre) path (NInt n) bytes_received w =
  (Raise e,
   {| ticks := ticks0;
      socks := pre ++ [{| s_open := true; s_send := s_send s; s_rx := rest;
                          s_tx := s_tx s |}];
      files := dict_set path (content ++ List.concat chunks) files0 |}).
Proof.
  induction fuel as [|fuel IH];
    intros chunks br content w t pre s f0 path n e rest Hw Ho Hrx Hcs Hfuel Hbr Hshort;
    [lia|].
  assert (Hlt : br < n) by (unfold len in Hshort; lia).
  simpl. rewrite Qltb_inject_Z.
  replace (br <? n) with true by (symmetry; now apply Z.ltb_lt).
  unfold bind at 1. unfold lift at 1.
  unfold num_sub, min_8192, lt_int. rewrite Qltb_inject_Z.
  set (k := if n - br <? 8192 then n - br else 8192).
  assert (Hk : 0 < k <= n - br).
  { unfold k. destruct (n - br <? 8192) eqn:H8; [lia|]. apply Z.ltb_ge in H8. lia. }
  assert (Hsize : recv_size (if n - br <? 8192 then NInt (n - br) else NInt 8192) = Ret k).
  { unfold k. now destruct (n - br <? 8192). }
  rewrite Hsize. cbv iota beta. unfold bind at 1.
  erewrite sock_recv_snoc; [|exact Hw|exact Ho|lia].
  rewrite Hrx. destruct chunks as [|c cs].
  - simpl. rewrite app_nil_r. reflexivity.
  - inversion Hcs as [|? ? Hc Hcs']; subst.
    destruct (rx_take_chunks_then (Z.to_nat k) c cs (Fault e :: rest) ltac:(lia) Hc Hcs')
      as (chunk & cs' & Htake & Hchunk & Hcs'' & Hcat & Hw').
    rewrite Htake. simpl fst. simpl snd. cbv iota.
    assert (Hem : is_empty chunk = false) by (destruct chunk; [congruence|reflexivity]).
    rewrite Hem. cbv iota. unfold bind at 1. unfold file_write at 1.
    simpl files. rewrite dict_get_set_same. unfold set_files. simpl ticks.
    simpl socks. simpl files. rewrite dict_set_twice. cbv iota beta.
    eapply eq_trans.
    { apply (IH cs' (br + len chunk) (content ++ chunk) _ t pre
               {| s_open := true; s_send := s_send s;
                  s_rx := map Data cs' ++ Fault e :: rest; s_tx := s_tx s |}
               f0 path n e rest eq_refl eq_refl eq_refl Hcs'');
        [lia|unfold len; lia|rewrite <- Hcat, len_app in Hshort; lia]. }
    rewrite <- Hcat, <- app_assoc. reflexivity.
Qed.

Lemma handle_file_download_interrupted w ticks0 pre s files0 device_ip file_id
    len4 header file_name n chunks e rest :
  w = {| ticks := ticks0; socks := pre ++ [s]; files := files0 |} ->
  s_open s = true ->
  s_rx s = Data len4 :: Data header :: map Data chunks ++ Fault e :: rest ->
  List.length len4 = 4%nat ->
  unpack_be32 len4 = len header ->
  header <> [] ->
  header_fields E header = Ret (file_name, NInt n) ->
  makedirs_ok E = true ->
  open_ok E (local_path_of E device_ip file_name) = true ->
  Forall (fun c => c <> []) chunks ->
  len (List.concat chunks) < n ->
  let local_path := local_path_of E device_ip file_name in
  exists s',
    _handle_file_download E (List.length pre) device_ip file_id w =
    (Ret (PBool false),
     {| ticks := ticks0; socks := pre ++ [s'];
        files := dict_set local_path (List.concat chunks) files0 |}) /\
    s_open s' = false.
Proof.
  intros Hw Ho Hrx H4 Hunpack Hne Hfields Hmk Hopen Hcs Hshort local_path.
  unfold _handle_file_download, try_except.
  unfold bind at 1.
  erewrite sock_recv_snoc; [|exact Hw|exact Ho|lia].
  rewrite Hrx. unfold rx_take at 1 2.
  replace (List.length len4 <=? Z.to_nat 4)%nat with true
    by (rewrite H4; reflexivity).
  simpl fst. simpl snd. cbv iota.
  replace (len len4 =? 4) with true by (unfold len; rewrite H4; reflexivity).
  change (negb true) with false. cbv iota.
  unfold bind at 1. unfold with_fuel at 1. unfold fuel_of at 1. simpl socks.
  rewrite nth_error_snoc. simpl s_rx. rewrite Hunpack.
  cbn [rx_weight].
  set (tail := map Data chunks ++ Fault e :: rest).
  set (s1 := {| s_open := true; s_send := s_send s;
                s_rx := Data header :: tail; s_tx := s_tx s |}).
  rewrite (recv_header_loop_exact _ _ ticks0 pre s1 files0 header tail
             eq_refl eq_refl eq_refl Hne).
  cbv iota. rewrite header_steps, Hfields.
  unfold bind at 1. unfold os_makedirs at 1. rewrite Hmk. unfold ret at 1. cbv iota.
  fold local_path.
  unfold bind at 1. unfold file_open at 1. fold local_path in Hopen. rewrite Hopen.
  cbv iota beta. unfold set_files. simpl ticks. simpl socks. simpl files.
  unfold bind at 1. unfold with_fuel at 1. unfold fuel_of at 1. simpl socks.
  rewrite nth_error_snoc. simpl s_rx.
  set (s2 := {| s_open := true; s_send := s_send s1; s_rx := tail; s_tx := s_tx s1 |}).
  pose proof (download_loop_fault (S (rx_weight tail)) chunks 0 []
                _ ticks0 pre s2 files0 local_path n e rest eq_refl eq_refl eq_refl Hcs)
    as Hrun.
  simpl app in Hrun.
  match goal with |- context [download_loop ?f ?fd ?p ?sz ?br ?W] =>
    replace (download_loop f fd p sz br W)
      with (@Raise Z e,
            {| ticks := ticks0;
               socks := pre ++ [{| s_open := true; s_send := s_send s2; s_rx := rest;
                                   s_tx := s_tx s2 |}];
               files := dict_set local_path (List.concat chunks) files0 |})
      by (symmetry; apply Hrun; [unfold tail; rewrite rx_weight_app; lia|lia|lia])
  end.
  cbv iota beta. unfold bind at 1.
  erewrite sock_close_snoc; [|reflexivity]. cbv iota beta.
  eexists. split; reflexivity.
Qed.

End Interrupted.

(** X17: a transfer cut by a fault leaves its part of the file.  When the
    header is good and a fault (a timeout, a reset) comes after fewer bytes
    than the header declares, the call returns [False] and has closed its
    socket, and the file of the transfer is there with the bytes that had
    arrived: it is not removed. *)
Theorem interrupted_transfer_leaves_partial_file E device_ip device_port timestamp
    file_id w len4 header file_name n chunks e rest :
  reachable (net E device_ip device_port) = true ->
  p_rx (net E device_ip device_port) =
    Data len4 :: Data header :: map Data chunks ++ Fault e :: rest ->
  List.length len4 = 4%nat ->
  unpack_be32 len4 = len header ->
  header <> [] ->
  header_fields E header = Ret (file_name, NInt n) ->
  makedirs_ok E = true ->
  open_ok E (local_path_of E device_ip file_name) = true ->
  Forall (fun c => c <> []) chunks ->
  len (List.concat chunks) < n ->
  exists w' s,
    send_command E device_ip device_port "GET_VIDEO" timestamp file_id w =
      (Ret (PBool false), w') /\
    dict_get (local_path_of E device_ip file_name) (files w') =
      Some (List.concat chunks) /\
    socks w' = socks w ++ [s] /\
    s_open s = false.
Proof.
  intros Hreach Hrx H4 Hunpack Hne Hfields Hmk Hopen Hcs Hshort.
  unfold reachable in *. rewrite send_command_unfold. cbv zeta.
  destruct (p_connect (net E device_ip device_port)); [discriminate|].
  destruct (p_send (net E device_ip device_port)) eqn:Hsend; [discriminate|].
  unfold try_except, with_socket, connected_socket, handle_response.
  change (String.eqb "GET_VIDEO" "GET_VIDEO") with true. cbv iota.
  lazymatch goal with |- context [_handle_file_download E _ _ _ ?W] =>
    destruct (handle_file_download_interrupted E W _ (socks w) _ _ device_ip file_id
                len4 header file_name n chunks e rest
                eq_refl eq_refl Hrx H4 Hunpack Hne Hfields Hmk Hopen Hcs Hshort)
      as (s' & Hrun & Ho)
  end.
  rewrite Hrun. eexists _, s'. split; [reflexivity|]. simpl files.
  split; [apply dict_get_set_same|]. simpl. auto.
Qed.

Lemma interrupted_transfer_leaves_partial_file_witness :
  exists w' s,
    send_command Fleet.transfers "10.0.0.3" 8080 "GET_VIDEO" None (Some "abc123")
      Sample.w0 = (Ret (PBool false), w') /\
    dict_get (local_path_of Fleet.transfers "10.0.0.3" (PStr "clip.mp4")) (files w') =
      Some (List.concat [repeat x01 6]) /\
    socks w' = socks Sample.w0 ++ [s] /\
    s_open s = false.
Proof.
  apply (interrupted_transfer_leaves_partial_file Fleet.transfers "10.0.0.3" 8080 None
           (Some "abc123") Sample.w0 (Sample.be32 (len Sample.short_header))
           Sample.short_header (PStr "clip.mp4") 16 [repeat x01 6] OSError []).
  - reflexivity.
  - reflexivity.
  - reflexivity.
  - reflexivity.
  - discriminate.
  - reflexivity.
  - reflexivity.
  - reflexivity.
  - repeat constructor. discriminate.
  - reflexivity.
Defined.

(** ** A transfer, however the bytes are cut into segments *)

Lemma app_eq_app_prefix {A} (a x b y : list A) :
  a ++ x = b ++ y -> (List.length a <= List.length b)%nat ->
  exists b', b = a ++ b' /\ x = b' ++ y.
Proof.
  revert b. induction a as [|u a IH]; intros b H Hlen; simpl in *.
  - exists b. auto.
  - destruct b as [|v b]; simpl in *; [lia|].
    injection H as -> H. destruct (IH b H ltac:(lia)) as (b' & -> & ->).
    exists b'. auto.
Qed.

Section Segments.

Variable E : env.

(** The header loop reads exactly the bytes of the header off the front of
    the stream, in as many reads as it takes. *)
Lemma recv_header_loop_chunks fuel :
  forall cs header_data w ticks0 pre s files0 header_size more after,
  w = {| ticks := ticks0; socks := pre ++ [s]; files := files0 |} ->
  s_open s = true ->
  s_rx s = map Data cs ->
  Forall (fun c => c <> []) cs ->
  (rx_weight (map Data cs) < fuel)%nat ->
  List.concat cs = more ++ after ->
  len header_data + len more = header_size ->
  exists cs',
    recv_header_loop fuel (List.length pre) header_size header_data w =
    (Ret (header_data ++ more),
     {| ticks := ticks0;
        socks := pre ++ [{| s_open := true; s_send := s_send s; s_rx := map Data cs';
                            s_tx := s_tx s |}];
        files := files0 |}) /\
    Forall (fun c => c <> []) cs' /\
    List.concat cs' = after.
Proof.
  induction fuel as [|fuel IH];
    intros cs hd w t pre s f size more after Hw Ho Hrx Hcs Hfuel Hcat Hsize; [lia|].
  cbn [recv_header_loop].
  destruct (len hd <? size) eqn:Hlt.
  2:{ apply Z.ltb_ge in Hlt.
      assert (more = []) by (destruct more; [reflexivity|unfold len in *; simpl in *; lia]).
      subst more. rewrite app_nil_r. exists cs.
      split; [|split; [assumption|exact Hcat]].
      rewrite Hw. unfold ret. f_equal. f_equal. f_equal.
      destruct s; simpl in *; subst; reflexivity. }
  apply Z.ltb_lt in Hlt.
  unfold bind at 1.
  erewrite sock_recv_snoc; [|exact Hw|exact Ho|lia].
  rewrite Hrx. destruct cs as [|c cs].
  { exfalso. simpl in Hcat. symmetry in Hcat. apply app_eq_nil in Hcat.
    destruct Hcat as [-> _]. unfold len in *. simpl in *. lia. }
  inversion Hcs as [|? ? Hc Hcs']; subst.
  destruct (rx_take_chunks (Z.to_nat (len hd + len more - len hd)) c cs
              ltac:(lia) Hc Hcs')
    as (chunk & cs' & Htake & Hchunk & Hlen & _ & Hcs'' & Hcat' & Hw').
  rewrite Htake. simpl fst. simpl snd. cbv iota.
  assert (Hem : is_empty chunk = false) by (destruct chunk; [congruence|reflexivity]).
  rewrite Hem. cbv iota.
  rewrite <- Hcat' in Hcat.
  destruct (app_eq_app_prefix chunk (List.concat cs') more after Hcat)
    as (more' & -> & Hrest); [unfold len in *; lia|].
  destruct (IH cs' (hd ++ chunk) _ t pre
              {| s_open := true; s_send := s_send s; s_rx := map Data cs';
                 s_tx := s_tx s |} f (len hd + len (chunk ++ more')) more' after
              eq_refl eq_refl eq_refl Hcs'')
    as (cs2 & Hrun & Hcs2 & Hcat2).
  - lia.
  - exact Hrest.
  - rewrite !len_app. lia.
  - exists cs2. split; [|split; assumption].
    eapply eq_trans; [exact Hrun|]. rewrite <- app_assoc. reflexivity.
Qed.

Lemma handle_file_download_segments w ticks0 pre s files0 device_ip file_id
    pieces len4 header file_name n payload :
  w = {| ticks := ticks0; socks := pre ++ [s]; files := files0 |} ->
  s_open s = true ->
  s_rx s = map Data pieces ->
  Forall (fun c => c <> []) pieces ->
  (4 <= List.length (List.hd [] pieces))%nat ->
  List.concat pieces = len4 ++ header ++ payload ->
  List.length len4 = 4%nat ->
  unpack_be32 len4 = len header ->
  header_fields E header = Ret (file_name, NInt n) ->
  makedirs_ok E = true ->
  open_ok E (local_path_of E device_ip file_name) = true ->
  let local_path := local_path_of E device_ip file_name in
  exists s',
    _handle_file_download E (List.length pre) device_ip file_id w =
    (Ret (PStr local_path),
     {| ticks := ticks0; socks := pre ++ [s'];
        files := dict_set local_path (firstn (Z.to_nat n) payload) files0 |}) /\
    s_open s' = false.
Proof.
  intros Hw Ho Hrx Hcs Hfirst Hcat H4 Hunpack Hfields Hmk Hopen local_path.
  destruct pieces as [|c cs]; [simpl in Hfirst; lia|]. simpl in Hfirst.
  inversion Hcs as [|? ? Hc Hcs']; subst.
  unfold _handle_file_download, try_except.
  unfold bind at 1.
  erewrite sock_recv_snoc; [|reflexivity|exact Ho|lia].
  rewrite Hrx.
  destruct (rx_take_chunks (Z.to_nat 4) c cs ltac:(lia) Hc Hcs')
    as (chunk & cs1 & Htake & Hchunk & Hlen & Hfirstn & Hcs1 & Hcat1 & Hw1).
  rewrite Htake. simpl fst. simpl snd. cbv iota.
  assert (Hlen4 : List.length chunk = 4%nat).
  { rewrite Hfirstn, length_firstn. replace (Z.to_nat 4) with 4%nat by reflexivity. lia. }
  rewrite <- Hcat1 in Hcat.
  destruct (app_eq_app_prefix chunk (List.concat cs1) len4 (header ++ payload) Hcat)
    as (l & Hl & Hrest); [lia|].
  assert (l = []).
  { apply (f_equal (@List.length byte)) in Hl. rewrite length_app in Hl.
    destruct l; [reflexivity|simpl in Hl; lia]. }
  subst l. rewrite app_nil_r in Hl. clear Hfirstn. subst chunk. simpl in Hrest.
  replace (len len4 =? 4) with true by (unfold len; rewrite H4; reflexivity).
  change (negb true) with false. cbv iota.
  unfold bind at 1. unfold with_fuel at 1. unfold fuel_of at 1. simpl socks.
  rewrite nth_error_snoc. simpl s_rx.
  set (s1 := {| s_open := true; s_send := s_send s; s_rx := map Data cs1;
                s_tx := s_tx s |}).
  destruct (recv_header_loop_chunks (S (rx_weight (map Data cs1))) cs1 [] _ ticks0 pre s1
              files0 (unpack_be32 len4) header payload eq_refl eq_refl eq_refl Hcs1)
    as (cs2 & Hrun & Hcs2 & Hcat2); [lia|exact Hrest|rewrite Hunpack; reflexivity|].
  rewrite Hrun. cbv iota. rewrite app_nil_l.
  rewrite header_steps, Hfields.
  unfold bind at 1. unfold os_makedirs at 1. rewrite Hmk. unfold ret at 1. cbv iota.
  fold local_path.
  unfold bind at 1. unfold file_open at 1. fold local_path in Hopen. rewrite Hopen.
  cbv iota beta. unfold set_files. simpl ticks. simpl socks. simpl files.
  unfold bind at 1. unfold with_fuel at 1. unfold fuel_of at 1. simpl socks.
  rewrite nth_error_snoc. simpl s_rx.
  set (s2 := {| s_open := true; s_send := s_send s1; s_rx := map Data cs2;
                s_tx := s_tx s1 |}).
  destruct (download_loop_drain (S (rx_weight (map Data cs2))) cs2 0 []
              _ ticks0 pre s2 files0 local_path n eq_refl eq_refl eq_refl Hcs2)
    as (s' & Hrun' & Ho'); [lia|lia|].
  rewrite Z.sub_0_r, Hcat2 in Hrun'. simpl app in Hrun'.
  match goal with |- context [download_loop ?f ?fd ?p ?sz ?br ?W] =>
    replace (download_loop f fd p sz br W)
      with (Ret (0 + len (firstn (Z.to_nat n) payload)),
            {| ticks := ticks0; socks := pre ++ [s'];
               files := dict_set local_path (firstn (Z.to_nat n) payload) files0 |})
      by (symmetry; exact Hrun')
  end.
  cbv iota beta. unfold bind at 1.
  erewrite sock_close_snoc; [|reflexivity]. cbv iota beta.
  eexists. split; reflexivity.
Qed.

End Segments.

(** X18: a transfer does not depend on how the bytes are cut into
    segments.  When the bytes that arrive are the four bytes of the length,
    the header and a payload, in pieces of any sizes (the first piece with
    at least four bytes), and the header is good, the call saves the first
    [fileSize] bytes of the payload under the name made of the device and
    the header, and returns the path. *)
Theorem transfer_whatever_the_segments E device_ip device_port timestamp file_id w
    pieces len4 header file_name n payload :
  reachable (net E device_ip device_port) = true ->
  p_rx (net E device_ip device_port) = map Data pieces ->
  Forall (fun c => c <> []) pieces ->
  (4 <= List.length (List.hd [] pieces))%nat ->
  List.concat pieces = len4 ++ header ++ payload ->
  List.length len4 = 4%nat ->
  unpack_be32 len4 = len header ->
  header_fields E header = Ret (file_name, NInt n) ->
  makedirs_ok E = true ->
  open_ok E (local_path_of E device_ip file_name) = true ->
  exists w',
    send_command E device_ip device_port "GET_VIDEO" timestamp file_id w =
      (Ret (PStr (local_path_of E device_ip file_name)), w') /\
    dict_get (local_path_of E device_ip file_name) (files w') =
      Some (firstn (Z.to_nat n) payload).
Proof.
  intros Hreach Hrx Hcs Hfirst Hcat H4 Hunpack Hfields Hmk Hopen.
  unfold reachable in *. rewrite send_command_unfold. cbv zeta.
  destruct (p_connect (net E device_ip device_port)); [discriminate|].
  destruct (p_send (net E device_ip device_port)) eqn:Hsend; [discriminate|].
  unfold try_except, with_socket, connected_socket, handle_response.
  change (String.eqb "GET_VIDEO" "GET_VIDEO") with true. cbv iota.
  lazymatch goal with |- context [_handle_file_download E _ _ _ ?W] =>
    destruct (handle_file_download_segments E W _ (socks w) _ _ device_ip file_id
                pieces len4 header file_name n payload
                eq_refl eq_refl Hrx Hcs Hfirst Hcat H4 Hunpack Hfields Hmk Hopen)
      as (s' & Hrun & _)
  end.
  rewrite Hrun. eexists. split; [reflexivity|]. simpl files. apply dict_get_set_same.
Qed.

Lemma transfer_whatever_the_segments_witness :
  exists w',
    send_command Fleet.transfers "10.0.0.1" 8080 "GET_VIDEO" None (Some "abc123")
      Sample.w0 =
      (Ret (PStr (local_path_of Fleet.transfers "10.0.0.1" (PStr "clip.mp4"))), w') /\
    dict_get (local_path_of Fleet.transfers "10.0.0.1" (PStr "clip.mp4")) (files w') =
      Some (firstn (Z.to_nat 16) Fleet.payload).
Proof.
  apply (transfer_whatever_the_segments Fleet.transfers "10.0.0.1" 8080 None
           (Some "abc123") Sample.w0
           [firstn 7 Fleet.stream; firstn 30 (skipn 7 Fleet.stream); skipn 37 Fleet.stream]
           (Sample.be32 (len Sample.short_header)) Sample.short_header
           (PStr "clip.mp4") 16 Fleet.payload).
  - reflexivity.
  - reflexivity.
  - repeat constructor; vm_compute; discriminate.
  - apply Nat.leb_le. reflexivity.
  - reflexivity.
  - reflexivity.
  - reflexivity.
  - reflexivity.
  - reflexivity.
  - reflexivity.
Defined.

(** ** The interactive mode: [start] *)

(** X19: [start] is a start without delay.  The clock is read once, and
    when the reading is not zero every device within reach is sent the
    [START_RECORDING] request whose timestamp is that reading itself, not
    the reading plus the delay of a synchronised start; nothing is sent to
    the others. *)
Theorem start_command_stamps_now E self w :
  discovered_devices self <> [] ->
  ~ (clock E (ticks w) == 0)%Q ->
  exists w' new,
    start_command E self w = (Ret self, w') /\
    ticks w' = S (ticks w) /\
    socks w' = socks w ++ new /\
    Forall2 (fun nd s =>
               s_tx s = if reachable (net E (ip (snd nd)) (port (snd nd)))
                        then dumps E
                               (PDict [("command", PStr "START_RECORDING");
                                       ("timestamp", PFloat (clock E (ticks w)));
                                       ("deviceId", PStr "controller")])
                        else [])
            (discovered_devices self) new.
Proof.
  intros Hne Hpos. apply truthy_nonzero in Hpos.
  unfold start_command. unfold bind at 1. rewrite time_time_run. cbv iota beta.
  set (now := clock E (ticks w)) in *.
  destruct (send_command_to_all_world E (discovered_devices self) "START_RECORDING"
              (Some now) 3 (set_ticks (S (ticks w)) w) Hne)
    as (r & w' & new & Hrun & Hticks & Hsocks & Htx).
  assert (Hs : stamp_of E (Some now) (set_ticks (S (ticks w)) w) = now)
    by (unfold stamp_of; now rewrite Hpos).
  assert (Hc : clock_reads (Some now) = 0%nat) by (unfold clock_reads; now rewrite Hpos).
  change (is_none (Some now)) with false in Hticks, Htx.
  rewrite andb_false_r in Hticks, Htx. cbv iota in Hticks, Htx.
  rewrite Hs in Hticks, Htx. rewrite Hc in Hticks.
  unfold bind. rewrite Hrun. exists w', new.
  split; [reflexivity|]. split; [simpl in Hticks; lia|]. split; [exact Hsocks|].
  eapply Forall2_impl; [|exact Htx].
  intros nd s (t' & Ht' & Htx'). rewrite Htx', (Ht' Hpos). reflexivity.
Qed.

Lemma start_command_stamps_now_witness :
  exists w' new,
    start_command Sample.one_down Fleet.studio Sample.w0 = (Ret Fleet.studio, w') /\
    ticks w' = S (ticks Sample.w0) /\
    socks w' = socks Sample.w0 ++ new /\
    Forall2 (fun nd s =>
               s_tx s =
               if reachable (net Sample.one_down (ip (snd nd)) (port (snd nd)))
               then dumps Sample.one_down
                      (PDict [("command", PStr "START_RECORDING");
                              ("timestamp",
                               PFloat (clock Sample.one_down (ticks Sample.w0)));
                              ("deviceId", PStr "controller")])
               else [])
            (discovered_devices Fleet.studio) new.
Proof.
  apply (start_command_stamps_now Sample.one_down Fleet.studio Sample.w0).
  - discriminate.
  - discriminate.
Defined.

(** ** The device link, whatever the peer does *)

(** X20: a call that is given no timestamp.  It reads the clock once and
    stamps its request with that reading: when the device can be reached,
    what the call sends is the request with the command, that timestamp,
    the device id "controller" and the file id, if one is given and is not
    empty; nothing is sent to a device out of reach.  The call makes one
    socket and leaves the others as they are. *)
Theorem call_without_timestamp E device_ip device_port command file_id w :
  exists v w' s,
    send_command E device_ip device_port command None file_id w = (Ret v, w') /\
    ticks w' = S (ticks w) /\
    socks w' = socks w ++ [s] /\
    s_tx s =
      if reachable (net E device_ip device_port) then
        dumps E
          (PDict ([("command", PStr command);
                   ("timestamp", PFloat (clock E (ticks w)));
                   ("deviceId", PStr "controller")] ++
                  match file_id with
                  | Some f => if String.eqb f "" then [] else [("fileId", PStr f)]
                  | None => []
                  end))
      else [].
Proof.
  destruct (send_command_run E device_ip device_port command None file_id w)
    as (v & w' & s & Hrun & Ht & Hs & Htx).
  exists v, w', s. split; [exact Hrun|]. split; [exact Ht|]. split; [exact Hs|].
  rewrite Htx. destruct (reachable _); [|reflexivity]. f_equal.
  unfold message_of, stamp_of. simpl truthy.
  destruct file_id as [f|]; [destruct (String.eqb f "")|]; reflexivity.
Qed.
